(** * niimpy.preprocessing: screen and battery feature extraction

    A shallow embedding of [niimpy/preprocessing/battery.py] and
    [niimpy/preprocessing/screen.py], and the properties of the
    event-reconciliation and transition-classification pipeline.

    Layout:
    - [py]      the fragment of Python the two modules rely on: exceptions,
                objects held by reference, the call protocol;
    - [pd], [np] the pandas and numpy operations the code calls, on a
                row-oriented model of DataFrame and Series;
    - [b]       battery.py;
    - the functions of screen.py, in source order;
    - the properties. *)

From Stdlib Require Import ZArith String Ascii List Lia Bool DecimalString.
From stdpp Require Import base option list gmap strings sorting.

Local Open Scope Z_scope.

(** ** Python: exceptions, objects, state *)

Module py.

(** The exceptions the two modules can raise, directly or through pandas.
    [Unmodelled what] is not an exception of Python: it marks a run that
    leaves the fragment of pandas this development covers (a number that is
    not an integer, a numeric notation other than a plain integer literal,
    a column whose dtype its cells do not determine).  Nothing is said
    about what the code does from there on. *)
Inductive exn :=
| AssertionError (msg : string)
| TypeError
| KeyError (key : string)
| ValueError
| AttributeError
| InvalidIndexError
| UnboundLocalError (name : string)
| Unmodelled (what : string).

(** The outcome of evaluating an expression or running a statement. *)
Inductive outcome (A : Type) :=
| Ok (a : A)
| Raise (e : exn).
Arguments Ok {A} a.
Arguments Raise {A} e.

#[global] Instance outcome_ret : MRet outcome := @Ok.
#[global] Instance outcome_bind : MBind outcome := λ A B f m,
  match m with Ok a => f a | Raise e => Raise e end.

(** [str(int)] and the reading of an integer literal. *)
Definition str (z : Z) : string := NilZero.string_of_int (Z.to_int z).
Definition int_of_str (s : string) : option Z := Z.of_int <$> NilZero.int_of_string s.

Definition is_digit (a : ascii) : bool :=
  let n := N_of_ascii a in ((48 <=? n) && (n <=? 57))%N.

Fixpoint all_chars (p : ascii → bool) (s : string) : bool :=
  match s with
  | EmptyString => true
  | String a s' => p a && all_chars p s'
  end.

(** [s.isnumeric()] on ASCII text: non-empty and digits only (a sign or a
    decimal point makes it false). *)
Definition isnumeric (s : string) : bool :=
  match s with
  | EmptyString => false
  | _ => all_chars is_digit s
  end.

End py.
Export py.

(** ** pandas: cells, Series, DataFrame *)

Module pd.

(** The reductions of a resampler. *)
Inductive reducer := r_sum | r_min | r_max | r_mean | r_median | r_std.

(** One cell of a table.  Numeric columns hold integers ([Int], also for a
    float64 column whose values are integral, which is all the pipeline
    produces before [total_seconds]) or [NaN]; [NaN] also stands for NaT and
    None.  Timestamps and Timedeltas count nanoseconds.  [Seconds ns] is the
    float [ns / 1e9] that [total_seconds] returns.  [Reduced op vs] is the
    value of the reduction [op] over the cells [vs] of one resampling
    window; the arithmetic of the reduction is not interpreted. *)
#[warnings="-register-all"]
Inductive cell :=
| NaN
| Int (z : Z)
| Str (s : string)
| Timestamp (ns : Z)
| Timedelta (ns : Z)
| Seconds (ns : Z)
| Reduced (op : reducer) (vals : list cell).

(** A row label: one cell per index level. *)
Abbreviation label := (list cell).

(** A row: its cells by column name. *)
Abbreviation row := (gmap string cell).

Record Series := mkSeries {
  name : option string;
  items : list (label * cell)
}.

(** A table: its columns, its rows in order, and the number of levels of
    its index.  Every label of a table read from data has [nlevels] cells;
    on a table without rows [nlevels] is all that is left of the index. *)
Record DataFrame := mkDF {
  columns : list string;
  rows : list (label * row);
  nlevels : nat
}.

Definition values (s : Series) : list cell := snd <$> items s.

Definition with_values (s : Series) (vs : list cell) : Series :=
  mkSeries (name s) (zip_with (λ it v, (it.1, v)) (items s) vs).

(** [df.empty] and [len(df)]. *)
Definition empty (df : DataFrame) : bool :=
  match rows df, columns df with
  | [], _ | _, [] => true
  | _, _ => false
  end.

Definition series_empty (s : Series) : bool :=
  match items s with [] => true | _ => false end.

Definition len (df : DataFrame) : nat := length (rows df).

Definition has_column (c : string) (df : DataFrame) : bool :=
  bool_decide (c ∈ columns df).

Definition at_col (c : string) (r : label * row) : cell := default NaN (r.2 !! c).

(** [df[c]] as the list of its cells, top to bottom. *)
Definition getcol (c : string) (df : DataFrame) : outcome (list cell) :=
  if has_column c df then Ok (at_col c <$> rows df) else Raise (KeyError c).

(** [df[c] = vs], for [vs] as long as the table. *)
Definition setcol (c : string) (vs : list cell) (df : DataFrame) : DataFrame :=
  mkDF (if has_column c df then columns df else columns df ++ [c])
       (zip_with (λ r v, (r.1, <[c := v]> r.2)) (rows df) vs)
       (nlevels df).

(** [df[c] = v] for a scalar [v]. *)
Definition setcol_scalar (c : string) (v : cell) (df : DataFrame) : DataFrame :=
  setcol c (replicate (len df) v) df.

(** [df[cs]] for a list of column names. *)
Definition select (cs : list string) (df : DataFrame) : outcome DataFrame :=
  match List.find (λ c, negb (has_column c df)) cs with
  | Some c => Raise (KeyError c)
  | None => Ok (mkDF cs ((λ r : label * row, (r.1, filter (λ kv : string * cell, kv.1 ∈ cs) r.2)) <$> rows df)
                     (nlevels df))
  end.

(** [df.drop(cs, axis=1)]. *)
Definition drop_columns (cs : list string) (df : DataFrame) : outcome DataFrame :=
  match List.find (λ c, negb (has_column c df)) cs with
  | Some c => Raise (KeyError c)
  | None => Ok (mkDF (List.filter (λ c, negb (bool_decide (c ∈ cs))) (columns df))
                     ((λ r : label * row, (r.1, foldr delete r.2 cs)) <$> rows df)
                     (nlevels df))
  end.

(** [df[mask]] for a boolean mask as long as the table. *)
Fixpoint mask_filter {A} (mask : list bool) (l : list A) : list A :=
  match mask, l with
  | m :: mask', x :: l' => if m then x :: mask_filter mask' l' else mask_filter mask' l'
  | _, _ => []
  end.

Definition where_rows (mask : list bool) (df : DataFrame) : DataFrame :=
  mkDF (columns df) (mask_filter mask (rows df)) (nlevels df).

(** [s.shift(periods)]: values move down by [periods] (up when negative);
    the vacated places hold NaN. *)
Definition shift (periods : Z) (vs : list cell) : list cell :=
  let n := length vs in
  if 0 <=? periods
  then take n (replicate (Z.to_nat periods) NaN ++ vs)
  else drop (Z.to_nat (- periods)) vs ++ replicate (Nat.min n (Z.to_nat (- periods))) NaN.

(** The float64 nearest to an integer, ties to even: the integers up to
    2^53 in magnitude are exact, and the integers of an int64 column are
    far from the largest float64. *)
Definition f64 (z : Z) : Z :=
  let a := Z.abs z in
  if a <=? 2 ^ 53 then z
  else
    let e := Z.log2 a - 52 in
    let q := Z.shiftr a e in
    let r := a - Z.shiftl q e in
    let half := Z.shiftl 1 (e - 1) in
    Z.sgn z * Z.shiftl (if (half <? r) || ((r =? half) && Z.odd q) then q + 1 else q) e.

(** Elementwise [a - b].  Numbers are subtracted in float64: the one
    subtraction of numbers in the pipeline (line 60 of screen.py) has on
    its right a shifted column, whose NaN makes it float64, so that both
    operands are converted and the difference is rounded.  Dates and
    durations count nanoseconds in int64. *)
Definition sub_cell (a b : cell) : outcome cell :=
  match a, b with
  | NaN, (NaN | Int _ | Timestamp _ | Timedelta _ | Seconds _)
  | (Int _ | Timestamp _ | Timedelta _ | Seconds _), NaN => Ok NaN
  | Int x, Int y => Ok (Int (f64 (f64 x - f64 y)))
  | Timestamp x, Timestamp y => Ok (Timedelta (x - y))
  | Timedelta x, Timedelta y => Ok (Timedelta (x - y))
  | Timestamp x, Timedelta y => Ok (Timestamp (x - y))
  | Seconds x, Seconds y => Ok (Seconds (x - y))
  | _, _ => Raise TypeError
  end.

Fixpoint sub (a b : list cell) : outcome (list cell) :=
  match a, b with
  | x :: a', y :: b' => c ← sub_cell x y; cs ← sub a' b'; Ok (c :: cs)
  | _, _ => Ok []
  end.

(** [s.diff()]. *)
Definition diff (vs : list cell) : outcome (list cell) := sub vs (shift 1 vs).

(** [a + b] on two columns of strings. *)
Fixpoint add_str (a b : list cell) : outcome (list cell) :=
  match a, b with
  | Str x :: a', Str y :: b' => cs ← add_str a' b'; Ok (Str (x +:+ y) :: cs)
  | [], _ | _, [] => Ok []
  | _, _ => Raise TypeError
  end.

(** Elementwise [s == v] against an integer or a string: NaN and cells of
    another kind compare unequal. *)
Definition eq_int (v : Z) (c : cell) : bool :=
  match c with Int z => z =? v | _ => false end.

Definition eq_str (v : string) (c : cell) : bool :=
  match c with Str s => String.eqb s v | _ => false end.

(** Elementwise [s > pd.Timedelta(thr)]: NaT compares false, a number does
    not compare. *)
Definition gt_timedelta (thr : Z) (c : cell) : outcome bool :=
  match c with
  | Timedelta ns => Ok (thr <? ns)
  | NaN => Ok false
  | _ => Raise TypeError
  end.

(** [s.between(lo, hi, inclusive)] on one cell, with the boolean [inclusive]
    of the call in battery.py: both bounds are kept or both are excluded.
    A missing value is not between the bounds; text, dates and durations do
    not compare with integers. *)
Definition between (lo hi : Z) (inclusive : bool) (c : cell) : outcome bool :=
  match c with
  | Int v => Ok (if inclusive then (lo <=? v) && (v <=? hi) else (lo <? v) && (v <? hi))
  | NaN => Ok false
  | Seconds _ => Raise (Unmodelled "a float compared with the bounds")
  | _ => Raise TypeError
  end.

(** [pd.to_numeric] on one cell: numbers stay, dates give their
    nanoseconds, text that is a plain integer literal (digits after an
    optional minus sign) gives that integer.  The literal is kept up to
    2^53 in magnitude, where int64 and float64 agree, so that the cell is
    the same whichever dtype the other cells give the column.  Other text
    is left to pandas: a decimal or an exponent gives a float, a larger
    integer depends on the column, the rest is refused. *)
Definition to_numeric_cell (c : cell) : outcome cell :=
  match c with
  | NaN => Ok NaN
  | Int z => Ok (Int z)
  | Seconds ns => Ok (Seconds ns)
  | Timestamp ns | Timedelta ns => Ok (Int ns)
  | Str s =>
      match int_of_str s with
      | Some z => if Z.abs z <=? 2 ^ 53 then Ok (Int z)
                  else Raise (Unmodelled "integer literal beyond 2^53")
      | None => Raise (Unmodelled "text that is not an integer literal")
      end
  | Reduced _ _ => Raise TypeError
  end.

Definition to_numeric (vs : list cell) : outcome (list cell) := mapM to_numeric_cell vs.

(** [s.astype(int)] and [s.astype(str)] on one cell. *)
Definition astype_int (c : cell) : outcome cell :=
  match c with
  | Int z => Ok (Int z)
  | Str s =>
      match int_of_str s with
      | Some z => Ok (Int z)
      | None => Raise (Unmodelled "text that is not an integer literal")
      end
  | NaN => Raise ValueError
  | _ => Raise TypeError
  end.

Definition astype_str (c : cell) : outcome cell :=
  match c with
  | Int z => Ok (Str (str z))
  | Str s => Ok (Str s)
  | _ => Raise TypeError
  end.

(** [fillna(v)] on a cell, a column, a table. *)
Definition fillna_cell (v : cell) (c : cell) : cell :=
  match c with NaN => v | _ => c end.

Definition fillna (v : cell) (df : DataFrame) : DataFrame :=
  mkDF (columns df) ((λ r : label * row, (r.1, fillna_cell v <$> r.2)) <$> rows df)
       (nlevels df).

(** [s.replace(olds, new)] on integer cells. *)
Definition replace_cell (olds : list Z) (new : Z) (c : cell) : cell :=
  match c with
  | Int z => if bool_decide (z ∈ olds) then Int new else c
  | _ => c
  end.

(** [s.dt.total_seconds()] on one cell. *)
Definition total_seconds (c : cell) : outcome cell :=
  match c with
  | Timedelta ns => Ok (Seconds ns)
  | NaN => Ok NaN
  | _ => Raise AttributeError
  end.


(** *** Ordering, sorting, grouping *)

(** The order [sort_values] and [groupby] use inside one column; NaN goes
    last.  Cells of different kinds are never compared: a column mixing
    kinds is rejected first ([sortable]). *)
Definition compare_cell (a b : cell) : comparison :=
  match a, b with
  | NaN, NaN => Eq
  | NaN, _ => Gt
  | _, NaN => Lt
  | Int x, Int y | Timestamp x, Timestamp y
  | Timedelta x, Timedelta y | Seconds x, Seconds y => x ?= y
  | Str s, Str t => String.compare s t
  | _, _ => Eq
  end.

Definition kind (c : cell) : option nat :=
  match c with
  | NaN => None
  | Int _ => Some 0%nat
  | Str _ => Some 1%nat
  | Timestamp _ => Some 2%nat
  | Timedelta _ => Some 3%nat
  | Seconds _ => Some 4%nat
  | Reduced _ _ => Some 5%nat
  end.

Fixpoint same_kind (k : option nat) (vs : list cell) : bool :=
  match vs with
  | [] => true
  | v :: vs' =>
      match kind v, k with
      | None, _ => same_kind k vs'
      | Some 5%nat, _ => false
      | Some n, None => same_kind (Some n) vs'
      | Some n, Some m => (n =? m)%nat && same_kind k vs'
      end
  end.

Definition sortable (vs : list cell) : bool := same_kind None vs.

Fixpoint compare_rows (by_ : list string) (r1 r2 : label * row) : comparison :=
  match by_ with
  | [] => Eq
  | c :: by' =>
      match compare_cell (at_col c r1) (at_col c r2) with
      | Eq => compare_rows by' r1 r2
      | o => o
      end
  end.

Definition row_leb (by_ : list string) (r1 r2 : label * row) : bool :=
  match compare_rows by_ r1 r2 with Gt => false | _ => true end.

(** Stable insertion: [r] came before every row of [l], so it stays before
    the rows it ties with. *)
Fixpoint insert_row (by_ : list string) (r : label * row) (l : list (label * row))
  : list (label * row) :=
  match l with
  | [] => [r]
  | r' :: l' => if row_leb by_ r r' then r :: l else r' :: insert_row by_ r l'
  end.

Definition sort_rows (by_ : list string) (l : list (label * row)) : list (label * row) :=
  foldr (insert_row by_) [] l.

(** [df.sort_values(by=by_)]: a stable lexicographic sort on several keys. *)
Definition sort_values (by_ : list string) (df : DataFrame) : outcome DataFrame :=
  match List.find (λ c, negb (has_column c df)) by_ with
  | Some c => Raise (KeyError c)
  | None =>
      if forallb (λ c, sortable (at_col c <$> rows df)) by_
      then Ok (mkDF (columns df) (sort_rows by_ (rows df)) (nlevels df))
      else Raise TypeError
  end.

(** The distinct keys of a column in ascending order; NaN keys form no group. *)
Fixpoint insert_key (k : cell) (ks : list cell) : list cell :=
  match ks with
  | [] => [k]
  | k' :: ks' =>
      match compare_cell k k' with
      | Lt => k :: ks
      | Eq => ks
      | Gt => k' :: insert_key k ks'
      end
  end.

Definition group_keys (vs : list cell) : list cell :=
  foldr insert_key [] (List.filter (λ v, match v with NaN => false | _ => true end) vs).

Definition in_group (c : string) (k : cell) (r : label * row) : bool :=
  match at_col c r with
  | NaN => false
  | v => match compare_cell v k with Eq => true | _ => false end
  end.

(** [df.groupby(c, as_index=False).apply(f)] for an [f] that keeps the
    columns and drops rows of every group: the groups in key order, each
    passed through [f], each row label prefixed with the number of its
    group, which makes one more index level.  Where there is no group (no
    row, or no key other than NaN) nothing is concatenated: the result is
    an empty table on a plain index. *)
Definition groupby_apply (c : string) (f : list (label * row) → list (label * row))
    (df : DataFrame) : outcome DataFrame :=
  vs ← getcol c df;
  if sortable vs
  then Ok (mkDF (columns df)
            (mjoin (imap (λ i k, (λ r : label * row, (Int (Z.of_nat i) :: r.1, r.2))
                                   <$> f (List.filter (in_group c k) (rows df)))
                         (group_keys vs)))
            (match group_keys vs with [] => 1%nat | _ => S (nlevels df) end))
  else Raise TypeError.

(** [x.iloc[:-1]] and [x.iloc[1:]]. *)
Definition iloc_but_last {A} (l : list A) : list A := removelast l.
Definition iloc_from_1 {A} (l : list A) : list A := tail l.

(** [df.droplevel(0)]: only the labels change; an index cannot lose its
    only level, whether the table has rows or not. *)
Definition droplevel0 (df : DataFrame) : outcome DataFrame :=
  if (1 <? nlevels df)%nat && forallb (λ r : label * row, (1 <? length r.1)%nat) (rows df)
  then Ok (mkDF (columns df) ((λ r : label * row, (tail r.1, r.2)) <$> rows df)
                (nlevels df - 1))
  else Raise ValueError.

(** *** Concatenation *)

Definition fill_columns (cs : list string) (r : label * row) : label * row :=
  (r.1, foldr (λ c m, match m !! c with Some _ => m | None => <[c := NaN]> m end) r.2 cs).

Definition union_columns (a b : list string) : list string :=
  a ++ List.filter (λ c, negb (bool_decide (c ∈ a))) b.

(** [pd.concat(dfs)] along the rows: the columns are united, the cells a
    table lacks are NaN. *)
Definition concat (dfs : list DataFrame) : outcome DataFrame :=
  match dfs with
  | [] => Raise ValueError
  | _ =>
      let cs := foldl union_columns [] (columns <$> dfs) in
      Ok (mkDF cs (mjoin ((λ df, fill_columns cs <$> rows df) <$> dfs))
               (default 1%nat (nlevels <$> head dfs)))
  end.

(** A Series among DataFrames is concatenated as a one-column table, the
    column named after the Series (0 when it has no name). *)
Definition series_to_frame (s : Series) : DataFrame :=
  let c := default "0"%string (name s) in
  mkDF [c] ((λ it : label * cell, (it.1, {[c := it.2]})) <$> items s)
       (match items s with it :: _ => length it.1 | [] => 1%nat end).

Fixpoint cell_eqb (a b : cell) : bool :=
  match a, b with
  | NaN, NaN => true
  | Int x, Int y | Timestamp x, Timestamp y
  | Timedelta x, Timedelta y | Seconds x, Seconds y => x =? y
  | Str s, Str t => String.eqb s t
  | Reduced o vs, Reduced o' vs' =>
      match o, o' with
      | r_sum, r_sum | r_min, r_min | r_max, r_max
      | r_mean, r_mean | r_median, r_median | r_std, r_std =>
          (fix go (l l' : list cell) : bool :=
             match l, l' with
             | [], [] => true
             | x :: l, y :: l' => cell_eqb x y && go l l'
             | _, _ => false
             end) vs vs'
      | _, _ => false
      end
  | _, _ => false
  end.

Fixpoint label_eqb (a b : label) : bool :=
  match a, b with
  | [], [] => true
  | x :: a', y :: b' => cell_eqb x y && label_eqb a' b'
  | _, _ => false
  end.

Fixpoint unique_labels (ls : list label) : bool :=
  match ls with
  | [] => true
  | l :: ls' => negb (existsb (label_eqb l) ls') && unique_labels ls'
  end.

Fixpoint add_labels (seen new : list label) : list label :=
  match new with
  | [] => seen
  | l :: new' =>
      add_labels (if existsb (label_eqb l) seen then seen else seen ++ [l]) new'
  end.

Definition row_at (l : label) (df : DataFrame) : row :=
  match List.find (λ r : label * row, label_eqb l r.1) (rows df) with
  | Some r => (fill_columns (columns df) r).2
  | None => (fill_columns (columns df) (l, ∅)).2
  end.

(** [pd.concat(dfs, axis=1)]: the tables side by side, joined on the union
    of their labels; tables with repeated labels cannot be aligned. *)
Definition concat_axis1 (dfs : list DataFrame) : outcome DataFrame :=
  match dfs with
  | [] => Raise ValueError
  | _ =>
      if forallb (λ df, unique_labels (fst <$> rows df)) dfs
      then
        let ls := foldl add_labels [] ((λ df, fst <$> rows df) <$> dfs) in
        Ok (mkDF (mjoin (columns <$> dfs))
                 ((λ l, (l, foldr (λ df m, row_at l df ∪ m) ∅ dfs)) <$> ls)
                 (default 1%nat (nlevels <$> head dfs)))
      else Raise InvalidIndexError
  end.

(** *** Index manipulation *)

Definition level_names (n : nat) : list string :=
  match n with
  | 1%nat => ["index"%string]
  | _ => (λ i, "level_" +:+ str (Z.of_nat i)) <$> seq 0 n
  end.

(** [df.reset_index()]: the labels become columns, the rows are numbered. *)
Definition reset_index (df : DataFrame) : outcome DataFrame :=
  let n := match rows df with [] => nlevels df | r :: _ => length r.1 end in
  let names := level_names n in
  if existsb (λ c, has_column c df) names then Raise ValueError
  else Ok (mkDF (names ++ columns df)
             (imap (λ i (r : label * row),
                      ([Int (Z.of_nat i)],
                       foldr (λ nc m, <[nc.1 := nc.2]> m) r.2 (zip names r.1)))
                   (rows df))
             1%nat).

(** [df.set_index(cs)]: the columns [cs] become the labels. *)
Definition set_index (cs : list string) (df : DataFrame) : outcome DataFrame :=
  match List.find (λ c, negb (has_column c df)) cs with
  | Some c => Raise (KeyError c)
  | None => Ok (mkDF (List.filter (λ c, negb (bool_decide (c ∈ cs))) (columns df))
                     ((λ r : label * row, ((λ c, at_col c r) <$> cs, foldr delete r.2 cs))
                        <$> rows df)
                     (length cs))
  end.

(** [df.rename(columns={old: new})]. *)
Definition rename_column (old new : string) (df : DataFrame) : DataFrame :=
  mkDF ((λ c, if String.eqb c old then new else c) <$> columns df)
       ((λ r : label * row,
           (r.1, match r.2 !! old with
                 | Some v => <[new := v]> (delete old r.2)
                 | None => r.2
                 end)) <$> rows df)
       (nlevels df).

End pd.

Module np.
(** [np.where(cond, 1, 0)]. *)
Definition where_1_0 (cond : list bool) : list pd.cell :=
  (λ b : bool, if b then pd.Int 1 else pd.Int 0) <$> cond.
End np.

(** ** Python objects and the interpreter state *)

Module store.
Import pd.

Definition loc := nat.

(** A Python value as the functions receive it: None or a reference. *)
Inductive pyval :=
| PyNone
| PyRef (l : loc).

#[global] Instance pyval_eq_dec : EqDecision pyval.
Proof. solve_decision. Defined.

(** The values of a configuration mapping: a column name, or the keyword
    arguments of [resample]. *)
Inductive dval :=
| DStr (s : string)
| DKwargs (kw : gmap string string).

(** The function objects of screen.py whose name starts with [screen_], in
    the order of their definition. *)
Inductive feature :=
| f_screen_off
| f_screen_count
| f_screen_duration
| f_screen_duration_min
| f_screen_duration_max
| f_screen_duration_mean
| f_screen_duration_median
| f_screen_duration_std
| f_screen_first_unlock.

(** The objects of the heap.  [ODict] is a dict with string keys (a
    configuration); [OFeatures] is a dict with function keys, in insertion
    order (a feature selection). *)
Inductive object :=
| ODataFrame (df : DataFrame)
| OSeries (s : Series)
| ODict (d : gmap string dval)
| OFeatures (fs : list (feature * pyval)).

Record state := mkState {
  objects : list object;
  stdout : list string
}.

(** Computations: they read and write the state and return or raise; the
    state survives an exception. *)
Definition M (A : Type) : Type := state → outcome A * state.

#[global] Instance outcome_fmap : FMap outcome := λ A B f m,
  match m with Ok a => Ok (f a) | Raise e => Raise e end.

#[global] Instance M_ret : MRet M := λ A a st, (Ok a, st).
#[global] Instance M_bind : MBind M := λ A B f m st,
  match m st with
  | (Ok a, st') => f a st'
  | (Raise e, st') => (Raise e, st')
  end.

Definition raise {A} (e : exn) : M A := λ st, (Raise e, st).

Definition lift {A} (o : outcome A) : M A := λ st, (o, st).

(** What a value refers to in a state. *)
Definition object_at (st : state) (v : pyval) : option object :=
  match v with PyRef l => objects st !! l | PyNone => None end.

Definition frame_at (st : state) (v : pyval) : option DataFrame :=
  match object_at st v with Some (ODataFrame d) => Some d | _ => None end.

Definition series_at (st : state) (v : pyval) : option Series :=
  match object_at st v with Some (OSeries s) => Some s | _ => None end.

Definition config_at (st : state) (v : pyval) : option (gmap string dval) :=
  match object_at st v with Some (ODict d) => Some d | _ => None end.

Definition deref (v : pyval) : M (option object) := λ st, (Ok (object_at st v), st).

(** A new object; its reference is fresh. *)
Definition new (o : object) : M pyval := λ st,
  (Ok (PyRef (length (objects st))), mkState (objects st ++ [o]) (stdout st)).

(** The object behind a reference is replaced: every holder of the
    reference sees the change. *)
Definition put (v : pyval) (o : object) : M unit := λ st,
  match v with
  | PyRef l => (Ok (), mkState (<[l := o]> (objects st)) (stdout st))
  | PyNone => (Raise TypeError, st)
  end.

Definition print (line : string) : M unit := λ st,
  (Ok (), mkState (objects st) (stdout st ++ [line])).

Inductive pytype := t_DataFrame | t_dict.

Definition isinstance (v : pyval) (t : pytype) : M bool :=
  o ← deref v;
  mret match o, t with
       | Some (ODataFrame _), t_DataFrame => true
       | Some (ODict _ | OFeatures _), t_dict => true
       | _, _ => false
       end.

Definition py_assert (cond : M bool) (msg : string) : M unit :=
  b ← cond; if b : bool then mret () else raise (AssertionError msg).

(** Attribute or item access on a value that must be a DataFrame, a Series,
    a configuration. *)
Definition frame (v : pyval) : M DataFrame :=
  o ← deref v;
  match o with Some (ODataFrame d) => mret d | _ => raise AttributeError end.

Definition series (v : pyval) : M Series :=
  o ← deref v;
  match o with Some (OSeries s) => mret s | _ => raise AttributeError end.

Definition config (v : pyval) : M (gmap string dval) :=
  o ← deref v;
  match o with Some (ODict d) => mret d | _ => raise TypeError end.

Definition new_frame (d : DataFrame) : M pyval := new (ODataFrame d).

(** An operation with [inplace=True]. *)
Definition inplace (v : pyval) (f : DataFrame → outcome DataFrame) : M unit :=
  d ← frame v; d' ← lift (f d); put v (ODataFrame d').

(** [df[c] = e], the right-hand side evaluated on the table as it is. *)
Definition assign (v : pyval) (c : string) (e : DataFrame → outcome (list cell)) : M unit :=
  inplace v (λ d, vs ← e d; Ok (setcol c vs d)).

(** An operation that returns a new table. *)
Definition derive (v : pyval) (f : DataFrame → outcome DataFrame) : M pyval :=
  d ← frame v; d' ← lift (f d); new_frame d'.

(** [df.c]: the column as an attribute. *)
Definition getattr_col (c : string) (d : DataFrame) : outcome (list cell) :=
  if has_column c d then Ok (at_col c <$> rows d) else Raise AttributeError.

(** A value used as a column name. *)
Definition column_name (v : dval) : outcome string :=
  match v with DStr s => Ok s | DKwargs _ => Raise TypeError end.

(** *** Calls *)

(** A function of the repository: the number of its positional parameters,
    the defaults of the last ones, its body on the bound parameters. *)
Record pyfun := mkFun {
  params : nat;
  defaults : list pyval;
  body : list pyval → M pyval
}.

(** A call with positional arguments: too few or too many is a TypeError,
    raised before the body runs. *)
Definition call (f : pyfun) (args : list pyval) : M pyval :=
  let n := length args in
  if ((n <? params f - length (defaults f)) || (params f <? n))%nat
  then raise TypeError
  else body f (args ++ drop (length (defaults f) - (params f - n)) (defaults f)).

End store.
Export store.

(** ** battery.py *)

Module b.
Import pd.

Definition is_text (c : cell) : bool :=
  match c with Str _ => true | _ => false end.

(** [battery_status.str.isnumeric()].  The [.str] accessor exists on a
    column of dtype object: one that holds text, possibly with missing
    values and other objects among it; on a column of numbers it raises.
    A cell that is not text gives a missing value.  The cells of a column
    without rows do not tell its dtype. *)
Definition str_isnumeric (vs : list cell) : outcome (list (option bool)) :=
  match vs with
  | [] => Raise (Unmodelled "dtype of an empty column")
  | _ =>
      if existsb is_text vs
      then Ok ((λ c, match c with Str s => Some (isnumeric s) | _ => None end) <$> vs)
      else Raise AttributeError
  end.

(** [s.all()]: missing values are skipped. *)
Definition all_true (bs : list (option bool)) : bool := forallb (default true) bs.

(** The body of [shutdown_info] on the Series bound to [battery_status]. *)
Definition shutdown (battery_status : Series) : outcome Series :=
  numeric ← str_isnumeric (values battery_status);
  battery_status ←
    (if negb (all_true numeric)
     then with_values battery_status <$> to_numeric (values battery_status)
     else Ok battery_status);
  mask ← mapM (between (-3) 0 false) (values battery_status);
  Ok (mkSeries (name battery_status) (mask_filter mask (items battery_status))).

Definition shutdown_info : pyfun :=
  mkFun 1 [] (λ args,
    match args with
    | [battery_status] =>
        s ← series battery_status;
        out ← lift (shutdown s);
        new (OSeries out)
    | _ => raise TypeError
    end).

End b.

(** ** screen.py *)

Import pd.

Definition msg_frame : string := "Please input data as a pandas DataFrame type".
Definition msg_dict : string := "feature_functions is not a dictionary".
Definition msg_features : string := "Please input the features as a dictionary".

(** The sort key of every stage. *)
Definition sort_key : list string := ["user"; "device"; "datetime"]%string.

(** [col_name], as each function chooses it. *)
Definition screen_column_name (d : gmap string dval) : dval :=
  match d !! "screen_column_name"%string with
  | None => DStr "screen_status"
  | Some v => v
  end.

(** *** util_screen *)

(** Lines 58-64: the detection of missing data points, in place. *)
Definition detect_missing (df : pyval) (col_name : string) : M unit :=
  assign df "missing" (λ d, Ok (replicate (len d) (Int 0)));;
  assign df "next" (λ d, shift (-1) <$> getcol col_name d);;
  assign df "dummy" (λ d, a ← getcol col_name d; n ← getcol "next" d; sub a n);;
  assign df "missing" (λ d, (λ vs, np.where_1_0 (eq_int 0 <$> vs)) <$> getcol "dummy" d);;
  assign df "missing" (λ d, shift 1 <$> getcol "missing" d);;
  inplace df (drop_columns ["dummy"; "next"]%string);;
  inplace df (λ d, Ok (fillna (Int 0) d)).

Definition util_screen : pyfun :=
  mkFun 3 [] (λ args,
    match args with
    | [df; bat; feature_functions] =>
        py_assert (isinstance df t_DataFrame) msg_frame;;
        py_assert (isinstance bat t_DataFrame) msg_frame;;
        py_assert (isinstance feature_functions t_dict) msg_dict;;
        ff ← config feature_functions;
        col_name ← lift (column_name (screen_column_name ff));
        assign df col_name (λ d, getcol col_name d ≫= to_numeric);;
        (* Include the missing points that are due to shutting down the phone *)
        batf ← frame bat;
        df ← (if negb (empty batf)
              then
                shutdown ← call b.shutdown_info [bat; feature_functions];
                s ← series shutdown;
                shutdown ← new (OSeries (with_values s (replace_cell [-1; -2] 0 <$> values s)));
                s ← series shutdown;
                if negb (series_empty s)
                then
                  d ← frame df;
                  df ← (d' ← lift (concat [d; series_to_frame s]); new_frame d');
                  inplace df (λ d, Ok (fillna (Int 0) d));;
                  derive df (select ["user"; "device"; "time"; col_name; "datetime"]%string)
                else mret df
              else mret df);
        (* Sort the dataframe *)
        inplace df (sort_values sort_key);;
        (* Detect missing data points *)
        detect_missing df col_name;;
        df ← derive df (λ d, m ← getattr_col "missing" d; Ok (where_rows (eq_int 0 <$> m) d));
        inplace df (drop_columns ["missing"%string]);;
        mret df
    | _ => raise TypeError
    end).

(** *** event_classification_screen *)

(** Line 106: the pair code, the current status followed by the next one
    (0 after the last row), both written as integers. *)
Definition pair_codes (vs : list cell) : outcome (list cell) :=
  cur ← mapM astype_int vs ≫= mapM astype_str;
  nxt ← mapM astype_int (fillna_cell (Int 0) <$> shift (-1) vs) ≫= mapM astype_str;
  add_str cur nxt.

(** [df[c][mask] = 1] with [mask] the rows whose pair code is in [codes]. *)
Definition flag_codes (df : pyval) (c : string) (codes : list string) : M unit :=
  assign df c (λ d,
    nx ← getattr_col "next" d;
    old ← getcol c d;
    Ok (zip_with (λ (n v : cell), if existsb (λ k, eq_str k n) codes then Int 1 else v) nx old)).

(** Lines 109-114: the four flag columns, cleared and then set from the
    pair codes. *)
Definition assign_flags (df : pyval) : M unit :=
  assign df "use" (λ d, Ok (replicate (len d) (Int 0)));;
  assign df "on" (λ d, Ok (replicate (len d) (Int 0)));;
  assign df "na" (λ d, Ok (replicate (len d) (Int 0)));;
  assign df "off" (λ d, Ok (replicate (len d) (Int 0)));;
  flag_codes df "use" ["30"; "31"; "32"]%string;;
  flag_codes df "on" ["10"; "12"; "13"; "20"]%string;;
  flag_codes df "na" ["21"; "23"]%string;;
  flag_codes df "off" ["01"; "02"; "03"]%string.

(** Lines 104-114: the classification proper; returns the table the flags
    were written to. *)
Definition classify (df : pyval) (col_name : string) : M pyval :=
  inplace df (sort_values sort_key);;
  assign df "next" (λ d, shift (-1) <$> getcol col_name d);;
  assign df "next" (λ d, getcol col_name d ≫= pair_codes);;
  (* Discard transitions between subjects *)
  df ← derive df (groupby_apply "user" iloc_but_last);
  df ← derive df droplevel0;
  assign_flags df;;
  mret df.

Definition event_classification_screen : pyfun :=
  mkFun 2 [] (λ args,
    match args with
    | [df; feature_functions] =>
        py_assert (isinstance df t_DataFrame) msg_frame;;
        py_assert (isinstance feature_functions t_dict) msg_dict;;
        ff ← config feature_functions;
        col_name ← lift (column_name (screen_column_name ff));
        (* Classify the event *)
        df ← classify df col_name;
        inplace df (drop_columns ["next"%string; col_name]);;
        (* Discard the first and last row because they do not have all info *)
        df ← derive df (groupby_apply "user" iloc_from_1);
        df ← derive df (groupby_apply "user" iloc_but_last);
        df ← derive df droplevel0;
        df ← derive df droplevel0;
        mret df
    | _ => raise TypeError
    end).

(** *** duration_util_screen *)

(** [pd.Timedelta('10 hours')], in nanoseconds. *)
Definition thr : Z := 10 * 3600 * 1000000000.

(** Lines 155-156: [~((df.c == 1) & (df.duration > thr))]. *)
Definition keep_mask (c : string) (d : DataFrame) : outcome (list bool) :=
  flag ← getattr_col c d;
  dur ← getattr_col "duration" d;
  long ← mapM (gt_timedelta thr) dur;
  Ok (zip_with (λ (f : cell) (l : bool), negb (eq_int 1 f && l)) flag long).

Definition artifact_filter (c : string) (d : DataFrame) : outcome DataFrame :=
  m ← keep_mask c d; Ok (where_rows m d).

(** Lines 154-156: the two filters, each giving a new table. *)
Definition drop_artifacts (df : pyval) : M pyval :=
  df ← derive df (artifact_filter "on");
  derive df (artifact_filter "use").

Definition duration_util_screen : pyfun :=
  mkFun 1 [] (λ args,
    match args with
    | [df] =>
        py_assert (isinstance df t_DataFrame) msg_frame;;
        inplace df (sort_values sort_key);;
        assign df "duration" (λ d, Ok (replicate (len d) NaN));;
        assign df "duration" (λ d, getcol "datetime" d ≫= diff);;
        assign df "duration" (λ d, shift (-1) <$> getcol "duration" d);;
        (* Discard transitions between subjects *)
        df ← derive df (groupby_apply "user" iloc_but_last);
        df ← derive df droplevel0;
        (* Discard any datapoints whose duration in ON and IN USE states are
           longer than 10 hours because they may be artifacts *)
        df ← drop_artifacts df;
        assign df "duration" (λ d, getcol "duration" d ≫= mapM total_seconds);;
        mret df
    | _ => raise TypeError
    end).

(** *** The metric functions and the dispatcher *)

Section metrics.

(** pandas' resampler, which the repository calls and does not define:
    from the keyword arguments of [resample] and the timestamps of the rows
    of one group, in row order, the windows in ascending order, each with
    its start and the positions of the rows that fall in it. *)
Variable resample : gmap string string → list Z → outcome (list (Z * list nat)).

(** [ALL_FEATURE_FUNCTIONS], the module-level mapping ([import_screen]
    builds it). *)
Variable ALL_FEATURE_FUNCTIONS : pyval.

(** Resampling needs a datetime index. *)
Definition timestamps (rs : list (label * row)) : outcome (list Z) :=
  mapM (λ r : label * row, match r.1 with [Timestamp t] => Ok t | _ => Raise TypeError end) rs.

(** The reduction [op] of column [c] over one window [w] of the group
    [rs] with key [k]. *)
Definition reduce_window (c : string) (op : reducer) (rs : list (label * row)) (k : cell)
    (w : Z * list nat) : label * cell :=
  ([k; Timestamp w.1], Reduced op (omap (λ i, at_col c <$> rs !! i) w.2)).

Definition resample_group (kw : gmap string string) (c : string) (op : reducer)
    (rs : list (label * row)) (k : cell) : outcome (list (label * cell)) :=
  ts ← timestamps rs;
  bins ← resample kw ts;
  Ok (List.map (reduce_window c op rs k) bins).

(** [d.groupby("user")[c].resample(...).op().to_frame(name=nm)], the
    keyword arguments of [resample] being [kw]. *)
Definition resample_by_user (kw : gmap string string) (c nm : string) (op : reducer)
    (d : DataFrame) : outcome DataFrame :=
  us ← getcol "user" d;
  _ ← getcol c d;
  if sortable us
  then
    groups ← mapM (λ k, resample_group kw c op (List.filter (in_group "user" k) (rows d)) k)
                  (group_keys us);
    Ok (mkDF [nm] ((λ it : label * cell, (it.1, {[nm := it.2]})) <$> mjoin groups) 2%nat)
  else Raise TypeError.

(** [feature_functions["resample_args"]] unpacked as keyword arguments. *)
Definition resample_args (feature_functions : pyval) : M (gmap string string) :=
  ff ← config feature_functions;
  match ff !! "resample_args"%string with
  | Some (DKwargs kw) => mret kw
  | Some (DStr _) => raise TypeError
  | None => raise (KeyError "resample_args")
  end.

(** [if not "resample_args" in feature_functions.keys():
       feature_functions["resample_args"] = {"rule":"30T"}]:
    written into the caller's mapping. *)
Definition default_resample_args (feature_functions : pyval) : M unit :=
  ff ← config feature_functions;
  match ff !! "resample_args"%string with
  | Some _ => mret ()
  | None =>
      put feature_functions
          (ODict (<["resample_args"%string := DKwargs {["rule"%string := "30T"%string]}]> ff))
  end.

(** The prologue the metric functions share: the three assertions and the
    reading of [col_name]. *)
Definition prologue (df bat feature_functions : pyval) : M unit :=
  py_assert (isinstance df t_DataFrame) msg_frame;;
  py_assert (isinstance bat t_DataFrame) msg_frame;;
  py_assert (isinstance feature_functions t_dict) msg_dict;;
  ff ← config feature_functions;
  mret ().

(** [d[d.c == v]]. *)
Definition where_eq (c : string) (v : Z) (d : DataFrame) : outcome DataFrame :=
  vs ← getattr_col c d; Ok (where_rows (eq_int v <$> vs) d).

Definition screen_off : pyfun :=
  mkFun 3 [PyNone] (λ args,
    match args with
    | [df; bat; feature_functions] =>
        prologue df bat feature_functions;;
        df ← call util_screen [df; bat; feature_functions];
        (* Select only those OFF events when no missing data is present *)
        df ← derive df (where_eq "screen_status" 0);
        assign df "screen_status" (λ d, Ok (replicate (len d) (Int 1)));;
        df ← derive df (select ["user"; "screen_status"]%string);
        inplace df (λ d, Ok (rename_column "screen_status" "screen_off" d));;
        inplace df reset_index;;
        inplace df (set_index ["user"; "index"]%string);;
        mret df
    | _ => raise TypeError
    end).

(** One of the three columns of a metric: the rows selected by [sel],
    grouped by user, the column [c] resampled and reduced. *)
Definition resampled (feature_functions : pyval) (d2 : DataFrame)
    (sel : DataFrame → outcome DataFrame) (c nm : string) (op : reducer) : M DataFrame :=
  d ← lift (sel d2);
  kw ← resample_args feature_functions;
  lift (resample_by_user kw c nm op d).

Definition screen_count : pyfun :=
  mkFun 3 [PyNone] (λ args,
    match args with
    | [df; bat; feature_functions] =>
        prologue df bat feature_functions;;
        default_resample_args feature_functions;;
        df2 ← call util_screen [df; bat; feature_functions];
        df2 ← call event_classification_screen [df2; feature_functions];
        d2 ← frame df2;
        if (0 <? len d2)%nat
        then
          on ← resampled feature_functions d2 Ok "on" "screen_on_count" r_sum;
          off ← resampled feature_functions d2 Ok "off" "screen_off_count" r_sum;
          use ← resampled feature_functions d2 Ok "use" "screen_use_count" r_sum;
          result ← lift (concat_axis1 [on; off; use]);
          new_frame result
        else
          (* [return result] with [result] never assigned *)
          raise (UnboundLocalError "result")
    | _ => raise TypeError
    end).

(** [screen_duration] and its five variants differ in the reduction and in
    the suffix of the column names. *)
Definition duration_metric (op : reducer) (suffix : string) : pyfun :=
  mkFun 3 [PyNone] (λ args,
    match args with
    | [df; bat; feature_functions] =>
        prologue df bat feature_functions;;
        default_resample_args feature_functions;;
        df2 ← call util_screen [df; bat; feature_functions];
        df2 ← call event_classification_screen [df2; feature_functions];
        df2 ← call duration_util_screen [df2];
        d2 ← frame df2;
        if (0 <? len d2)%nat
        then
          on ← resampled feature_functions d2 (where_eq "on" 1)
                 "duration" ("screen_on_duration" +:+ suffix) op;
          off ← resampled feature_functions d2 (where_eq "off" 1)
                  "duration" ("screen_off_duration" +:+ suffix) op;
          use ← resampled feature_functions d2 (where_eq "use" 1)
                  "duration" ("screen_use_duration" +:+ suffix) op;
          result ← lift (concat_axis1 [on; off; use]);
          new_frame result
        else
          raise (UnboundLocalError "result")
    | _ => raise TypeError
    end).

Definition screen_duration : pyfun := duration_metric r_sum "total".
Definition screen_duration_min : pyfun := duration_metric r_min "minimum".
Definition screen_duration_max : pyfun := duration_metric r_max "maximum".
Definition screen_duration_mean : pyfun := duration_metric r_mean "mean".
Definition screen_duration_median : pyfun := duration_metric r_median "median".
Definition screen_duration_std : pyfun := duration_metric r_std "std".

Definition screen_first_unlock : pyfun :=
  mkFun 3 [] (λ args,
    match args with
    | [df; bat; feature_functions] =>
        prologue df bat feature_functions;;
        default_resample_args feature_functions;;
        df2 ← call util_screen [df; bat; feature_functions];
        df2 ← call event_classification_screen [df2; feature_functions];
        result ← derive df2 (λ d,
          d ← where_eq "on" 1 d;
          resample_by_user {["rule"%string := "1D"%string]} "datetime" "datetime" r_min d);
        derive result (select ["datetime"%string])
    | _ => raise TypeError
    end).

Definition feature_function (f : feature) : pyfun :=
  match f with
  | f_screen_off => screen_off
  | f_screen_count => screen_count
  | f_screen_duration => screen_duration
  | f_screen_duration_min => screen_duration_min
  | f_screen_duration_max => screen_duration_max
  | f_screen_duration_mean => screen_duration_mean
  | f_screen_duration_median => screen_duration_median
  | f_screen_duration_std => screen_duration_std
  | f_screen_first_unlock => screen_first_unlock
  end.

Definition feature_name (f : feature) : string :=
  match f with
  | f_screen_off => "screen_off"
  | f_screen_count => "screen_count"
  | f_screen_duration => "screen_duration"
  | f_screen_duration_min => "screen_duration_min"
  | f_screen_duration_max => "screen_duration_max"
  | f_screen_duration_mean => "screen_duration_mean"
  | f_screen_duration_median => "screen_duration_median"
  | f_screen_duration_std => "screen_duration_std"
  | f_screen_first_unlock => "screen_first_unlock"
  end.

(** The line [print(f'computing {feature}...')] writes; the address in the
    representation of a function object is left out. *)
Definition computing (f : feature) : string :=
  "computing <function " +:+ feature_name f +:+ ">...".

(** The loop over [features.items()]. *)
Fixpoint compute_features (df bat : pyval) (items : list (feature * pyval))
    (computed_features : list pyval) : M (list pyval) :=
  match items with
  | [] => mret computed_features
  | (feature, feature_arg) :: items' =>
      print (computing feature);;
      computed_feature ← call (feature_function feature) [df; bat; feature_arg];
      compute_features df bat items' (computed_features ++ [computed_feature])
  end.

Definition extract_features_screen : pyfun :=
  mkFun 3 [PyNone] (λ args,
    match args with
    | [df; bat; features] =>
        py_assert (isinstance df t_DataFrame) msg_frame;;
        features ← match features with
                   | PyNone => mret ALL_FEATURE_FUNCTIONS
                   | _ => py_assert (isinstance features t_dict) msg_features;; mret features
                   end;
        o ← deref features;
        computed_features ←
          match o with
          | Some (OFeatures fs) => compute_features df bat fs []
          | Some (ODict d) =>
              (* string keys: the first one is printed, then called *)
              match map_to_list d with
              | [] => mret []
              | (k, _) :: _ => print ("computing " +:+ k +:+ "...");; raise TypeError
              end
          | _ => raise AttributeError
          end;
        frames ← mapM frame computed_features;
        computed_features ← lift (concat_axis1 frames);
        new_frame computed_features
    | _ => raise TypeError
    end).

End metrics.

(** The module-level statements of screen.py: every [screen_] function
    mapped to a new empty dict. *)
Definition all_features : list feature :=
  [f_screen_off; f_screen_count; f_screen_duration; f_screen_duration_min;
   f_screen_duration_max; f_screen_duration_mean; f_screen_duration_median;
   f_screen_duration_std; f_screen_first_unlock].

Definition import_screen : M pyval :=
  args ← mapM (λ _ : feature, new (ODict ∅)) all_features;
  new (OFeatures (zip all_features args)).

(** An instance of the resampler, for rules of a fixed length (a count
    followed by S, T, min, H or D): windows of that length, aligned on the
    epoch, from the window of the earliest row to that of the latest. *)
Fixpoint split_digits (s : string) : string * string :=
  match s with
  | String a s' =>
      if is_digit a then let (n, u) := split_digits s' in (String a n, u) else (EmptyString, s)
  | EmptyString => (EmptyString, EmptyString)
  end.

Definition unit_ns (u : string) : option Z :=
  if String.eqb u "S" then Some 1000000000
  else if String.eqb u "T" || String.eqb u "min" then Some 60000000000
  else if String.eqb u "H" then Some 3600000000000
  else if String.eqb u "D" then Some 86400000000000
  else None.

Definition rule_ns (rule : string) : option Z :=
  let (n, u) := split_digits rule in
  w ← unit_ns u;
  k ← (match n with EmptyString => Some 1 | _ => int_of_str n end);
  if 0 <? k then Some (k * w) else None.

Definition positions_in (lo hi : Z) (ts : list Z) : list nat :=
  omap (λ it : nat * Z, if (lo <=? it.2) && (it.2 <? hi) then Some it.1 else None)
       (imap (λ i t, (i, t)) ts).

Definition fixed_windows (kw : gmap string string) (ts : list Z)
  : outcome (list (Z * list nat)) :=
  match kw !! "rule"%string with
  | None => Raise TypeError
  | Some rule =>
      match rule_ns rule, ts with
      | None, _ => Raise ValueError
      | Some _, [] => Ok []
      | Some w, t :: ts' =>
          let first := foldr Z.min t ts' / w * w in
          let last := foldr Z.max t ts' / w * w in
          Ok ((λ i : nat, let lo := first + Z.of_nat i * w in (lo, positions_in lo (lo + w) ts))
                <$> seq 0 (Z.to_nat ((last - first) / w) + 1))
      end
  end.

(** ** States after a write, after an allocation *)

Definition set_object (st : state) (l : loc) (o : object) : state :=
  mkState (<[l := o]> (objects st)) (stdout st).

Definition add_object (st : state) (o : object) : state :=
  mkState (objects st ++ [o]) (stdout st).

(** ** Statements of the properties *)

(** The metric functions whose [feature_functions] parameter has the
    default None. *)
Definition optional_config_metrics resample : list pyfun :=
  [screen_off; screen_count resample; screen_duration resample;
   screen_duration_min resample; screen_duration_max resample;
   screen_duration_mean resample; screen_duration_median resample;
   screen_duration_std resample].

(** ** Sample data *)

Definition battery_sample : Series :=
  mkSeries (Some "battery_status"%string)
    [([Int 0], Str "-3"); ([Int 1], Str "-2"); ([Int 2], Str "-1");
     ([Int 3], Str "0"); ([Int 4], Str "1")].

Definition battery_sample_shutdown : Series :=
  mkSeries (Some "battery_status"%string) [([Int 1], Int (-2)); ([Int 2], Int (-1))].

(** The same records in a column of integers, as the battery sensor codes
    them. *)
Definition battery_codes : Series :=
  mkSeries (Some "battery_status"%string)
    [([Int 0], Int (-3)); ([Int 1], Int (-2)); ([Int 2], Int (-1));
     ([Int 3], Int 0); ([Int 4], Int 1)].

Definition screen_columns : list string :=
  ["user"; "device"; "time"; "screen_status"; "datetime"]%string.

Definition battery_columns : list string :=
  ["user"; "device"; "time"; "battery_status"; "datetime"]%string.

(** A screen event of user [u] on device D1 at time [t] with status [s];
    the table is indexed by the time of the event. *)
Definition event (u : string) (t s : Z) : label * row :=
  ([Timestamp t],
   {[ "user"%string := Str u; "device"%string := Str "D1"; "time"%string := Int t;
      "datetime"%string := Timestamp t; "screen_status"%string := Int s ]}).

Definition battery_event (u : string) (t v : Z) : label * row :=
  ([Timestamp t],
   {[ "user"%string := Str u; "device"%string := Str "D1"; "time"%string := Int t;
      "datetime"%string := Timestamp t; "battery_status"%string := Int v ]}).

(** User U1 of the end-to-end scenario. *)
Definition screen_U1 : DataFrame :=
  mkDF screen_columns [event "U1" 0 1; event "U1" 5 3; event "U1" 20 1; event "U1" 600 0]
       1%nat.

Definition no_battery : DataFrame := mkDF battery_columns [] 1%nat.

(** A shutdown (battery value -2) between the screen events at 5 and 20. *)
Definition battery_shutdown : DataFrame :=
  mkDF battery_columns [battery_event "U1" 7 (-2)] 1%nat.

(** A caller's state: the screen table at 0, the battery table at 1, an
    empty configuration at 2. *)
Definition state_of (screen battery : DataFrame) : state :=
  mkState [ODataFrame screen; ODataFrame battery; ODict ∅] [].

(** Three events of one user: nothing is left after the classifier. *)
Definition screen_three : DataFrame :=
  mkDF screen_columns [event "U1" 0 1; event "U1" 5 3; event "U1" 20 1] 1%nat.

(** Two users; the last reading of U1 and the first reading of U2 have the
    same status. *)
Definition screen_two_users : DataFrame :=
  mkDF screen_columns [event "U1" 0 1; event "U1" 5 0; event "U2" 3 0; event "U2" 9 1]
       1%nat.

(** The chain every duration metric runs on its arguments (lines 285-287),
    stage by stage, on the caller's state [state_of]. *)
Definition merged : M pyval :=
  call util_screen [PyRef 0%nat; PyRef 1%nat; PyRef 2%nat].

Definition classified : M pyval :=
  df ← merged; classify df "screen_status".

Definition trimmed : M pyval :=
  df ← merged; call event_classification_screen [df; PyRef 2%nat].

Definition with_durations : M pyval :=
  df ← trimmed; call duration_util_screen [df].

(** The table a computation returns. *)
Definition returned (m : M pyval) (st : state) : option DataFrame :=
  match m st with
  | (Ok v, st') => frame_at st' v
  | (Raise _, _) => None
  end.

(** The columns of interest of a classified table. *)
Definition transitions (d : DataFrame) : list (cell * cell * (cell * cell * cell * cell)) :=
  (λ r, (at_col "time" r, at_col "next" r,
         (at_col "use" r, at_col "on" r, at_col "na" r, at_col "off" r))) <$> rows d.

(** The state after the import of screen.py by a caller that holds a
    screen table, a battery table and an empty dict; the module-level
    mapping is at 12. *)
Definition imported (screen battery : DataFrame) : state :=
  (import_screen (state_of screen battery)).2.

(** A transition of the flag column [c] is an artifact when it lasts more
    than ten hours. *)
Definition too_long (c : string) (r : label * row) : Prop :=
  at_col c r = Int 1 ∧ ∃ ns, at_col "duration" r = Timedelta ns ∧ thr < ns.

Definition hours (n : Z) : Z := n * 3600 * 1000000000.

(** A row of a classified table with its duration still a Timedelta: the
    flag column [c] set, the other three clear. *)
Definition transition_row (t : Z) (c : string) (duration : Z) : label * row :=
  ([Timestamp t],
   <[c := Int 1]>
     {[ "user"%string := Str "U1"; "device"%string := Str "D1"; "time"%string := Int t;
        "datetime"%string := Timestamp t; "use"%string := Int 0; "on"%string := Int 0;
        "na"%string := Int 0; "off"%string := Int 0;
        "duration"%string := Timedelta duration ]}).

Definition classified_columns : list string :=
  ["user"; "device"; "time"; "datetime"; "use"; "on"; "na"; "off"; "duration"]%string.

Definition durations_sample : DataFrame :=
  mkDF classified_columns
    [transition_row 1 "on" (hours 11); transition_row 2 "on" (hours 9);
     transition_row 3 "off" (hours 12); transition_row 4 "use" (hours 11);
     transition_row 5 "na" (hours 20); transition_row 6 "use" (hours 10)]
    1%nat.

(** ** What a computation may write *)

(** A reference that did not exist when the heap had [n] objects. *)
Definition fresh_for (n : nat) (v : pyval) : Prop :=
  ∃ l, v = PyRef l ∧ (n ≤ l)%nat.

(** [st'] extends [st] and agrees with it on every object of [st] that is
    not referred to by one of [L]. *)
Definition unchanged_except (L : list pyval) (st st' : state) : Prop :=
  (length (objects st) ≤ length (objects st'))%nat ∧
  ∀ l, (l < length (objects st))%nat → PyRef l ∉ L → objects st' !! l = objects st !! l.

(** A computation that, started with at least [n] objects, writes among the
    first [n] only those referred to by [L], and whose results satisfy
    [post]. *)
Definition confined (n : nat) (L : list pyval) {A} (m : M A) (post : A → Prop) : Prop :=
  ∀ st r st', (n ≤ length (objects st))%nat → m st = (r, st') →
    (length (objects st) ≤ length (objects st'))%nat ∧
    (∀ l, (l < n)%nat → PyRef l ∉ L → objects st' !! l = objects st !! l) ∧
    (∀ a, r = Ok a → post a).

(** A value that may be written through. *)
Definition writable (n : nat) (L : list pyval) (v : pyval) : Prop :=
  v ∈ L ∨ fresh_for n v.

(** The nine metric functions. *)
Definition metric_functions resample : list pyfun :=
  optional_config_metrics resample ++ [screen_first_unlock resample].

(** The call [f(args)] in the state [st] writes to no object of [st] but
    those referred to by [L], and what it returns is a new object. *)
Definition leaves_alone (L : list pyval) (f : pyfun) (args : list pyval) (st : state) : Prop :=
  unchanged_except L st (call f args st).2 ∧
  ∀ v, (call f args st).1 = Ok v → fresh_for (length (objects st)) v.

(** The events of a table: user, time, status. *)
Definition events (d : DataFrame) : list (cell * cell * cell) :=
  (λ r, (at_col "user" r, at_col "time" r, at_col "screen_status" r)) <$> rows d.

(** The rows of a trimmed table: time and the four flags. *)
Definition flags (d : DataFrame) : list (cell * (cell * cell * cell * cell)) :=
  (λ r, (at_col "time" r, (at_col "use" r, at_col "on" r, at_col "na" r, at_col "off" r)))
    <$> rows d.

Definition caller_args : list pyval := [PyRef 0%nat; PyRef 1%nat; PyRef 2%nat].

(** ** The table of pair codes *)

Inductive transition := t_use | t_on | t_irrelevant | t_off.

#[global] Instance transition_eq_dec : EqDecision transition.
Proof. solve_decision. Defined.

(** The table by which a pair code is classified. *)
Definition transition_of (code : string) : option transition :=
  if bool_decide (code ∈ ["30"; "31"; "32"]%string) then Some t_use
  else if bool_decide (code ∈ ["10"; "12"; "13"; "20"]%string) then Some t_on
  else if bool_decide (code ∈ ["21"; "23"]%string) then Some t_irrelevant
  else if bool_decide (code ∈ ["01"; "02"; "03"]%string) then Some t_off
  else None.

(** The column that holds the flag of a transition. *)
Definition flag_column (t : transition) : string :=
  match t with
  | t_use => "use"
  | t_on => "on"
  | t_irrelevant => "na"
  | t_off => "off"
  end.

(** The flag of the transition [t] on a row with the pair code [code]: 1
    when the table maps the code to [t], 0 otherwise. *)
Definition flag_for (code : string) (t : transition) : cell :=
  Int (if decide (transition_of code = Some t) then 1 else 0).

(** ** Order of the cells of one column *)

(** A cell of the kind [K], or NaN. *)
Definition kindred (K : nat) (c : cell) : Prop :=
  kind c = None ∨ kind c = Some K.

Definition le_cell (a b : cell) : Prop := compare_cell a b ≠ Gt.

(** The rows are in the order of their users. *)
Definition le_user (r1 r2 : label * row) : Prop :=
  le_cell (at_col "user" r1) (at_col "user" r2).

(** The value [df[c][mask] = 1] leaves in a cell of [c]: 1 where the pair
    code [n] is one of [codes], the old value elsewhere. *)
Definition flag_value (codes : list string) (n old : cell) : cell :=
  if existsb (λ k, eq_str k n) codes then Int 1 else old.

(** The effect of lines 109-114 on one row. *)
Definition clear_flag (c : string) (r : label * row) : label * row :=
  (r.1, <[c := Int 0]> r.2).

Definition mark_flag (c : string) (codes : list string) (r : label * row) : label * row :=
  (r.1, <[c := flag_value codes (at_col "next" r) (at_col c r)]> r.2).

Definition flagged (r : label * row) : label * row :=
  mark_flag "off" ["01"; "02"; "03"]
    (mark_flag "na" ["21"; "23"]
       (mark_flag "on" ["10"; "12"; "13"; "20"]
          (mark_flag "use" ["30"; "31"; "32"]
             (clear_flag "off" (clear_flag "na" (clear_flag "on" (clear_flag "use" r)))))))%string.

(** ** The detection of missing data *)

(** What [a - b == 0] tests on two cells of a numeric column (line 61):
    both hold a number, and the two numbers are the same float64. *)
Definition same_number (a b : cell) : bool :=
  match a, b with
  | Int x, Int y => f64 x =? f64 y
  | _, _ => false
  end.

(** The rows of a table whose status is not the status of the row just
    before them, whichever the users of the two rows; the first row is one
    of them. *)
Definition first_of_run (vs : list cell) : list bool :=
  match vs with
  | [] => []
  | _ :: vs' => true :: zip_with (λ a b, negb (same_number a b)) vs vs'
  end.

(** A row as [util_screen] returns it: the working columns dropped, NaN
    filled with 0 (lines 63, 64 and 67). *)
Definition tidy (r : label * row) : label * row :=
  (r.1, delete "missing"%string
          (fillna_cell (Int 0) <$> foldr delete r.2 ["dummy"; "next"]%string)).

(** ** More sample data *)

(** A configuration that names the status column. *)
Definition config_status : gmap string dval :=
  {[ "screen_column_name"%string := DStr "status" ]}.

(** The events of [screen_U1] with the status in a column named [status]. *)
Definition status_event (u : string) (t s : Z) : label * row :=
  ([Timestamp t],
   {[ "user"%string := Str u; "device"%string := Str "D1"; "time"%string := Int t;
      "datetime"%string := Timestamp t; "status"%string := Int s ]}).

Definition status_U1 : DataFrame :=
  mkDF ["user"; "device"; "time"; "status"; "datetime"]%string
       [status_event "U1" 0 1; status_event "U1" 5 3; status_event "U1" 20 1;
        status_event "U1" 600 0]
       1%nat.

(** A caller's state with a configuration: the screen table at 0, the
    battery table at 1, the configuration at 2. *)
Definition state_with (screen battery : DataFrame) (ff : gmap string dval) : state :=
  mkState [ODataFrame screen; ODataFrame battery; ODict ff] [].

(** ** The default window *)

(** Lines 233 and 234 on the configuration: [resample_args] receives
    [{"rule": "30T"}] where the key is absent. *)
Definition with_default_window (ff : gmap string dval) : gmap string dval :=
  match ff !! "resample_args"%string with
  | Some _ => ff
  | None => <["resample_args"%string := DKwargs {["rule"%string := "30T"%string]}]> ff
  end.

(** The eight metric functions that set the default window. *)
Definition windowed_metrics resample : list pyfun :=
  [screen_count resample; screen_duration resample; screen_duration_min resample;
   screen_duration_max resample; screen_duration_mean resample;
   screen_duration_median resample; screen_duration_std resample;
   screen_first_unlock resample].

(** ** Counting the events of a user *)

(** The number of rows of a table that [groupby("user")] puts in the group
    of key [k]. *)
Definition events_of (k : cell) (d : DataFrame) : nat :=
  length (List.filter (in_group "user" k) (rows d)).

(** ** Transitions of several lengths *)

(** A classified event of user U1 at hour [h]: the flag column [c] set,
    the other three clear. *)
Definition transition_at (h : Z) (c : string) : label * row :=
  ([Timestamp (hours h)],
   <[c := Int 1]>
     {[ "user"%string := Str "U1"; "device"%string := Str "D1"; "time"%string := Int h;
        "datetime"%string := Timestamp (hours h); "use"%string := Int 0;
        "on"%string := Int 0; "na"%string := Int 0; "off"%string := Int 0 ]}).

(** Seven events: an on-transition of 11 hours and one of 9, an
    off-transition of 12 hours, a use-transition of 11 hours, an irrelevant
    one of 20 hours, a use-transition of 10 hours, and the last event. *)
Definition transitions_sample : DataFrame :=
  mkDF ["user"; "device"; "time"; "datetime"; "use"; "on"; "na"; "off"]%string
       [transition_at 0 "on"; transition_at 11 "on"; transition_at 20 "off";
        transition_at 32 "use"; transition_at 43 "na"; transition_at 63 "use";
        transition_at 73 "off"]
       1%nat.

(** ** Edge cases *)

(** Two readings of one user whose statuses differ by one beyond 2^53: as
    float64 they are the same number. *)
Definition screen_large_statuses : DataFrame :=
  mkDF screen_columns [event "U1" 0 9007199254740993; event "U1" 5 9007199254740992] 1%nat.

(** One event of one user. *)
Definition screen_one : DataFrame := mkDF screen_columns [event "U1" 0 1] 1%nat.

(** A classified table without rows. *)
Definition classified_none : DataFrame :=
  mkDF ["user"; "device"; "time"; "datetime"; "use"; "on"; "na"; "off"]%string [] 1%nat.

(** * Properties *)

(** ** Outcomes and lists *)

Lemma bind_Ok {A B} (m : outcome A) (f : A → outcome B) b :
  m ≫= f = Ok b ↔ ∃ a, m = Ok a ∧ f a = Ok b.
Proof.
  destruct m; simpl; split;
    [eauto | intros (?&[=]&?); subst; done | done | intros (?&?&?); done].
Qed.

Lemma fmap_Ok {A B} (m : outcome A) (f : A → B) b :
  f <$> m = Ok b ↔ ∃ a, m = Ok a ∧ b = f a.
Proof.
  destruct m; simpl; split;
    [intros [=]; eauto | intros (?&[=]&?); subst; done | done | intros (?&?&?); done].
Qed.

Lemma mapM_cons_Ok {A B} (f : A → outcome B) x l r :
  mapM f (x :: l) = Ok r ↔ ∃ y k, f x = Ok y ∧ mapM f l = Ok k ∧ r = y :: k.
Proof.
  simpl. split.
  - intros H. apply bind_Ok in H as (y & Hy & H). apply bind_Ok in H as (k & Hk & H).
    injection H as <-. eauto.
  - intros (y & k & -> & Hk & ->). simpl. rewrite Hk. done.
Qed.

Lemma mapM_nil_Ok {A B} (f : A → outcome B) r : mapM f [] = Ok r ↔ r = [].
Proof. simpl. split; [intros [=]; done | intros ->; done]. Qed.

Lemma mapM_length {A B} (f : A → outcome B) l r : mapM f l = Ok r → length r = length l.
Proof.
  revert r. induction l as [|x l IH]; intros r H.
  - by apply mapM_nil_Ok in H as ->.
  - apply mapM_cons_Ok in H as (y & k & _ & Hk & ->). simpl. f_equal. by apply IH.
Qed.

Lemma mask_filter_nil {A} mask : mask_filter mask (@nil A) = [].
Proof. by destruct mask as [|[]]. Qed.

(** ** Running computations *)

Lemma bind_run {A B} (m : M A) (f : A → M B) st :
  (m ≫= f) st =
  match m st with (Ok a, st') => f a st' | (Raise e, st') => (Raise e, st') end.
Proof. reflexivity. Qed.

Lemma isinstance_run v t st :
  isinstance v t st =
  (Ok match object_at st v, t with
      | Some (ODataFrame _), t_DataFrame => true
      | Some (ODict _ | OFeatures _), t_dict => true
      | _, _ => false
      end, st).
Proof. reflexivity. Qed.

Lemma py_assert_run c msg st :
  py_assert c msg st =
  match c st with
  | (Ok true, st') => (Ok (), st')
  | (Ok false, st') => (Raise (AssertionError msg), st')
  | (Raise e, st') => (Raise e, st')
  end.
Proof. unfold py_assert. rewrite bind_run. destruct (c st) as [[[]|] ?]; reflexivity. Qed.

Lemma assert_frame_run v msg st d :
  frame_at st v = Some d → py_assert (isinstance v t_DataFrame) msg st = (Ok (), st).
Proof.
  unfold frame_at. intros H. rewrite py_assert_run, isinstance_run.
  by destruct (object_at st v) as [[]|].
Qed.

Lemma assert_config_run v msg st d :
  config_at st v = Some d → py_assert (isinstance v t_dict) msg st = (Ok (), st).
Proof.
  unfold config_at. intros H. rewrite py_assert_run, isinstance_run.
  by destruct (object_at st v) as [[]|].
Qed.

Lemma frame_run v st d : frame_at st v = Some d → frame v st = (Ok d, st).
Proof.
  unfold frame_at, frame, deref. intros H. rewrite bind_run.
  by destruct (object_at st v) as [[]|]; simplify_eq.
Qed.

Lemma config_run v st d : config_at st v = Some d → config v st = (Ok d, st).
Proof.
  unfold config_at, config, deref. intros H. rewrite bind_run.
  by destruct (object_at st v) as [[]|]; simplify_eq.
Qed.

Lemma series_run v st :
  series v st =
  match series_at st v with Some s => (Ok s, st) | None => (Raise AttributeError, st) end.
Proof.
  unfold series_at, series, deref. rewrite bind_run.
  by destruct (object_at st v) as [[]|].
Qed.

Lemma frame_at_ref st v d :
  frame_at st v = Some d → ∃ l, v = PyRef l ∧ objects st !! l = Some (ODataFrame d).
Proof.
  unfold frame_at, object_at. destruct v as [|l]; [done|].
  destruct (objects st !! l) as [[]|] eqn:E; try done. intros [= ->]. eauto.
Qed.

Lemma frame_at_lt st l d : frame_at st (PyRef l) = Some d → (l < length (objects st))%nat.
Proof. intros H. apply frame_at_ref in H as (? & [= <-] & H). by eapply lookup_lt_Some. Qed.

Lemma inplace_run v f st d :
  frame_at st v = Some d →
  inplace v f st =
  match v, f d with
  | PyRef l, Ok d' => (Ok (), set_object st l (ODataFrame d'))
  | _, Raise e => (Raise e, st)
  | PyNone, _ => (Raise TypeError, st)
  end.
Proof.
  intros H. unfold inplace. rewrite bind_run, (frame_run _ _ _ H), bind_run.
  apply frame_at_ref in H as (l & -> & H). unfold lift. by destruct (f d).
Qed.

Lemma assign_run v c e st d :
  frame_at st v = Some d →
  assign v c e st =
  match v, e d with
  | PyRef l, Ok vs => (Ok (), set_object st l (ODataFrame (setcol c vs d)))
  | _, Raise e => (Raise e, st)
  | PyNone, _ => (Raise TypeError, st)
  end.
Proof.
  intros H. unfold assign. rewrite (inplace_run _ _ _ _ H).
  apply frame_at_ref in H as (l & -> & H). by destruct (e d).
Qed.

Lemma derive_run v f st d :
  frame_at st v = Some d →
  derive v f st =
  match f d with
  | Ok d' => (Ok (PyRef (length (objects st))), add_object st (ODataFrame d'))
  | Raise e => (Raise e, st)
  end.
Proof.
  intros H. unfold derive. rewrite bind_run, (frame_run _ _ _ H), bind_run.
  unfold lift. by destruct (f d).
Qed.

Lemma run_pair {A} (m : M A) st r : (m st).1 = r → m st = (r, (m st).2).
Proof. intros <-. by destruct (m st). Qed.

Lemma ret_run {A} (a : A) st : (mret a : M A) st = (Ok a, st).
Proof. reflexivity. Qed.

Lemma deref_run v st : deref v st = (Ok (object_at st v), st).
Proof. reflexivity. Qed.

Lemma call_arity f args :
  call f args =
  if ((length args <? params f - length (defaults f)) || (params f <? length args))%nat
  then raise TypeError
  else body f (args ++ drop (length (defaults f) - (params f - length args)) (defaults f)).
Proof. reflexivity. Qed.

(** What a value refers to after a write, after an allocation. *)
Lemma object_at_set st l o v :
  (l < length (objects st))%nat →
  object_at (set_object st l o) v = if decide (v = PyRef l) then Some o else object_at st v.
Proof.
  intros Hl. unfold object_at, set_object. simpl. destruct v as [|l'].
  - by rewrite decide_False.
  - destruct (decide (PyRef l' = PyRef l)) as [[= ->]|Hne].
    + by rewrite list_lookup_insert_eq.
    + rewrite list_lookup_insert_ne; [done|congruence].
Qed.

Lemma object_at_add st o v :
  object_at (add_object st o) v =
  if decide (v = PyRef (length (objects st))) then Some o else object_at st v.
Proof.
  unfold object_at, add_object. simpl. destruct v as [|l'].
  - by rewrite decide_False.
  - destruct (decide (PyRef l' = PyRef _)) as [[= ->]|Hne].
    + rewrite lookup_app_r, Nat.sub_diag; [done|lia].
    + destruct (decide (l' < length (objects st))%nat).
      * by rewrite lookup_app_l.
      * rewrite !lookup_ge_None_2; [done|lia|].
        rewrite length_app. simpl. assert (l' ≠ length (objects st)) by congruence. lia.
Qed.

Lemma frame_at_set st l d v :
  (l < length (objects st))%nat →
  frame_at (set_object st l (ODataFrame d)) v =
  if decide (v = PyRef l) then Some d else frame_at st v.
Proof. intros Hl. unfold frame_at. rewrite object_at_set by done. by case_decide. Qed.

Lemma frame_at_set_eq st l d d0 :
  frame_at st (PyRef l) = Some d0 →
  frame_at (set_object st l (ODataFrame d)) (PyRef l) = Some d.
Proof. intros H. rewrite frame_at_set by (by eapply frame_at_lt). by rewrite decide_True. Qed.

Lemma frame_at_set_same st l d :
  (l < length (objects st))%nat → frame_at (set_object st l (ODataFrame d)) (PyRef l) = Some d.
Proof. intros Hl. rewrite frame_at_set by done. by rewrite decide_True. Qed.

Lemma frame_at_set_ne st l o l' d :
  frame_at st (PyRef l') = Some d → l' ≠ l →
  frame_at (set_object st l o) (PyRef l') = Some d.
Proof.
  intros H Hne. unfold frame_at, object_at, set_object in *. cbn [objects].
  by rewrite list_lookup_insert_ne.
Qed.

Lemma frame_at_add_eq st d :
  frame_at (add_object st (ODataFrame d)) (PyRef (length (objects st))) = Some d.
Proof. unfold frame_at. rewrite object_at_add. by rewrite decide_True. Qed.

Lemma frame_at_add_old st o v d :
  frame_at st v = Some d → frame_at (add_object st o) v = Some d.
Proof.
  intros H. destruct (frame_at_ref _ _ _ H) as (l & -> & Hl).
  unfold frame_at. rewrite object_at_add. rewrite decide_False; [done|].
  intros [= ->]. apply lookup_lt_Some in Hl. lia.
Qed.

Lemma set_object_twice st l o1 o2 :
  set_object (set_object st l o1) l o2 = set_object st l o2.
Proof. unfold set_object. simpl. by rewrite list_insert_insert_eq. Qed.

(** One step of a computation [H] that is known to return: the step is
    rewritten with [lem], its outcome is named, the raising case is closed. *)
Tactic Notation "step_with" hyp(H) uconstr(lem) :=
  rewrite bind_run in H; rewrite lem in H;
  match type of H with
  | context [match ?o with Ok _ => _ | Raise _ => _ end] =>
      let E := fresh "E" in destruct o eqn:E; [|discriminate H]
  end.

(** ** battery.py: a column of numbers *)

Lemma str_isnumeric_numbers vs :
  vs ≠ [] → Forall (λ c, c = NaN ∨ ∃ z, c = Int z) vs →
  b.str_isnumeric vs = Raise AttributeError.
Proof.
  intros Hne Hnum. unfold b.str_isnumeric. destruct vs as [|c vs]; [done|].
  assert (existsb b.is_text (c :: vs) = false) as ->; [|done].
  apply not_true_is_false. intros H. apply existsb_exists in H as (x & Hx & Ht).
  apply list_elem_of_In in Hx. rewrite Forall_forall in Hnum.
  by destruct (Hnum x Hx) as [->|[z ->]].
Qed.

Lemma shutdown_info_numbers st battery_status s :
  series_at st battery_status = Some s →
  items s ≠ [] →
  Forall (λ c, c = NaN ∨ ∃ z, c = Int z) (values s) →
  call b.shutdown_info [battery_status] st = (Raise AttributeError, st).
Proof.
  intros Hs Hne Hnum. rewrite call_arity.
  cbn [length params defaults body b.shutdown_info Nat.ltb Nat.leb Nat.sub orb drop app].
  rewrite bind_run, series_run, Hs, bind_run. unfold lift, b.shutdown.
  rewrite str_isnumeric_numbers; [done| |done].
  unfold values. by destruct (items s).
Qed.

(** C7. On a column of integers that holds a shutdown code [v], with
    [-3 < v < 0], [shutdown_info] classifies nothing: the [.str] accessor
    of line 22 raises AttributeError on a column of numbers, before any
    value is compared with the bounds. *)
Theorem shutdown_info_numeric_codes_lost st battery_status s v :
  series_at st battery_status = Some s →
  Forall (λ c, ∃ z, c = Int z) (values s) →
  Int v ∈ values s →
  -3 < v < 0 →
  call b.shutdown_info [battery_status] st = (Raise AttributeError, st).
Proof.
  intros Hs Hnum Hv _. apply (shutdown_info_numbers _ _ s Hs).
  - intros Hnil. unfold values in Hv. rewrite Hnil in Hv. inversion Hv.
  - eapply Forall_impl; [exact Hnum|]. intros c Hc. by right.
Qed.

Lemma shutdown_info_numeric_codes_lost_witness :
  call b.shutdown_info [PyRef 0%nat] (mkState [OSeries battery_codes] [])
  = (Raise AttributeError, mkState [OSeries battery_codes] []).
Proof.
  apply (shutdown_info_numeric_codes_lost (mkState [OSeries battery_codes] []) (PyRef 0%nat)
           battery_codes (-2)).
  - reflexivity.
  - repeat first [apply Forall_nil_2 | apply Forall_cons_2; [eexists; reflexivity|]].
  - apply list_elem_of_further, list_elem_of_here.
  - lia.
Defined.

(** ** util_screen *)

Lemma setcol_nonempty c vs d :
  length vs = len d → empty d = false → empty (setcol c vs d) = false.
Proof.
  unfold empty, setcol, len, has_column. simpl. intros Hlen.
  destruct (rows d) as [|r rs]; [done|]. destruct vs as [|v vs]; [done|]. simpl.
  destruct (columns d) as [|c0 cs]; [done|]. intros _. by destruct (bool_decide _).
Qed.

(** C1. Every call of [util_screen] on a screen table, a non-empty battery
    table and a configuration stops at the call of [shutdown_info], which is
    given two arguments and takes one: TypeError is raised, nothing is
    extracted, remapped or merged, and the only effect is the coercion
    already written to the caller's status column. *)
Theorem util_screen_battery_raises st df bat feature_functions d batf ff col_name vs :
  frame_at st df = Some d →
  frame_at st bat = Some batf →
  config_at st feature_functions = Some ff →
  column_name (screen_column_name ff) = Ok col_name →
  getcol col_name d ≫= to_numeric = Ok vs →
  empty batf = false →
  ∃ l, df = PyRef l ∧
       call util_screen [df; bat; feature_functions] st
       = (Raise TypeError, set_object st l (ODataFrame (setcol col_name vs d))).
Proof.
  intros Hdf Hbat Hff Hcol Hvs Hne.
  destruct (frame_at_ref _ _ _ Hdf) as (l & -> & Hl). exists l. split; [done|].
  rewrite call_arity. cbn [length params defaults body util_screen Nat.ltb Nat.leb
                           Nat.sub orb drop app].
  rewrite bind_run, (assert_frame_run _ _ _ _ Hdf).
  rewrite bind_run, (assert_frame_run _ _ _ _ Hbat).
  rewrite bind_run, (assert_config_run _ _ _ _ Hff).
  rewrite bind_run, (config_run _ _ _ Hff).
  rewrite bind_run. unfold lift at 1. rewrite Hcol.
  rewrite bind_run, (assign_run _ _ _ _ _ Hdf), Hvs.
  assert (∃ batf', frame_at (set_object st l (ODataFrame (setcol col_name vs d))) bat
                     = Some batf' ∧ empty batf' = false) as (batf' & Hbat' & Hne').
  { rewrite frame_at_set by (by eapply lookup_lt_Some).
    destruct (decide (bat = PyRef l)) as [->|].
    - eexists; split; [done|]. rewrite Hdf in Hbat. injection Hbat as ->.
      apply setcol_nonempty; [|done]. apply bind_Ok in Hvs as (vs0 & Hg & Hvs).
      apply mapM_length in Hvs. rewrite Hvs. unfold getcol in Hg.
      destruct (has_column _ _); [|done]. injection Hg as <-. by rewrite length_fmap.
    - eauto. }
  rewrite bind_run, (frame_run _ _ _ Hbat'), Hne'. cbn [negb].
  rewrite bind_run, bind_run. reflexivity.
Qed.

Lemma util_screen_battery_raises_witness :
  ∃ l, PyRef 0%nat = PyRef l ∧
       call util_screen [PyRef 0%nat; PyRef 1%nat; PyRef 2%nat] (state_of screen_U1 battery_shutdown)
       = (Raise TypeError,
          set_object (state_of screen_U1 battery_shutdown) l
                     (ODataFrame (setcol "screen_status" [Int 1; Int 3; Int 1; Int 0] screen_U1))).
Proof.
  apply (util_screen_battery_raises (state_of screen_U1 battery_shutdown)
           (PyRef 0%nat) (PyRef 1%nat) (PyRef 2%nat) screen_U1 battery_shutdown ∅ "screen_status");
    reflexivity.
Defined.

(** ** The order of cells, sorting *)

Lemma string_compare_refl s : String.compare s s = Eq.
Proof. pose proof (String.compare_antisym s s) as H. by destruct (String.compare s s). Qed.

Lemma string_compare_trans s1 s2 s3 :
  String.compare s1 s2 ≠ Gt → String.compare s2 s3 ≠ Gt → String.compare s1 s3 ≠ Gt.
Proof.
  intros H12 H23.
  assert (String.le s1 s2) as L12.
  { unfold String.le, String.leb. by destruct (String.compare s1 s2). }
  assert (String.le s2 s3) as L23.
  { unfold String.le, String.leb. by destruct (String.compare s2 s3). }
  assert (String.le s1 s3) as L13 by (by etrans).
  unfold String.le, String.leb in L13. by destruct (String.compare s1 s3).
Qed.

Lemma compare_cell_eq K a b :
  K ≠ 5%nat → kind a = Some K → kind b = Some K → compare_cell a b = Eq → a = b.
Proof.
  intros HK Ha Hb. destruct a, b; simpl in *; simplify_eq; try done.
  all: try (intros H; apply Z.compare_eq in H; by subst).
  intros H. apply String.compare_eq_iff in H. by subst.
Qed.

Lemma compare_cell_antisym K a b :
  K ≠ 5%nat → kindred K a → kindred K b →
  compare_cell b a = CompOpp (compare_cell a b).
Proof.
  intros HK [Ha|Ha] [Hb|Hb]; destruct a, b; simpl in *; simplify_eq; try done.
  all: try apply Z.compare_antisym.
  apply String.compare_antisym.
Qed.

Lemma le_cell_trans K a b c :
  K ≠ 5%nat → kindred K a → kindred K b → kindred K c →
  le_cell a b → le_cell b c → le_cell a c.
Proof.
  unfold le_cell.
  intros HK [Ha|Ha] [Hb|Hb] [Hc|Hc]; destruct a, b, c; simpl in *; simplify_eq; try done.
  all: try (rewrite !Z.compare_gt_iff; lia).
  apply string_compare_trans.
Qed.

Lemma same_kind_kindred k vs :
  same_kind k vs = true → k ≠ Some 5%nat →
  ∃ K, K ≠ 5%nat ∧ (∀ K0, k = Some K0 → K = K0) ∧ Forall (kindred K) vs.
Proof.
  revert k. induction vs as [|v vs IH]; intros k H Hk.
  - destruct k as [K0|].
    + exists K0. split; [congruence|]. split; [by intros ? [= ->]|constructor].
    + exists 0%nat. done.
  - assert (∀ n, kind v = Some n → n ≠ 5%nat →
                 same_kind k (v :: vs) =
                 match k with
                 | None => same_kind (Some n) vs
                 | Some m => (n =? m)%nat && same_kind k vs
                 end) as Hstep.
    { intros n Hn Hn5. simpl. rewrite Hn.
      do 6 (destruct n as [|n]; try done). }
    destruct (kind v) as [n|] eqn:Hv.
    + destruct (decide (n = 5%nat)) as [->|Hn5].
      { simpl in H. rewrite Hv in H. done. }
      rewrite (Hstep n eq_refl Hn5) in H. destruct k as [m|].
      * apply andb_true_iff in H as [Hnm H]. apply Nat.eqb_eq in Hnm as ->.
        destruct (IH _ H Hk) as (K & HK & HK0 & Hvs). exists K.
        split; [done|]. split; [done|]. constructor; [|done].
        right. rewrite Hv. f_equal. symmetry. by apply HK0.
      * destruct (IH (Some n) H ltac:(congruence)) as (K & HK & HK0 & Hvs). exists K.
        split; [done|]. split; [done|]. constructor; [|done].
        right. rewrite Hv. f_equal. symmetry. by apply HK0.
    + simpl in H. rewrite Hv in H. destruct (IH _ H Hk) as (K & HK & HK0 & Hvs).
      exists K. split; [done|]. split; [done|]. constructor; [by left|done].
Qed.

Lemma sortable_kindred vs : sortable vs = true → ∃ K, K ≠ 5%nat ∧ Forall (kindred K) vs.
Proof.
  intros H. destruct (same_kind_kindred None vs H) as (K & ? & _ & ?); [done|]. eauto.
Qed.

Lemma insert_row_elem by_ x l r : r ∈ insert_row by_ x l ↔ r = x ∨ r ∈ l.
Proof.
  induction l as [|y l IH]; simpl.
  - rewrite list_elem_of_singleton. split; [by left|]. intros [?|H]; [done|inversion H].
  - destruct (row_leb by_ x y); rewrite !elem_of_cons; [done|]. rewrite IH. tauto.
Qed.

Lemma sort_rows_elem by_ l r : r ∈ sort_rows by_ l ↔ r ∈ l.
Proof.
  unfold sort_rows. induction l as [|y l IH]; simpl; [done|].
  rewrite insert_row_elem, elem_of_cons, IH. done.
Qed.

Lemma row_leb_user K by_ r r' :
  K ≠ 5%nat → kindred K (at_col "user" r) → kindred K (at_col "user" r') →
  if row_leb ("user"%string :: by_) r r' then le_user r r' else le_user r' r.
Proof.
  intros HK Hr Hr'. unfold row_leb, le_user, le_cell. simpl.
  rewrite (compare_cell_antisym K (at_col "user" r) (at_col "user" r')) by done.
  destruct (compare_cell (at_col "user" r) (at_col "user" r')); simpl; try done.
  by destruct (compare_rows by_ r r').
Qed.

Lemma insert_row_sorted K by_ x l :
  K ≠ 5%nat → kindred K (at_col "user" x) →
  Forall (λ r, kindred K (at_col "user" r)) l →
  StronglySorted le_user l →
  StronglySorted le_user (insert_row ("user"%string :: by_) x l).
Proof.
  intros HK Hx Hl Hs. induction Hs as [|y l Hs IH Hy]; simpl.
  - by repeat constructor.
  - inversion Hl as [|? ? Hky Hl']; subst.
    pose proof (row_leb_user K by_ x y HK Hx Hky) as Hxy.
    destruct (row_leb ("user"%string :: by_) x y).
    + constructor; [by constructor|]. constructor; [done|].
      rewrite Forall_forall in Hy, Hl'. apply Forall_forall. intros z Hz.
      eapply (le_cell_trans K); [done|done|exact Hky|by apply Hl'|exact Hxy|by apply Hy].
    + constructor; [by apply IH|]. apply Forall_forall. intros z Hz.
      apply insert_row_elem in Hz as [->|Hz]; [done|].
      rewrite Forall_forall in Hy. by apply Hy.
Qed.

Lemma sort_rows_sorted K by_ l :
  K ≠ 5%nat → Forall (λ r, kindred K (at_col "user" r)) l →
  StronglySorted le_user (sort_rows ("user"%string :: by_) l).
Proof.
  intros HK Hl. unfold sort_rows. induction Hl as [|x l Hx Hl IH]; simpl; [constructor|].
  apply (insert_row_sorted K); try done.
  apply Forall_forall. intros r Hr. apply sort_rows_elem in Hr.
  rewrite Forall_forall in Hl. by apply Hl.
Qed.

(** ** Groups of a sorted table *)

Lemma in_group_spec K k r :
  K ≠ 5%nat → kind k = Some K → kindred K (at_col "user" r) →
  in_group "user" k r = true ↔ at_col "user" r = k.
Proof.
  intros HK Hk Hr. unfold in_group. split.
  - intros H. apply (compare_cell_eq K); try done.
    + destruct Hr as [Hr|Hr]; [|done]. by destruct (at_col "user" r).
    + destruct (at_col "user" r); try done;
        by destruct (compare_cell _ k).
  - intros ->. destruct k; simpl in *; simplify_eq;
      rewrite ?Z.compare_refl, ?string_compare_refl; done.
Qed.

Lemma insert_key_elem k ks x : x ∈ insert_key k ks → x = k ∨ x ∈ ks.
Proof.
  induction ks as [|k' ks IH]; simpl.
  - rewrite list_elem_of_singleton. by left.
  - destruct (compare_cell k k'); rewrite ?elem_of_cons; [by right|tauto|].
    intros [->|H]; [right; by left|]. destruct (IH H); [by left|right; by right].
Qed.

Lemma group_keys_elem vs k : k ∈ group_keys vs → k ∈ vs ∧ kind k ≠ None.
Proof.
  unfold group_keys. induction vs as [|v vs IH]; simpl; [by intros H; inversion H|].
  assert (k ∈ foldr insert_key [] (List.filter (λ v, match v with NaN => false | _ => true end) vs)
          → k ∈ v :: vs ∧ kind k ≠ None) as IH'.
  { intros H. destruct (IH H). split; [by right|done]. }
  destruct v; simpl; try done.
  all: intros H; apply insert_key_elem in H as [->|H]; [split; [by left|done]|by apply IH'].
Qed.

Lemma elem_of_removelast_filter {A} (P : A → bool) L x :
  x ∈ removelast (List.filter P L) →
  ∃ L1 L2 y, L = L1 ++ x :: L2 ∧ P x = true ∧ y ∈ L2 ∧ P y = true.
Proof.
  induction L as [|a L IH]; simpl; [by intros H; inversion H|].
  destruct (P a) eqn:Ha.
  - destruct (List.filter P L) as [|b l'] eqn:Hf; simpl; [by intros H; inversion H|].
    rewrite elem_of_cons. intros [->|H].
    + exists [], L, b. split; [done|]. split; [done|].
      assert (In b (List.filter P L)) as Hb by (rewrite Hf; by left).
      apply filter_In in Hb as [Hb ?]. by apply list_elem_of_In in Hb.
    + destruct (IH H) as (L1 & L2 & y & -> & ? & ? & ?). by exists (a :: L1), L2, y.
  - intros H. destruct (IH H) as (L1 & L2 & y & -> & ? & ? & ?). by exists (a :: L1), L2, y.
Qed.

(** In a table sorted by user, the row after a row that is not the last of
    its group belongs to the same group. *)
Lemma next_in_group K k (L1 L2 : list (label * row)) x y :
  K ≠ 5%nat → kind k = Some K →
  Forall (λ r, kindred K (at_col "user" r)) (L1 ++ x :: L2) →
  StronglySorted le_user (L1 ++ x :: L2) →
  in_group "user" k x = true → y ∈ L2 → in_group "user" k y = true →
  ∃ z L2', L2 = z :: L2' ∧ in_group "user" k z = true.
Proof.
  intros HK Hk Hkind Hs Hx Hy Hyk.
  destruct L2 as [|z L2']; [by inversion Hy|]. exists z, L2'. split; [done|].
  apply Forall_app in Hkind as [_ Hkind].
  inversion Hkind as [|? ? Hkx Hkind']; subst. inversion Hkind' as [|? ? Hkz Hkind'']; subst.
  apply StronglySorted_app_1_r in Hs. inversion Hs as [|? ? Hs' Hxz]; subst.
  inversion Hxz as [|? ? Hxz' _]; subst. inversion Hs' as [|? ? _ Hzy]; subst.
  apply elem_of_cons in Hy as [->|Hy]; [done|].
  rewrite Forall_forall in Hzy, Hkind''.
  specialize (Hzy y Hy).
  apply (in_group_spec K) in Hx; [|done..].
  apply (in_group_spec K) in Hyk; [|done|done|by apply Hkind''].
  unfold le_user in *. rewrite Hx in Hxz'. rewrite Hyk in Hzy.
  assert (kindred K k) as Hkk by (by right).
  unfold le_cell in *.
  assert (compare_cell (at_col "user" z) k = Eq) as Hz.
  { rewrite (compare_cell_antisym K k (at_col "user" z)) in Hzy |- * by done.
    by destruct (compare_cell k (at_col "user" z)). }
  unfold in_group. destruct (at_col "user" z) eqn:Ez; rewrite ?Hz; try done.
  by destruct k.
Qed.

(** ** Tables: columns, rows, groups *)

Lemma getcol_Ok c d vs :
  getcol c d = Ok vs → has_column c d = true ∧ vs = at_col c <$> rows d.
Proof. unfold getcol. destruct (has_column c d); [|done]. by intros [= <-]. Qed.

Lemma getattr_col_Ok c d vs :
  getattr_col c d = Ok vs → has_column c d = true ∧ vs = at_col c <$> rows d.
Proof. unfold getattr_col. destruct (has_column c d); [|done]. by intros [= <-]. Qed.

Lemma setcol_lookup c vs d i r' :
  rows (setcol c vs d) !! i = Some r' ↔
  ∃ r v, rows d !! i = Some r ∧ vs !! i = Some v ∧ r' = (r.1, <[c := v]> r.2).
Proof.
  unfold setcol. cbn [rows]. rewrite lookup_zip_with_Some.
  split; intros (r & v & ? & ? & ?); eauto.
Qed.

Lemma setcol_rowwise c (h : label * row → cell) d :
  rows (setcol c (h <$> rows d) d) = (λ r, (r.1, <[c := h r]> r.2)) <$> rows d.
Proof.
  unfold setcol. cbn [rows]. induction (rows d) as [|r rs IH]; simpl; [done|]. by f_equal.
Qed.

Lemma at_col_insert c c' v (r : label * row) :
  at_col c (r.1, <[c' := v]> r.2) = if decide (c' = c) then v else at_col c r.
Proof.
  unfold at_col. cbn [snd]. rewrite lookup_insert. by destruct (decide (c' = c)).
Qed.

Lemma sort_values_Ok by_ d d' :
  sort_values by_ d = Ok d' →
  columns d' = columns d ∧ rows d' = sort_rows by_ (rows d) ∧
  Forall (λ c, sortable (at_col c <$> rows d) = true) by_.
Proof.
  unfold sort_values. destruct (List.find _ by_); [done|].
  destruct (forallb _ by_) eqn:E; [|done]. intros [= <-]. split; [done|]. split; [done|].
  rewrite forallb_forall in E. apply Forall_forall. intros c Hc. apply E.
  by apply list_elem_of_In.
Qed.

Lemma droplevel0_Ok d d' :
  droplevel0 d = Ok d' →
  columns d' = columns d ∧ rows d' = (λ r : label * row, (tail r.1, r.2)) <$> rows d.
Proof. unfold droplevel0. destruct (_ && _); [|done]. by intros [= <-]. Qed.

Lemma groupby_apply_Ok c f d d' :
  groupby_apply c f d = Ok d' →
  columns d' = columns d ∧
  sortable (at_col c <$> rows d) = true ∧
  ∀ r, r ∈ rows d' →
       ∃ i k r0, group_keys (at_col c <$> rows d) !! i = Some k ∧
                 r0 ∈ f (List.filter (in_group c k) (rows d)) ∧
                 r = (Int (Z.of_nat i) :: r0.1, r0.2).
Proof.
  unfold groupby_apply. intros H. apply bind_Ok in H as (vs & Hvs & H).
  apply getcol_Ok in Hvs as [_ ->]. destruct (sortable _) eqn:Hs; [|done].
  injection H as <-. split; [done|]. split; [done|]. cbn [rows]. intros r Hr.
  apply list_elem_of_join in Hr as (l & Hr & Hl).
  apply elem_of_lookup_imap in Hl as (i & k & -> & Hk).
  apply list_elem_of_fmap in Hr as (r0 & -> & Hr0). eauto 10.
Qed.

(** ** Pair codes *)

Lemma mapM_lookup {A B} (f : A → outcome B) l r i x :
  mapM f l = Ok r → l !! i = Some x → ∃ y, f x = Ok y ∧ r !! i = Some y.
Proof.
  revert r i. induction l as [|a l IH]; intros r i H Hi; [done|].
  apply mapM_cons_Ok in H as (y & k & Hy & Hk & ->). destruct i as [|i]; simpl in *.
  - injection Hi as <-. eauto.
  - eauto.
Qed.

Lemma astype_int_Int x c : astype_int x = Ok c → ∃ a, c = Int a.
Proof.
  destruct x; simpl; try done.
  - intros [= <-]. eauto.
  - destruct (int_of_str s); [|done]. intros [= <-]. eauto.
Qed.

Lemma add_str_lookup a b c i x y :
  add_str a b = Ok c → a !! i = Some (Str x) → b !! i = Some (Str y) →
  c !! i = Some (Str (x +:+ y)).
Proof.
  revert b c i. induction a as [|x0 a IH]; intros b c i H Ha Hb; [done|].
  destruct b as [|y0 b]; [done|]. simpl in H.
  destruct x0; try done. destruct y0; try done.
  apply bind_Ok in H as (cs & Hcs & [= <-]). destruct i as [|i]; simpl in *.
  - by simplify_eq.
  - eauto.
Qed.

Lemma shift_up_lookup vs i y : vs !! S i = Some y → shift (-1) vs !! i = Some y.
Proof.
  intros H. unfold shift. simpl.
  apply lookup_lt_Some in H as Hlt.
  rewrite lookup_app_l by (rewrite length_drop; lia). by rewrite lookup_drop.
Qed.

Lemma pair_codes_lookup vs codes i x y :
  pair_codes vs = Ok codes → vs !! i = Some x → vs !! S i = Some y →
  ∃ a b, astype_int x = Ok (Int a) ∧ astype_int (fillna_cell (Int 0) y) = Ok (Int b) ∧
         codes !! i = Some (Str (str a +:+ str b)).
Proof.
  unfold pair_codes. intros H Hx Hy.
  apply bind_Ok in H as (cur & Hcur & H). apply bind_Ok in H as (nxt & Hnxt & H).
  apply bind_Ok in Hcur as (ci & Hci & Hcur). apply bind_Ok in Hnxt as (ni & Hni & Hnxt).
  destruct (mapM_lookup _ _ _ _ _ Hci Hx) as (cx & Hcx & Hcxi).
  destruct (astype_int_Int _ _ Hcx) as (a & ->).
  destruct (mapM_lookup _ _ _ _ _ Hcur Hcxi) as (sx & Hsx & Hsxi).
  apply shift_up_lookup in Hy.
  assert ((fillna_cell (Int 0) <$> shift (-1) vs) !! i = Some (fillna_cell (Int 0) y)) as Hy'
    by (by rewrite list_lookup_fmap, Hy).
  destruct (mapM_lookup _ _ _ _ _ Hni Hy') as (cy & Hcy & Hcyi).
  destruct (astype_int_Int _ _ Hcy) as (b & ->).
  destruct (mapM_lookup _ _ _ _ _ Hnxt Hcyi) as (sy & Hsy & Hsyi).
  simpl in Hsx, Hsy. injection Hsx as <-. injection Hsy as <-.
  exists a, b. split; [done|]. split; [done|]. by eapply add_str_lookup.
Qed.

(** ** The flags *)

Lemma existsb_eq_str codes code :
  existsb (λ k, eq_str k (Str code)) codes = bool_decide (code ∈ codes).
Proof.
  induction codes as [|k codes IH]; [done|].
  cbn [existsb]. rewrite IH. cbn [eq_str].
  destruct (String.eqb_spec code k) as [->|Hne]; cbn [orb].
  - by rewrite bool_decide_eq_true_2 by apply list_elem_of_here.
  - apply bool_decide_ext. rewrite elem_of_cons. tauto.
Qed.

(** The four assignments of 1 agree with the table of pair codes. *)
Lemma flag_value_table code t :
  flag_value (match t with
              | t_use => ["30"; "31"; "32"]
              | t_on => ["10"; "12"; "13"; "20"]
              | t_irrelevant => ["21"; "23"]
              | t_off => ["01"; "02"; "03"]
              end)%string (Str code) (Int 0)
  = flag_for code t.
Proof.
  unfold flag_value, flag_for, transition_of. rewrite <- !existsb_eq_str.
  destruct t; cbn [existsb eq_str];
    repeat match goal with
           | |- context [String.eqb code ?k] =>
               destruct (String.eqb_spec code k) as [->|?]; [reflexivity|]
           end; reflexivity.
Qed.

(** ** event_classification_screen: the classification *)

Lemma has_column_setcol c c' vs d :
  has_column c' (setcol c vs d) = true ↔ c' = c ∨ has_column c' d = true.
Proof.
  unfold setcol. cbn [columns]. unfold has_column. rewrite !bool_decide_eq_true.
  destruct (bool_decide (c ∈ columns d)) eqn:E; cbn [columns].
  - apply bool_decide_eq_true in E. split; [by right|]. by intros [->|?].
  - rewrite elem_of_app, list_elem_of_singleton. tauto.
Qed.

Lemma assign_scalar_run l c v st d :
  frame_at st (PyRef l) = Some d →
  assign (PyRef l) c (λ d, Ok (replicate (len d) v)) st
  = (Ok (), set_object st l (ODataFrame (setcol c ((λ _, v) <$> rows d) d))).
Proof.
  intros Hd. rewrite (assign_run _ _ _ _ _ Hd). unfold len.
  by rewrite <- (const_fmap (λ _ : label * row, v) (rows d) v) by done.
Qed.

Lemma flag_codes_run l c codes st d :
  frame_at st (PyRef l) = Some d →
  has_column "next" d = true → has_column c d = true →
  flag_codes (PyRef l) c codes st
  = (Ok (), set_object st l
              (ODataFrame (setcol c ((λ r, flag_value codes (at_col "next" r) (at_col c r))
                                       <$> rows d) d))).
Proof.
  intros Hd Hn Hc. unfold flag_codes. rewrite (assign_run _ _ _ _ _ Hd).
  unfold getattr_col, getcol. rewrite Hn, Hc. cbn [mbind outcome_bind].
  do 4 f_equal. induction (rows d) as [|r rs IH]; simpl; [done|]. by f_equal.
Qed.

(** Membership in a list that is written out. *)
Ltac in_list := repeat first [apply list_elem_of_here | apply list_elem_of_further].

(** The eight assignments, row by row. *)
Lemma assign_flags_run l st d :
  frame_at st (PyRef l) = Some d → has_column "next" d = true →
  ∃ cs, assign_flags (PyRef l) st
        = (Ok (), set_object st l (ODataFrame (mkDF cs (flagged <$> rows d) (nlevels d)))).
Proof.
  intros Hd Hn. pose proof (frame_at_lt _ _ _ Hd) as Hl. unfold assign_flags.
  rewrite bind_run, (assign_scalar_run _ _ _ _ _ Hd).
  set (d1 := setcol "use" _ d).
  rewrite bind_run, (assign_scalar_run _ _ _ _ d1) by (by apply frame_at_set_same).
  set (d2 := setcol "on" _ d1).
  rewrite set_object_twice, bind_run, (assign_scalar_run _ _ _ _ d2)
    by (by apply frame_at_set_same).
  set (d3 := setcol "na" _ d2).
  rewrite set_object_twice, bind_run, (assign_scalar_run _ _ _ _ d3)
    by (by apply frame_at_set_same).
  set (d4 := setcol "off" _ d3).
  assert (∀ c, c ∈ ["next"; "use"; "on"; "na"; "off"]%string → has_column c d4 = true) as Hc4.
  { intros c Hc. subst d4 d3 d2 d1. rewrite !has_column_setcol.
    repeat (apply elem_of_cons in Hc as [->|Hc]; [tauto|]). by apply not_elem_of_nil in Hc. }
  rewrite set_object_twice, bind_run, (flag_codes_run _ _ _ _ d4);
    [|by apply frame_at_set_same|apply Hc4; in_list..].
  set (d5 := setcol "use" _ d4).
  assert (∀ c, has_column c d4 = true → has_column c d5 = true) as Hc5.
  { intros c Hc. subst d5. rewrite has_column_setcol. by right. }
  rewrite set_object_twice, bind_run, (flag_codes_run _ _ _ _ d5);
    [|by apply frame_at_set_same|apply Hc5, Hc4; in_list..].
  set (d6 := setcol "on" _ d5).
  assert (∀ c, has_column c d5 = true → has_column c d6 = true) as Hc6.
  { intros c Hc. subst d6. rewrite has_column_setcol. by right. }
  rewrite set_object_twice, bind_run, (flag_codes_run _ _ _ _ d6);
    [|by apply frame_at_set_same|apply Hc6, Hc5, Hc4; in_list..].
  set (d7 := setcol "na" _ d6).
  assert (∀ c, has_column c d6 = true → has_column c d7 = true) as Hc7.
  { intros c Hc. subst d7. rewrite has_column_setcol. by right. }
  rewrite set_object_twice, (flag_codes_run _ _ _ _ d7);
    [|by apply frame_at_set_same|apply Hc7, Hc6, Hc5, Hc4; in_list..].
  rewrite set_object_twice. eexists. do 3 f_equal.
  match goal with
  | |- ?x = _ => transitivity (mkDF (columns x) (rows x) (nlevels x)); [by destruct x|]
  end.
  f_equal. subst d7 d6 d5 d4 d3 d2 d1. rewrite !setcol_rowwise, <- !list_fmap_compose. done.
Qed.

(** The row left by the eight assignments of lines 109-114. *)
Lemma flags_of_row (r : label * row) code t :
  at_col "next" r = Str code →
  (flagged r).1 = r.1 ∧ at_col "next" (flagged r) = Str code ∧
  at_col (flag_column t) (flagged r) = flag_for code t ∧
  ∀ c, c ∉ ["use"; "on"; "na"; "off"]%string → at_col c (flagged r) = at_col c r.
Proof.
  intros Hn. unfold flagged, mark_flag, clear_flag.
  split; [done|]. split; [|split].
  - rewrite !at_col_insert. by repeat (case_decide; simplify_eq).
  - rewrite <- flag_value_table.
    destruct t; cbn [flag_column]; rewrite !at_col_insert;
      repeat (case_decide; simplify_eq); by rewrite ?Hn.
  - intros c Hc. rewrite !at_col_insert.
    repeat (case_decide;
            [subst; exfalso; apply Hc;
             repeat first [apply list_elem_of_here | apply list_elem_of_further]|]).
    done.
Qed.

(** What [classify] has done when it returns: the table it was given is
    sorted and carries the pair codes; the table it returns holds the rows
    that are not the last of their user, each with its flags. *)
Lemma classify_Ok st df col_name out st' d :
  frame_at st df = Some d →
  classify df col_name st = (Ok out, st') →
  ∃ d1 sh codes d4 d5,
    sort_values sort_key d = Ok d1 ∧
    getcol col_name (setcol "next" sh d1) ≫= pair_codes = Ok codes ∧
    groupby_apply "user" iloc_but_last (setcol "next" codes (setcol "next" sh d1)) = Ok d4 ∧
    droplevel0 d4 = Ok d5 ∧
    frame_at st' df = Some (setcol "next" codes (setcol "next" sh d1)) ∧
    ∃ cs, frame_at st' out = Some (mkDF cs (flagged <$> rows d5) (nlevels d5)).
Proof.
  intros Hd H. destruct (frame_at_ref _ _ _ Hd) as (l & -> & _). unfold classify in H.
  step_with H (inplace_run _ _ _ _ Hd). rename a into d1.
  pose proof (frame_at_set_eq _ _ d1 _ Hd) as Hd1.
  step_with H (assign_run _ _ _ _ _ Hd1). rename a into sh.
  pose proof (frame_at_set_eq _ _ (setcol "next" sh d1) _ Hd1) as Hd2.
  step_with H (assign_run _ _ _ _ _ Hd2). rename a into codes.
  pose proof (frame_at_set_eq _ _ (setcol "next" codes (setcol "next" sh d1)) _ Hd2) as Hd3.
  rewrite !set_object_twice in H, Hd3.
  set (d3 := setcol "next" codes (setcol "next" sh d1)) in *.
  set (s3 := set_object st l (ODataFrame d3)) in *.
  step_with H (derive_run _ _ _ _ Hd3). rename a into d4.
  step_with H (derive_run _ _ _ _ (frame_at_add_eq _ d4)). rename a into d5.
  set (s5 := add_object (add_object s3 (ODataFrame d4)) (ODataFrame d5)) in *.
  assert (frame_at s5 (PyRef l) = Some d3) as Hl5 by (by do 2 apply frame_at_add_old).
  assert (l ≠ length (objects (add_object s3 (ODataFrame d4)))) as Hne.
  { apply frame_at_lt in Hd3. unfold add_object. cbn [objects]. rewrite length_app. lia. }
  set (l5 := length (objects (add_object s3 (ODataFrame d4)))) in *.
  assert (has_column "next" d5 = true) as Hnext.
  { apply groupby_apply_Ok in E2 as (Hc4 & _). apply droplevel0_Ok in E3 as (Hc5 & _).
    unfold has_column. rewrite Hc5, Hc4. apply has_column_setcol. by left. }
  pose proof (frame_at_add_eq (add_object s3 (ODataFrame d4)) d5) as Hf. fold l5 s5 in Hf.
  destruct (assign_flags_run _ _ _ Hf Hnext) as (cs & Hrun).
  rewrite bind_run, Hrun in H. injection H as <- <-.
  exists d1, sh, codes, d4, d5. do 4 (split; [done|]). split.
  - by apply frame_at_set_ne.
  - exists cs. apply frame_at_set_same. by eapply frame_at_lt.
Qed.

Lemma zip_insert_user c (l : list (label * row)) k (Q : cell → Prop) :
  c ≠ "user"%string →
  Forall (λ r, Q (at_col "user" r)) l →
  Forall (λ r, Q (at_col "user" r)) (zip_with (λ (r : label * row) v, (r.1, <[c := v]> r.2)) l k).
Proof.
  intros Hc Hl. revert k. induction Hl as [|x l Hx Hl IH]; intros [|v k]; simpl; try constructor.
  - rewrite at_col_insert. by rewrite decide_False.
  - apply IH.
Qed.

Lemma zip_insert_sorted c (l : list (label * row)) k :
  c ≠ "user"%string →
  StronglySorted le_user l →
  StronglySorted le_user (zip_with (λ (r : label * row) v, (r.1, <[c := v]> r.2)) l k).
Proof.
  intros Hc Hl. revert k.
  induction Hl as [|x l Hl IH Hx]; intros [|v k]; simpl; try constructor.
  - apply IH.
  - unfold le_user at 1. rewrite at_col_insert, decide_False by done.
    by apply (zip_insert_user c l k (λ u, le_cell (at_col "user" x) u)).
Qed.

(** In the table [classify] returns, every row is a row [cur] of the sorted
    table that is followed there by a row [nxt] of the same user; its pair
    code is the status of [cur] followed by the status of [nxt], both
    written as integers; its four flags are those of that code. *)
Lemma classify_rows st df col_name out st' d :
  frame_at st df = Some d →
  col_name ≠ "next"%string →
  classify df col_name st = (Ok out, st') →
  ∃ sorted classified,
    sort_values sort_key d = Ok sorted ∧
    frame_at st' out = Some classified ∧
    ∀ r, r ∈ rows classified →
      ∃ i cur nxt a b,
        rows sorted !! i = Some cur ∧ rows sorted !! S i = Some nxt ∧
        at_col "user" nxt = at_col "user" cur ∧
        astype_int (at_col col_name cur) = Ok (Int a) ∧
        astype_int (fillna_cell (Int 0) (at_col col_name nxt)) = Ok (Int b) ∧
        r.1 = cur.1 ∧
        (∀ c, c ∉ ["next"; "use"; "on"; "na"; "off"]%string → at_col c r = at_col c cur) ∧
        at_col "next" r = Str (str a +:+ str b) ∧
        ∀ t, at_col (flag_column t) r = flag_for (str a +:+ str b) t.
Proof.
  intros Hd Hcol H.
  destruct (classify_Ok _ _ _ _ _ _ Hd H)
    as (d1 & sh & codes & d4 & d5 & Hsort & Hcodes & Hgroup & Hdrop & _ & cs & Hout).
  exists d1, (mkDF cs (flagged <$> rows d5) (nlevels d5)). split; [done|]. split; [done|].
  cbn [rows]. intros r Hr.
  apply list_elem_of_fmap in Hr as (r5 & -> & Hr5).
  apply droplevel0_Ok in Hdrop as [_ Hrows5]. rewrite Hrows5 in Hr5.
  apply list_elem_of_fmap in Hr5 as (r4 & -> & Hr4).
  set (d2 := setcol "next" sh d1) in *. set (d3 := setcol "next" codes d2) in *.
  apply groupby_apply_Ok in Hgroup as (_ & Hsortable & Hrows4).
  destruct (Hrows4 _ Hr4) as (g & k & r3 & Hk & Hr3 & ->). cbn [fst snd tail].
  (* the kinds of the users, the order of the rows *)
  destruct (sortable_kindred _ Hsortable) as (K & HK & Hkind).
  rewrite Forall_fmap in Hkind.
  assert (kind k = Some K) as HkK.
  { assert (k ∈ group_keys (at_col "user" <$> rows d3)) as Hin
      by (apply list_elem_of_lookup; eauto).
    apply group_keys_elem in Hin as [Hin Hnn].
    apply list_elem_of_fmap in Hin as (rk & -> & Hrk).
    rewrite Forall_forall in Hkind. by destruct (Hkind _ Hrk). }
  apply sort_values_Ok in Hsort as (_ & Hrows1 & Hby).
  assert (StronglySorted le_user (rows d3)) as Hsorted.
  { apply zip_insert_sorted; [done|]. apply zip_insert_sorted; [done|].
    rewrite Hrows1. inversion Hby as [|? ? Hu _]; subst.
    destruct (sortable_kindred _ Hu) as (K' & HK' & Hkind').
    rewrite Forall_fmap in Hkind'. by apply (sort_rows_sorted K'). }
  (* the row after [r3] *)
  apply elem_of_removelast_filter in Hr3 as (L1 & L2 & y & HL & Hg3 & Hy & Hgy).
  rewrite HL in Hsorted, Hkind.
  destruct (next_in_group K k L1 L2 r3 y HK HkK Hkind Hsorted Hg3 Hy Hgy)
    as (z & L2' & -> & Hgz).
  assert (rows d3 !! length L1 = Some r3) as H3
    by (rewrite HL; by apply list_lookup_middle).
  assert (rows d3 !! S (length L1) = Some z) as Hz.
  { rewrite HL, (cons_middle r3), app_assoc.
    rewrite lookup_app_r by (rewrite length_app; simpl; lia).
    rewrite length_app. simpl. by replace (S (length L1) - (length L1 + 1))%nat with 0%nat by lia. }
  apply setcol_lookup in H3 as (r2 & code & H2 & Hcode & ->).
  apply setcol_lookup in Hz as (z2 & codez & Hz2 & _ & ->).
  pose proof H2 as H2'. pose proof Hz2 as Hz2'.
  apply setcol_lookup in H2' as (cur & shc & Hcur & _ & Hr2).
  apply setcol_lookup in Hz2' as (nxt & shn & Hnxt & _ & Hrz2).
  (* the pair code *)
  apply bind_Ok in Hcodes as (vs & Hvs & Hcodes). apply getcol_Ok in Hvs as [_ ->].
  assert ((at_col col_name <$> rows d2) !! length L1 = Some (at_col col_name cur)) as Hx.
  { rewrite list_lookup_fmap, H2. cbn. rewrite Hr2, at_col_insert. by rewrite decide_False. }
  assert ((at_col col_name <$> rows d2) !! S (length L1) = Some (at_col col_name nxt)) as Hy'.
  { rewrite list_lookup_fmap, Hz2. cbn. rewrite Hrz2, at_col_insert. by rewrite decide_False. }
  destruct (pair_codes_lookup _ _ _ _ _ Hcodes Hx Hy') as (a & b & Ha & Hb & Hci).
  rewrite Hcode in Hci. injection Hci as ->.
  (* the users *)
  assert (at_col "user" (r2.1, <["next"%string := Str (str a +:+ str b)]> r2.2)
          = at_col "user" cur) as Hu3.
  { rewrite at_col_insert, decide_False by done. rewrite Hr2, at_col_insert.
    by rewrite decide_False. }
  assert (at_col "user" (z2.1, <["next"%string := codez]> z2.2) = at_col "user" nxt) as Huz.
  { rewrite at_col_insert, decide_False by done. rewrite Hrz2, at_col_insert.
    by rewrite decide_False. }
  rewrite Forall_forall in Hkind.
  apply (in_group_spec K) in Hg3;
    [|done|done|apply Hkind, elem_of_app; right; apply list_elem_of_here].
  apply (in_group_spec K) in Hgz;
    [|done|done|apply Hkind, elem_of_app; right; apply list_elem_of_further, list_elem_of_here].
  rewrite Hu3 in Hg3. rewrite Huz in Hgz.
  (* the flags *)
  set (r3 := (r2.1, <["next"%string := Str (str a +:+ str b)]> r2.2)) in *.
  assert (at_col "next" r3 = Str (str a +:+ str b)) as Hn3.
  { subst r3. rewrite at_col_insert. by rewrite decide_True. }
  exists (length L1), cur, nxt, a, b.
  split; [done|]. split; [done|]. split; [congruence|]. split; [done|]. split; [done|].
  assert (flagged (r3.1, r3.2) = flagged r3) as -> by (by destruct r3).
  split; [|split; [|split]].
  - destruct (flags_of_row r3 _ t_use Hn3) as (-> & _). subst r3. cbn. by rewrite Hr2.
  - intros c Hc.
    assert (c ∉ ["use"; "on"; "na"; "off"]%string) as Hc'
      by (intros Hin; apply Hc; by apply list_elem_of_further).
    assert ("next"%string ≠ c) as Hcn by (intros <-; apply Hc, list_elem_of_here).
    destruct (flags_of_row r3 _ t_use Hn3) as (_ & _ & _ & ->); [|done].
    subst r3. rewrite at_col_insert, decide_False by done.
    rewrite Hr2, at_col_insert. by rewrite decide_False.
  - by destruct (flags_of_row r3 _ t_use Hn3) as (_ & -> & _).
  - intros t. by destruct (flags_of_row r3 _ t Hn3) as (_ & _ & -> & _).
Qed.

(** ** event_classification_screen: the returned table *)

Lemma drop_columns_Ok cs d d' :
  drop_columns cs d = Ok d' →
  rows d' = (λ r : label * row, (r.1, foldr delete r.2 cs)) <$> rows d.
Proof. unfold drop_columns. destruct (List.find _ cs); [done|]. by intros [= <-]. Qed.

Lemma at_col_dropped cs c l (r : label * row) :
  c ∉ cs → at_col c (l, foldr delete r.2 cs) = at_col c r.
Proof.
  unfold at_col. cbn [snd]. induction cs as [|c0 cs IH]; simpl; [done|].
  rewrite not_elem_of_cons. intros [Hne Hc]. rewrite lookup_delete_ne by done. by apply IH.
Qed.

Lemma elem_of_tail {A} (l : list A) x : x ∈ tail l → x ∈ l.
Proof. destruct l; simpl; [done|]. apply list_elem_of_further. Qed.

Lemma elem_of_removelast {A} (l : list A) x : x ∈ removelast l → x ∈ l.
Proof.
  induction l as [|a l IH]; [done|]. destruct l as [|b l].
  - intros H. inversion H.
  - change (removelast (a :: b :: l)) with (a :: removelast (b :: l)).
    rewrite !(elem_of_cons _ x a). intros [->|H]; [by left|right; by apply IH].
Qed.

(** A row that survives [groupby(...).apply(f)], for [f] that only drops
    rows, is a row of the table under one more index level. *)
Lemma groupby_apply_sub c (f : list (label * row) → list (label * row)) d d' :
  (∀ l x, x ∈ f l → x ∈ l) →
  groupby_apply c f d = Ok d' →
  ∀ r, r ∈ rows d' → ∃ i r0, r0 ∈ rows d ∧ r = (Int (Z.of_nat i) :: r0.1, r0.2).
Proof.
  intros Hf H r Hr. apply groupby_apply_Ok in H as (_ & _ & H).
  destruct (H r Hr) as (i & k & r0 & _ & Hr0 & ->). exists i, r0. split; [|done].
  apply Hf in Hr0. apply list_elem_of_In in Hr0. apply filter_In in Hr0 as [Hr0 _].
  by apply list_elem_of_In.
Qed.

(** C3. In the table [event_classification_screen] returns, every row is a
    row [cur] of the sorted input that is followed there by a row [nxt] of
    the same user; its pair code is the status of [cur] followed by the
    status of [nxt], both written as integers; and of its four flags the one
    the table of pair codes gives for that code is 1 and the others are 0:
    use for 30, 31, 32; on for 10, 12, 13, 20; irrelevant for 21, 23; off
    for 01, 02, 03; none for any other code. *)
Theorem classification_by_pair_code st df feature_functions out st' d ff col_name :
  frame_at st df = Some d →
  config_at st feature_functions = Some ff →
  column_name (screen_column_name ff) = Ok col_name →
  col_name ∉ ["next"; "use"; "on"; "na"; "off"]%string →
  call event_classification_screen [df; feature_functions] st = (Ok out, st') →
  ∃ sorted result,
    sort_values sort_key d = Ok sorted ∧
    frame_at st' out = Some result ∧
    ∀ r, r ∈ rows result →
      ∃ i cur nxt a b,
        rows sorted !! i = Some cur ∧ rows sorted !! S i = Some nxt ∧
        at_col "user" nxt = at_col "user" cur ∧
        astype_int (at_col col_name cur) = Ok (Int a) ∧
        astype_int (fillna_cell (Int 0) (at_col col_name nxt)) = Ok (Int b) ∧
        r.1 = cur.1 ∧
        (∀ c, c ∉ ["next"; "use"; "on"; "na"; "off"; col_name]%string →
              at_col c r = at_col c cur) ∧
        ∀ t, at_col (flag_column t) r = flag_for (str a +:+ str b) t.
Proof.
  intros Hd Hcfg Hcol Hnot H.
  assert (col_name ≠ "next"%string) as Hne by (intros ->; apply Hnot, list_elem_of_here).
  rewrite call_arity in H.
  cbn [length params defaults body event_classification_screen Nat.ltb Nat.leb
       Nat.sub orb drop app] in H.
  rewrite bind_run, (assert_frame_run _ _ _ _ Hd) in H.
  rewrite bind_run, (assert_config_run _ _ _ _ Hcfg) in H.
  rewrite bind_run, (config_run _ _ _ Hcfg) in H.
  rewrite bind_run in H. unfold lift at 1 in H. rewrite Hcol in H.
  rewrite bind_run in H.
  destruct (classify df col_name st) as [[o1|e] s1] eqn:Hc; [|discriminate H].
  destruct (classify_rows _ _ _ _ _ _ Hd Hne Hc) as (sorted & d5 & Hsort & Hf5 & Hrows).
  destruct (frame_at_ref _ _ _ Hf5) as (l1 & -> & _).
  step_with H (inplace_run _ _ _ _ Hf5). rename a into d6.
  pose proof (frame_at_set_eq _ _ d6 _ Hf5) as Hf6.
  step_with H (derive_run _ _ _ _ Hf6). rename a into d7.
  step_with H (derive_run _ _ _ _ (frame_at_add_eq _ d7)). rename a into d8.
  step_with H (derive_run _ _ _ _ (frame_at_add_eq _ d8)). rename a into d9.
  step_with H (derive_run _ _ _ _ (frame_at_add_eq _ d9)). rename a into d10.
  rewrite ret_run in H. injection H as <- <-.
  exists sorted, d10. split; [done|]. split; [apply frame_at_add_eq|].
  intros r Hr.
  apply droplevel0_Ok in E3 as [_ H10]. rewrite H10 in Hr.
  apply list_elem_of_fmap in Hr as (r9 & -> & Hr9).
  apply droplevel0_Ok in E2 as [_ H9]. rewrite H9 in Hr9.
  apply list_elem_of_fmap in Hr9 as (r8 & -> & Hr8).
  destruct (groupby_apply_sub _ _ _ _ (λ l x, elem_of_removelast l x) E1 _ Hr8)
    as (i8 & r7 & Hr7 & ->).
  destruct (groupby_apply_sub _ _ _ _ (λ l x, elem_of_tail l x) E0 _ Hr7)
    as (i7 & r6 & Hr6 & ->).
  apply drop_columns_Ok in E. rewrite E in Hr6.
  apply list_elem_of_fmap in Hr6 as (r5 & -> & Hr5).
  destruct (Hrows _ Hr5)
    as (i & cur & nxt & a & b & Hi & HSi & Hu & Ha & Hb & Hl & Hkeep & _ & Hflag).
  exists i, cur, nxt, a, b. do 5 (split; [done|]). cbn [fst snd tail].
  split; [done|]. split.
  - intros c Hc'. rewrite at_col_dropped.
    + apply Hkeep. intros Hin. apply Hc'.
      rewrite !elem_of_cons in Hin. rewrite !elem_of_cons. tauto.
    + intros Hin. apply Hc'. rewrite !elem_of_cons in Hin. rewrite !elem_of_cons.
      rewrite elem_of_nil in Hin. tauto.
  - intros t. rewrite at_col_dropped; [apply Hflag|].
    intros Hin. apply Hnot. rewrite !elem_of_cons in Hin. rewrite elem_of_nil in Hin.
    destruct Hin as [Hin|[<-|[]]]; [by destruct t|].
    destruct t; in_list.
Qed.

Lemma classification_by_pair_code_witness :
  ∃ sorted result,
    sort_values sort_key screen_U1 = Ok sorted ∧
    frame_at (call event_classification_screen [PyRef 0%nat; PyRef 2%nat]
                (state_of screen_U1 no_battery)).2
             (PyRef 8%nat) = Some result ∧
    ∀ r, r ∈ rows result →
      ∃ i cur nxt a b,
        rows sorted !! i = Some cur ∧ rows sorted !! S i = Some nxt ∧
        at_col "user" nxt = at_col "user" cur ∧
        astype_int (at_col "screen_status" cur) = Ok (Int a) ∧
        astype_int (fillna_cell (Int 0) (at_col "screen_status" nxt)) = Ok (Int b) ∧
        r.1 = cur.1 ∧
        (∀ c, c ∉ ["next"; "use"; "on"; "na"; "off"; "screen_status"]%string →
              at_col c r = at_col c cur) ∧
        ∀ t, at_col (flag_column t) r = flag_for (str a +:+ str b) t.
Proof.
  apply (classification_by_pair_code (state_of screen_U1 no_battery) (PyRef 0%nat)
           (PyRef 2%nat) (PyRef 8%nat) _ screen_U1 ∅ "screen_status");
    [reflexivity | reflexivity | reflexivity | | apply run_pair; vm_compute; reflexivity].
  rewrite !not_elem_of_cons. repeat split; try discriminate. apply not_elem_of_nil.
Defined.

(** The four events of one user: the middle one is kept, with flag use. *)
Example classification_sample :
  flags <$> returned (call event_classification_screen [PyRef 0%nat; PyRef 2%nat])
                     (state_of screen_U1 no_battery)
  = Some [(Int 5, (Int 1, Int 0, Int 0, Int 0))].
Proof. vm_compute. reflexivity. Qed.

(** ** The metric functions *)

Lemma prologue_None df bat st :
  ∃ msg, prologue df bat PyNone st = (Raise (AssertionError msg), st) ∧
         (is_Some (frame_at st df) → is_Some (frame_at st bat) → msg = msg_dict).
Proof.
  unfold prologue, frame_at. rewrite bind_run, py_assert_run, isinstance_run.
  destruct (object_at st df) as [[]|];
    try (eexists; split; [reflexivity | by intros []]; fail).
  rewrite bind_run, py_assert_run, isinstance_run.
  destruct (object_at st bat) as [[]|];
    eexists; (split; [reflexivity | by intros _ []]).
Qed.

(** C10. Each of the eight metric functions that declare
    [feature_functions=None], called without that argument, raises
    AssertionError before anything is computed or written: the default None
    is not a dict.  On two DataFrames the message is the one of the
    [feature_functions] assertion. *)
Theorem default_config_fails_assertion resample :
  Forall (λ f, defaults f = [PyNone] ∧
               ∀ df bat st, ∃ msg,
                 call f [df; bat] st = (Raise (AssertionError msg), st) ∧
                 (is_Some (frame_at st df) → is_Some (frame_at st bat) → msg = msg_dict))
         (optional_config_metrics resample).
Proof.
  repeat constructor; intros df bat st;
    destruct (prologue_None df bat st) as (msg & H & Hmsg); exists msg;
    (split; [|done]); rewrite call_arity; simpl; rewrite bind_run, H; reflexivity.
Qed.

(** ** duration_util_screen: the artifact filter *)

Lemma too_long_spec c r long :
  gt_timedelta thr (at_col "duration" r) = Ok long →
  eq_int 1 (at_col c r) && long = true ↔ too_long c r.
Proof.
  unfold too_long, gt_timedelta, eq_int. intros H.
  destruct (at_col "duration" r) as [| | | |ns| |]; try done; injection H as <-.
  - rewrite andb_false_r. split; [done|]. by intros (_ & ? & ? & _).
  - rewrite andb_true_iff. destruct (at_col c r) as [|z| | | | |].
    all: split; [intros []|intros [? (ns' & [= <-] & ?)]]; try done.
    + split; [f_equal; lia | exists ns; split; [done|lia]].
    + split; [simplify_eq; lia | lia].
Qed.

Lemma keep_rows c (rs : list (label * row)) long :
  mapM (gt_timedelta thr) (at_col "duration" <$> rs) = Ok long →
  ∀ r, r ∈ mask_filter
             (zip_with (λ (f : cell) (l : bool), negb (eq_int 1 f && l)) (at_col c <$> rs) long)
             rs
       ↔ r ∈ rs ∧ ¬ too_long c r.
Proof.
  revert long. induction rs as [|r0 rs IH]; intros long H r.
  - rewrite mask_filter_nil. split; [intros Hin; inversion Hin | intros [Hin _]; inversion Hin].
  - rewrite fmap_cons in H. apply mapM_cons_Ok in H as (l0 & long' & Hl & Hlong & ->).
    rewrite fmap_cons. cbn [zip_with mask_filter].
    pose proof (too_long_spec c r0 l0 Hl) as Hspec.
    destruct (eq_int 1 (at_col c r0) && l0); cbn [negb].
    + rewrite (IH _ Hlong), elem_of_cons. split.
      * intros [? ?]. split; [by right|done].
      * intros [[->|?] Hn]; [|done]. exfalso. by apply Hn, Hspec.
    + rewrite !elem_of_cons, (IH _ Hlong). split.
      * intros [->|[? ?]]; [|split; [by right|done]].
        split; [by left|]. intros Ht. by apply Hspec in Ht.
      * intros [[->|?] ?]; [by left|by right].
Qed.

Lemma artifact_filter_rows c d d' :
  artifact_filter c d = Ok d' →
  columns d' = columns d ∧ ∀ r, r ∈ rows d' ↔ r ∈ rows d ∧ ¬ too_long c r.
Proof.
  unfold artifact_filter, keep_mask, getattr_col. intros H.
  apply bind_Ok in H as (m & Hm & [= <-]).
  destruct (has_column c d); [|done]. destruct (has_column "duration" d); [|done].
  simpl in Hm. apply bind_Ok in Hm as (long & Hlong & [= <-]).
  split; [done|]. intros r. simpl. by apply keep_rows.
Qed.

(** The two filters together. *)
Lemma drop_artifacts_rows st df st' out d :
  frame_at st df = Some d →
  drop_artifacts df st = (Ok out, st') →
  ∃ d',
    frame_at st' out = Some d' ∧
    ∀ r, r ∈ rows d' ↔ r ∈ rows d ∧ ¬ (too_long "on" r ∨ too_long "use" r).
Proof.
  intros Hd H. unfold drop_artifacts in H.
  step_with H (derive_run _ _ _ _ Hd).
  rewrite (derive_run _ _ _ _ (frame_at_add_eq _ _)) in H.
  destruct (artifact_filter "use" a) as [d'|] eqn:E2; [|discriminate H].
  injection H as <- <-. exists d'. split; [apply frame_at_add_eq|].
  apply artifact_filter_rows in E as [_ Hon]. apply artifact_filter_rows in E2 as [_ Huse].
  intros r. rewrite Huse, Hon. tauto.
Qed.

(** The rows of the sample the two filters keep. *)
Example artifact_filter_sample :
  (λ d, at_col "time" <$> rows d)
    <$> returned (drop_artifacts (PyRef 0%nat)) (mkState [ODataFrame durations_sample] [])
  = Some [Int 2; Int 3; Int 5; Int 6].
Proof. vm_compute. reflexivity. Qed.

(** ** extract_features_screen *)

(** C8 (as amended). Called with an empty mapping that is not None,
    [extract_features_screen] calls no metric function (not one of the
    registered ones), prints nothing and writes nothing; the concatenation of
    the empty list of results then raises ValueError, so the call does not
    return a table. *)
Theorem empty_selection_computes_nothing resample ALL_FEATURE_FUNCTIONS st df bat features d :
  frame_at st df = Some d →
  object_at st features = Some (ODict ∅) ∨ object_at st features = Some (OFeatures []) →
  call (extract_features_screen resample ALL_FEATURE_FUNCTIONS) [df; bat; features] st
  = (Raise ValueError, st).
Proof.
  intros Hd Hf. rewrite call_arity.
  cbn [length params defaults body extract_features_screen Nat.ltb Nat.leb Nat.sub orb drop app].
  rewrite bind_run, (assert_frame_run _ _ _ _ Hd).
  destruct features as [|l]; [by destruct Hf|].
  rewrite !bind_run, py_assert_run, isinstance_run.
  destruct Hf as [Hf|Hf]; rewrite Hf; cbv beta iota zeta;
    rewrite ret_run; cbv beta iota zeta;
    rewrite bind_run, deref_run, Hf; [rewrite map_to_list_empty|]; reflexivity.
Qed.

Lemma empty_selection_computes_nothing_witness :
  call (extract_features_screen fixed_windows (PyRef 12%nat))
       [PyRef 0%nat; PyRef 1%nat; PyRef 2%nat] (imported screen_U1 no_battery)
  = (Raise ValueError, imported screen_U1 no_battery).
Proof.
  apply (empty_selection_computes_nothing fixed_windows (PyRef 12%nat)
           (imported screen_U1 no_battery) (PyRef 0%nat) (PyRef 1%nat) (PyRef 2%nat) screen_U1);
    [reflexivity | left; reflexivity].
Defined.

(** C8, as stated, fails: on an empty selection the call raises. *)
Lemma empty_selection_raises :
  ¬ ∃ result st',
      call (extract_features_screen fixed_windows (PyRef 12%nat))
           [PyRef 0%nat; PyRef 1%nat; PyRef 2%nat] (imported screen_U1 no_battery)
      = (Ok result, st').
Proof.
  intros (result & st' & H).
  assert (call (extract_features_screen fixed_windows (PyRef 12%nat))
               [PyRef 0%nat; PyRef 1%nat; PyRef 2%nat] (imported screen_U1 no_battery)
          = (Raise ValueError, imported screen_U1 no_battery)) as E by (vm_compute; reflexivity).
  rewrite E in H. discriminate H.
Qed.

(** ** What the pipeline writes *)

Section confinement.
Context (n : nat) (L : list pyval).

Lemma confined_ret {A} (a : A) (post : A → Prop) : post a → confined n L (mret a) post.
Proof. intros Hp st r st' _ [= <- <-]. split; [done|]. split; [done|]. by intros ? [= <-]. Qed.

Lemma confined_raise {A} e (post : A → Prop) : confined n L (raise e) post.
Proof. intros st r st' _ [= <- <-]. done. Qed.

Lemma confined_lift {A} (o : outcome A) : confined n L (lift o) (λ _, True).
Proof. intros st r st' _ [= <- <-]. done. Qed.

Lemma confined_bind {A B} (m : M A) (k : A → M B) (P : A → Prop) (Q : B → Prop) :
  confined n L m P → (∀ a, P a → confined n L (k a) Q) → confined n L (m ≫= k) Q.
Proof.
  intros Hm Hk st r st' Hn H. rewrite bind_run in H.
  destruct (m st) as [[a|e] st1] eqn:E.
  - destruct (Hm _ _ _ Hn E) as (Hlen & Hsame & Hpost).
    destruct (Hk a (Hpost _ eq_refl) st1 r st' ltac:(lia) H) as (Hlen' & Hsame' & Hpost').
    split; [lia|]. split; [|done]. intros l Hl HL. rewrite Hsame' by done. by apply Hsame.
  - injection H as <- <-. destruct (Hm _ _ _ Hn E) as (Hlen & Hsame & _). done.
Qed.

Lemma confined_weaken {A} (m : M A) (P Q : A → Prop) :
  confined n L m P → (∀ a, P a → Q a) → confined n L m Q.
Proof.
  intros Hm HPQ st r st' Hn H. destruct (Hm _ _ _ Hn H) as (? & ? & Hp).
  split; [done|]. split; [done|]. intros a Ha. by apply HPQ, Hp.
Qed.

Lemma confined_deref v : confined n L (deref v) (λ _, True).
Proof. intros st r st' _ [= <- <-]. done. Qed.

Lemma confined_print s : confined n L (print s) (λ _, True).
Proof. intros st r st' _ [= <- <-]. done. Qed.

Lemma confined_new o : confined n L (new o) (fresh_for n).
Proof.
  intros st r st' Hn [= <- <-]. simpl. rewrite length_app. simpl. split; [lia|]. split.
  - intros l Hl _. rewrite lookup_app_l; [done|lia].
  - intros a [= <-]. by eexists.
Qed.

Lemma confined_put v o : writable n L v → confined n L (put v o) (λ _, True).
Proof.
  intros Hw st r st' Hn H. unfold put in H. destruct v as [|l]; injection H as <- <-; [done|].
  simpl. rewrite length_insert. split; [done|]. split; [|done].
  intros l' Hl' HL. rewrite list_lookup_insert_ne; [done|]. intros ->.
  destruct Hw as [?|(? & [= <-] & ?)]; [done|lia].
Qed.

Lemma confined_isinstance v t : confined n L (isinstance v t) (λ _, True).
Proof.
  unfold isinstance. eapply confined_bind; [apply confined_deref|]. intros. by apply confined_ret.
Qed.

Lemma confined_assert v t msg : confined n L (py_assert (isinstance v t) msg) (λ _, True).
Proof.
  unfold py_assert. eapply confined_bind; [apply confined_isinstance|].
  intros [] _; [by apply confined_ret | apply confined_raise].
Qed.

Lemma confined_frame v : confined n L (frame v) (λ _, True).
Proof.
  unfold frame. eapply confined_bind; [apply confined_deref|].
  intros [[]|] _; first [by apply confined_ret | apply confined_raise].
Qed.

Lemma confined_series v : confined n L (series v) (λ _, True).
Proof.
  unfold series. eapply confined_bind; [apply confined_deref|].
  intros [[]|] _; first [by apply confined_ret | apply confined_raise].
Qed.

Lemma confined_config v : confined n L (config v) (λ _, True).
Proof.
  unfold config. eapply confined_bind; [apply confined_deref|].
  intros [[]|] _; first [by apply confined_ret | apply confined_raise].
Qed.

Lemma confined_inplace v f : writable n L v → confined n L (inplace v f) (λ _, True).
Proof.
  intros Hw. unfold inplace. eapply confined_bind; [apply confined_frame|]. intros d _.
  eapply confined_bind; [apply confined_lift|]. intros d' _. by apply confined_put.
Qed.

Lemma confined_assign v c e : writable n L v → confined n L (assign v c e) (λ _, True).
Proof. intros Hw. by apply confined_inplace. Qed.

Lemma confined_derive v f : confined n L (derive v f) (fresh_for n).
Proof.
  unfold derive. eapply confined_bind; [apply confined_frame|]. intros d _.
  eapply confined_bind; [apply confined_lift|]. intros d' _. apply confined_new.
Qed.

Lemma fresh_writable v : fresh_for n v → writable n L v.
Proof. by right. Qed.

End confinement.

Create HintDb confine.
#[local] Hint Resolve fresh_writable : confine.
#[local] Hint Extern 1 (writable _ _ _) => assumption : confine.
#[local] Hint Extern 1 (fresh_for _ _) => assumption : confine.

(** The proof that a function body is confined follows its statements. *)
Ltac confine_head :=
  first [ apply confined_assert | apply confined_config | apply confined_frame
        | apply confined_series | apply confined_lift | apply confined_derive
        | apply confined_new | apply confined_deref | apply confined_print
        | apply confined_isinstance
        | apply confined_inplace; solve [eauto with confine]
        | apply confined_assign; solve [eauto with confine]
        | apply confined_put; solve [eauto with confine] ].

Ltac confine :=
  repeat first
    [ progress intros
    | apply confined_ret; solve [eauto with confine]
    | apply confined_raise
    | eapply confined_weaken; [confine_head | solve [eauto with confine]]
    | eapply confined_bind; [confine_head | ]
    | match goal with
      | |- confined _ _ (if ?b then _ else _) _ => destruct b
      | |- confined _ _ (match ?x with _ => _ end) _ => destruct x
      end ].

Lemma confined_detect_missing n L df col_name :
  writable n L df → confined n L (detect_missing df col_name) (λ _, True).
Proof. intros Hw. unfold detect_missing. confine. Qed.

Lemma confined_shutdown_info n L args : confined n L (call b.shutdown_info args) (fresh_for n).
Proof.
  rewrite call_arity. destruct (_ || _); [apply confined_raise|].
  cbn [body b.shutdown_info]. confine.
Qed.

Lemma confined_util_screen n L df bat feature_functions :
  writable n L df →
  confined n L (call util_screen [df; bat; feature_functions]) (fresh_for n).
Proof.
  intros Hw. rewrite call_arity.
  cbn [length params defaults body util_screen Nat.ltb Nat.leb Nat.sub orb drop app].
  confine.
  eapply confined_bind with (P := writable n L).
  { destruct (negb _); [|by apply confined_ret].
    eapply confined_bind; [apply confined_shutdown_info|]. confine. }
  confine.
  eapply confined_bind; [by apply confined_detect_missing|]. confine.
Qed.

Lemma confined_assign_flags n L df :
  writable n L df → confined n L (assign_flags df) (λ _, True).
Proof. intros Hw. unfold assign_flags, flag_codes. confine. Qed.

Lemma confined_classify n L df col_name :
  writable n L df → confined n L (classify df col_name) (fresh_for n).
Proof.
  intros Hw. unfold classify. confine.
  eapply confined_bind; [apply confined_assign_flags; eauto with confine|]. confine.
Qed.

Lemma confined_event_classification_screen n L df feature_functions :
  writable n L df →
  confined n L (call event_classification_screen [df; feature_functions]) (fresh_for n).
Proof.
  intros Hw. rewrite call_arity.
  cbn [length params defaults body event_classification_screen Nat.ltb Nat.leb Nat.sub orb
       drop app].
  confine. eapply confined_bind; [by apply confined_classify|]. confine.
Qed.

Lemma confined_drop_artifacts n L df : confined n L (drop_artifacts df) (fresh_for n).
Proof. unfold drop_artifacts. confine. Qed.

Lemma confined_duration_util_screen n L df :
  writable n L df → confined n L (call duration_util_screen [df]) (fresh_for n).
Proof.
  intros Hw. rewrite call_arity.
  cbn [length params defaults body duration_util_screen Nat.ltb Nat.leb Nat.sub orb drop app].
  confine. eapply confined_bind; [apply confined_drop_artifacts|]. confine.
Qed.

Lemma confined_prologue n L df bat feature_functions :
  confined n L (prologue df bat feature_functions) (λ _, True).
Proof. unfold prologue. confine. Qed.

Lemma confined_default_resample_args n L feature_functions :
  writable n L feature_functions →
  confined n L (default_resample_args feature_functions) (λ _, True).
Proof. intros Hw. unfold default_resample_args. confine. Qed.

Lemma confined_resample_args n L ff : confined n L (resample_args ff) (λ _, True).
Proof. unfold resample_args. confine. Qed.

Lemma confined_resampled resample n L ff d2 sel c nm op :
  confined n L (resampled resample ff d2 sel c nm op) (λ _, True).
Proof.
  unfold resampled. confine. eapply confined_bind; [apply confined_resample_args|]. confine.
Qed.

Lemma confined_screen_off n L df bat feature_functions :
  writable n L df →
  confined n L (call screen_off [df; bat; feature_functions]) (fresh_for n).
Proof.
  intros Hw. rewrite call_arity.
  cbn [length params defaults body screen_off Nat.ltb Nat.leb Nat.sub orb drop app].
  eapply confined_bind; [apply confined_prologue|]. intros.
  eapply confined_bind; [by apply confined_util_screen|]. confine.
Qed.

Lemma confined_screen_count resample n L df bat feature_functions :
  writable n L df → writable n L feature_functions →
  confined n L (call (screen_count resample) [df; bat; feature_functions]) (fresh_for n).
Proof.
  intros Hw Hf. rewrite call_arity.
  cbn [length params defaults body screen_count Nat.ltb Nat.leb Nat.sub orb drop app].
  eapply confined_bind; [apply confined_prologue|]. intros.
  eapply confined_bind; [by apply confined_default_resample_args|]. intros.
  eapply confined_bind; [by apply confined_util_screen|]. intros.
  eapply confined_bind; [apply confined_event_classification_screen; eauto with confine|].
  confine; eapply confined_bind; try apply confined_resampled; confine.
  all: eapply confined_bind; try apply confined_resampled; confine.
  all: eapply confined_bind; try apply confined_resampled; confine.
Qed.

Lemma confined_duration_metric resample op suffix n L df bat feature_functions :
  writable n L df → writable n L feature_functions →
  confined n L (call (duration_metric resample op suffix) [df; bat; feature_functions])
           (fresh_for n).
Proof.
  intros Hw Hf. rewrite call_arity.
  cbn [length params defaults body duration_metric Nat.ltb Nat.leb Nat.sub orb drop app].
  eapply confined_bind; [apply confined_prologue|]. intros.
  eapply confined_bind; [by apply confined_default_resample_args|]. intros.
  eapply confined_bind; [by apply confined_util_screen|]. intros.
  eapply confined_bind; [apply confined_event_classification_screen; eauto with confine|].
  intros.
  eapply confined_bind; [apply confined_duration_util_screen; eauto with confine|].
  confine; eapply confined_bind; try apply confined_resampled; confine.
  all: eapply confined_bind; try apply confined_resampled; confine.
  all: eapply confined_bind; try apply confined_resampled; confine.
Qed.

Lemma confined_screen_first_unlock resample n L df bat feature_functions :
  writable n L df → writable n L feature_functions →
  confined n L (call (screen_first_unlock resample) [df; bat; feature_functions])
           (fresh_for n).
Proof.
  intros Hw Hf. rewrite call_arity.
  cbn [length params defaults body screen_first_unlock Nat.ltb Nat.leb Nat.sub orb drop app].
  eapply confined_bind; [apply confined_prologue|]. intros.
  eapply confined_bind; [by apply confined_default_resample_args|]. intros.
  eapply confined_bind; [by apply confined_util_screen|]. intros.
  eapply confined_bind; [apply confined_event_classification_screen; eauto with confine|].
  confine.
Qed.

Lemma confined_leaves_alone L f args st :
  confined (length (objects st)) L (call f args) (fresh_for (length (objects st))) →
  leaves_alone L f args st.
Proof.
  intros H. unfold leaves_alone, unchanged_except.
  destruct (call f args st) as [r st'] eqn:E.
  destruct (H st r st' (le_n _) E) as (Hlen & Hsame & Hpost). done.
Qed.

(** C9, as stated, fails: after [util_screen] the caller's screen table has
    one more column. *)
Lemma util_screen_rewrites_input :
  ∃ d, frame_at (call util_screen [PyRef 0%nat; PyRef 1%nat; PyRef 2%nat]
                      (state_of screen_U1 no_battery)).2 (PyRef 0%nat) = Some d ∧
       columns d = screen_columns ++ ["missing"%string] ∧
       frame_at (state_of screen_U1 no_battery) (PyRef 0%nat) = Some screen_U1 ∧
       columns screen_U1 = screen_columns.
Proof. eexists. split; [vm_compute; reflexivity | done]. Qed.

(** C9 (as amended). A pipeline operation writes to no object of its caller
    other than the screen table passed as [df] and, for the metric
    functions, the configuration passed as [feature_functions]: the battery
    table and every other object are left as they were, and the table
    returned is a new object.  (The table [df] itself is rewritten in
    place, and a configuration without [resample_args] receives the
    default.) *)
Theorem pipeline_writes resample st df bat feature_functions :
  leaves_alone [df] util_screen [df; bat; feature_functions] st ∧
  leaves_alone [df] event_classification_screen [df; feature_functions] st ∧
  leaves_alone [df] duration_util_screen [df] st ∧
  Forall (λ f, leaves_alone [df; feature_functions] f [df; bat; feature_functions] st)
         (metric_functions resample).
Proof.
  assert (∀ n, writable n [df] df) as Hdf.
  { intros. left. apply list_elem_of_here. }
  assert (∀ n, writable n [df; feature_functions] df) as Hdf2.
  { intros. left. apply list_elem_of_here. }
  assert (∀ n, writable n [df; feature_functions] feature_functions) as Hff.
  { intros. left. apply list_elem_of_further, list_elem_of_here. }
  split; [|split; [|split]].
  - apply confined_leaves_alone, confined_util_screen, Hdf.
  - apply confined_leaves_alone, confined_event_classification_screen, Hdf.
  - apply confined_leaves_alone, confined_duration_util_screen, Hdf.
  - unfold metric_functions, optional_config_metrics, screen_duration, screen_duration_min,
      screen_duration_max, screen_duration_mean, screen_duration_median, screen_duration_std.
    cbn [app].
    repeat (apply Forall_cons_2; [apply confined_leaves_alone|]); [..|apply Forall_nil_2].
    + apply confined_screen_off, Hdf2.
    + apply confined_screen_count; [apply Hdf2 | apply Hff].
    + apply confined_duration_metric; [apply Hdf2 | apply Hff].
    + apply confined_duration_metric; [apply Hdf2 | apply Hff].
    + apply confined_duration_metric; [apply Hdf2 | apply Hff].
    + apply confined_duration_metric; [apply Hdf2 | apply Hff].
    + apply confined_duration_metric; [apply Hdf2 | apply Hff].
    + apply confined_duration_metric; [apply Hdf2 | apply Hff].
    + apply confined_screen_first_unlock; [apply Hdf2 | apply Hff].
Qed.

(** ** The end-to-end scenario *)

(** C4, as stated, fails: the Duration Calculator returns no row for U1, so
    the surviving transition has no duration. *)
Lemma scenario_U1_no_duration :
  ∃ d, returned with_durations (state_of screen_U1 no_battery) = Some d ∧ rows d = [].
Proof. eexists. split; [vm_compute; reflexivity | reflexivity]. Qed.

(** C4 (as amended). For U1 the classifier forms the pair codes 13, 31, 10
    with the flags on, use, on; after the trimming of the first and last
    row only the event at 5 (pair 31) is left, flagged use; the Duration
    Calculator then drops it as the last row of its user, and returns an
    empty table. *)
Theorem scenario_U1 :
  transitions <$> returned classified (state_of screen_U1 no_battery)
  = Some [(Int 0, Str "13", (Int 0, Int 1, Int 0, Int 0));
          (Int 5, Str "31", (Int 1, Int 0, Int 0, Int 0));
          (Int 20, Str "10", (Int 0, Int 1, Int 0, Int 0))] ∧
  flags <$> returned trimmed (state_of screen_U1 no_battery)
  = Some [(Int 5, (Int 1, Int 0, Int 0, Int 0))] ∧
  flags <$> returned with_durations (state_of screen_U1 no_battery) = Some [].
Proof. repeat split; vm_compute; reflexivity. Qed.

(** ** Missing data across users *)

(** C6 at a table of two users: the first reading of U2 (status 0 at 3)
    follows, in the sorted table, the last reading of U1 (status 0 at 5)
    and is dropped as its repetition, although U2's own sequence 0, 1
    repeats nothing. *)
Theorem util_screen_compares_across_users :
  events screen_two_users
  = [(Str "U1", Int 0, Int 1); (Str "U1", Int 5, Int 0);
     (Str "U2", Int 3, Int 0); (Str "U2", Int 9, Int 1)] ∧
  events <$> returned merged (state_of screen_two_users no_battery)
  = Some [(Str "U1", Int 0, Int 1); (Str "U1", Int 5, Int 0); (Str "U2", Int 9, Int 1)].
Proof. split; vm_compute; reflexivity. Qed.

(** ** Metrics on an empty selection of rows *)

(** C2 at two tables.  With three events of one user the classifier leaves
    no row, and [screen_count] reaches [return result] with [result]
    unassigned; with the four events of U1 the Duration Calculator leaves no
    row, and so do [screen_duration] and its five variants: each raises
    UnboundLocalError. *)
Theorem metrics_raise_on_empty resample :
  (call (screen_count resample) caller_args (state_of screen_three no_battery)).1
  = Raise (UnboundLocalError "result") ∧
  Forall (λ f, (call f caller_args (state_of screen_U1 no_battery)).1
               = Raise (UnboundLocalError "result"))
         [screen_duration resample; screen_duration_min resample;
          screen_duration_max resample; screen_duration_mean resample;
          screen_duration_median resample; screen_duration_std resample].
Proof. split; [|repeat constructor]; vm_compute; reflexivity. Qed.

(** ** Missing data across users *)

Lemma mask_filter_fmap {A B} (h : A → B) mask l :
  mask_filter mask (h <$> l) = h <$> mask_filter mask l.
Proof.
  revert l. induction mask as [|m mask IH]; intros [|x l]; simpl; try done.
  destruct m; simpl; by rewrite IH.
Qed.

Lemma shift_length k vs : length (shift k vs) = length vs.
Proof.
  unfold shift. destruct (0 <=? k).
  - rewrite length_take, length_app. lia.
  - rewrite length_app, length_drop, length_replicate. lia.
Qed.

Lemma sub_length a b c : sub a b = Ok c → length c = (length a `min` length b)%nat.
Proof.
  revert b c. induction a as [|x a IH]; intros [|y b] c; simpl; try by intros [= <-].
  intros H. apply bind_Ok in H as (c0 & _ & H). apply bind_Ok in H as (cs & Hcs & [= <-]).
  simpl. by rewrite (IH _ _ Hcs).
Qed.

(** Rounding to float64 keeps an integer that is not 0 away from 0. *)
Lemma f64_zero z : f64 z = 0 ↔ z = 0.
Proof.
  unfold f64. destruct (Z.abs z <=? 2 ^ 53) eqn:E; [done|]. apply Z.leb_gt in E.
  split; [|intros ->; simpl in E; lia]. intros H. exfalso.
  set (a := Z.abs z) in *. set (e := Z.log2 a - 52) in *.
  assert (0 < a) as Ha by lia.
  assert (53 ≤ Z.log2 a) as Hlog.
  { rewrite <- (Z.log2_pow2 53) by lia. apply Z.log2_le_mono. lia. }
  assert (1 ≤ e) as He by (unfold e; lia).
  pose proof (Z.log2_spec a Ha) as [Hlo _].
  assert (2 ^ Z.log2 a = 2 ^ 52 * 2 ^ e) as Hpow.
  { rewrite <- Z.pow_add_r by lia. f_equal. unfold e. lia. }
  assert (0 < 2 ^ e) as Hpe by (apply Z.pow_pos_nonneg; lia).
  assert (2 ^ 52 ≤ Z.shiftr a e) as Hq.
  { rewrite Z.shiftr_div_pow2 by lia. apply Z.div_le_lower_bound; [done|]. lia. }
  apply Z.mul_eq_0 in H as [H|H].
  - destruct z; simpl in H; done.
  - rewrite Z.shiftl_mul_pow2 in H by lia.
    apply Z.mul_eq_0 in H as [H|H]; [|lia].
    destruct (_ || _); lia.
Qed.

Lemma sub_cell_zero x y c : sub_cell x y = Ok c → eq_int 0 c = same_number x y.
Proof.
  destruct x, y; simpl; try done; intros [= <-]; simpl; try done.
  pose proof (f64_zero (f64 z - f64 z0)) as H.
  destruct (Z.eqb_spec (f64 (f64 z - f64 z0)) 0), (Z.eqb_spec (f64 z) (f64 z0));
    try done; lia.
Qed.

(** What [dummy == 0] holds: row by row, whether the status is the number
    of the next row. *)
Lemma sub_same_number a b t D :
  sub a (b ++ t) = Ok D → (length b ≤ length a)%nat →
  eq_int 0 <$> take (length b) D = zip_with same_number a b.
Proof.
  revert a D. induction b as [|y b IH]; intros a D H Hlen.
  - simpl. by destruct a.
  - destruct a as [|x a]; [simpl in Hlen; lia|]. simpl in H.
    apply bind_Ok in H as (c & Hc & H). apply bind_Ok in H as (cs & Hcs & [= <-]).
    simpl. rewrite (sub_cell_zero _ _ _ Hc). f_equal. apply IH; [done|]. simpl in Hlen. lia.
Qed.

Lemma zip_with_negb {A B} (f : A → B → bool) l k :
  zip_with (λ a b, negb (f a b)) l k = negb <$> zip_with f l k.
Proof.
  revert k. induction l as [|x l IH]; intros [|y k]; simpl; try done. by rewrite IH.
Qed.

(** Lines 59-62 and 64 on the column of statuses: the mask of the rows that
    are kept. *)
Lemma missing_mask S D :
  sub S (shift (-1) S) = Ok D →
  eq_int 0 <$> (fillna_cell (Int 0) <$> shift 1 (np.where_1_0 (eq_int 0 <$> D)))
  = first_of_run S.
Proof.
  intros H. pose proof (sub_length _ _ _ H) as HD. rewrite shift_length in HD.
  destruct S as [|s S']; [by destruct D|].
  assert (shift (-1) (s :: S') = S' ++ [NaN]) as Hsh.
  { unfold shift. simpl. rewrite drop_0. by destruct S'. }
  rewrite Hsh in H. simpl in HD. rewrite Nat.min_id in HD.
  assert (∀ X : list cell, length X = length D → shift 1 X = NaN :: take (length S') X) as Hs1.
  { intros X HX. unfold shift. simpl. rewrite HX, HD. done. }
  rewrite Hs1 by (unfold np.where_1_0; by rewrite !length_fmap).
  cbn [fmap list_fmap fillna_cell eq_int Z.eqb first_of_run]. f_equal.
  unfold np.where_1_0. rewrite <- !fmap_take, <- !list_fmap_compose.
  rewrite zip_with_negb.
  rewrite <- (sub_same_number (s :: S') S' [NaN] D); [|done|simpl; lia].
  rewrite <- list_fmap_compose. apply list_fmap_ext. intros i c _. simpl.
  by destruct (eq_int 0 c).
Qed.

(** Columns written and columns read. *)
Lemma setcol_rows_fmap {B} (h : label * row → B) c vs d :
  (∀ (r : label * row) v, h (r.1, <[c := v]> r.2) = h r) → length vs = len d →
  h <$> rows (setcol c vs d) = h <$> rows d.
Proof.
  unfold setcol, len. cbn [rows]. intros Hh. revert vs.
  induction (rows d) as [|r rs IH]; intros [|v vs] Hlen; simpl in *; try done.
  rewrite Hh. f_equal. apply IH. lia.
Qed.

Lemma setcol_at_col c vs d :
  length vs = len d → at_col c <$> rows (setcol c vs d) = vs.
Proof.
  unfold setcol, len. cbn [rows]. revert vs.
  induction (rows d) as [|r rs IH]; intros [|v vs] Hlen; simpl in *; try done.
  rewrite at_col_insert, decide_True by done. f_equal. apply IH. lia.
Qed.

Lemma setcol_lookup_col c vs d :
  length vs = len d →
  (λ r : label * row, r.2 !! c) <$> rows (setcol c vs d) = Some <$> vs.
Proof.
  unfold setcol, len. cbn [rows]. revert vs.
  induction (rows d) as [|r rs IH]; intros [|v vs] Hlen; simpl in *; try done.
  rewrite lookup_insert, decide_True by done. f_equal. apply IH. lia.
Qed.

Lemma setcol_len c vs d : length vs = len d → len (setcol c vs d) = len d.
Proof. unfold setcol, len. cbn [rows]. rewrite length_zip_with. lia. Qed.

Lemma setcol_columns c vs d x :
  x ∈ columns (setcol c vs d) ↔ x ∈ columns d ∨ x = c.
Proof.
  unfold setcol, has_column. cbn [columns]. case_bool_decide as Hc.
  - split; [by left|]. by intros [?| ->].
  - rewrite elem_of_app, list_elem_of_singleton. done.
Qed.

Lemma drop_columns_columns cs d d' x :
  drop_columns cs d = Ok d' → x ∈ columns d' ↔ x ∈ columns d ∧ x ∉ cs.
Proof.
  unfold drop_columns. destruct (List.find _ cs); [done|]. intros [= <-]. cbn [columns].
  rewrite (list_elem_of_In (List.filter _ _) x), filter_In, negb_true_iff,
    bool_decide_eq_false, <- list_elem_of_In. done.
Qed.

Lemma tidy_insert c v (r : label * row) :
  c ∈ ["missing"; "dummy"; "next"]%string → tidy (r.1, <[c := v]> r.2) = tidy r.
Proof.
  intros Hc. unfold tidy. cbn [fst snd foldr]. f_equal. apply map_eq. intros k.
  rewrite !lookup_delete, !lookup_fmap, !lookup_delete, lookup_insert.
  rewrite !elem_of_cons, elem_of_nil in Hc.
  destruct Hc as [->|[->|[->|[]]]]; repeat case_decide; done.
Qed.

(** Lines 58-64, on the table [d0] the sort has left. *)
Lemma detect_missing_Ok st l col_name d0 st' :
  frame_at st (PyRef l) = Some d0 →
  col_name ∉ ["missing"; "dummy"; "next"]%string →
  detect_missing (PyRef l) col_name st = (Ok (), st') →
  ∃ d7,
    st' = set_object st l (ODataFrame d7) ∧
    has_column col_name d0 = true ∧
    has_column "missing" d7 = true ∧
    (∀ x, x ∈ columns d7 ↔
          (x ∈ columns d0 ∨ x = "missing"%string) ∧ x ∉ ["dummy"; "next"]%string) ∧
    eq_int 0 <$> (at_col "missing" <$> rows d7) = first_of_run (at_col col_name <$> rows d0) ∧
    (λ r : label * row, (r.1, delete "missing"%string r.2)) <$> rows d7 = tidy <$> rows d0.
Proof.
  intros Hd0 Hcol H. unfold detect_missing in H.
  assert (col_name ≠ "missing"%string ∧ col_name ≠ "dummy"%string ∧ col_name ≠ "next"%string)
    as (Hc1 & Hc2 & Hc3).
  { rewrite !not_elem_of_cons in Hcol. tauto. }
  assert (∀ c v (r : label * row), c ≠ col_name →
            at_col col_name (r.1, <[c := v]> r.2) = at_col col_name r) as Hkeep.
  { intros c v r Hne. rewrite at_col_insert. by rewrite decide_False. }
  rewrite bind_run, (assign_run _ _ _ _ _ Hd0) in H. cbv beta iota in H.
  set (d1 := setcol "missing" (replicate (len d0) (Int 0)) d0) in *.
  pose proof (frame_at_set_eq _ _ d1 _ Hd0) as Hd1.
  assert (len d1 = len d0) as Hl1 by (apply setcol_len, length_replicate).
  step_with H (assign_run _ _ _ _ _ Hd1). rename a into N, E into HN.
  apply fmap_Ok in HN as (S1 & HS1 & ->). apply getcol_Ok in HS1 as [Hhas1 ->].
  assert (at_col col_name <$> rows d1 = at_col col_name <$> rows d0) as HS1.
  { apply setcol_rows_fmap; [intros; by apply Hkeep|apply length_replicate]. }
  rewrite HS1 in *. set (S := at_col col_name <$> rows d0) in *.
  assert (length S = len d0) as HlS by (unfold S, len; by rewrite length_fmap).
  set (d2 := setcol "next" (shift (-1) S) d1) in *.
  pose proof (frame_at_set_eq _ _ d2 _ Hd1) as Hd2. rewrite set_object_twice in H, Hd2.
  assert (len d2 = len d0) as Hl2 by (unfold d2; rewrite setcol_len; rewrite ?shift_length; lia).
  step_with H (assign_run _ _ _ _ _ Hd2). rename a into D, E into HD.
  apply bind_Ok in HD as (a & Ha & HD). apply bind_Ok in HD as (n & Hn & HD).
  apply getcol_Ok in Ha as [_ ->]. apply getcol_Ok in Hn as [_ ->].
  assert (at_col col_name <$> rows d2 = S) as HS2.
  { unfold d2. rewrite setcol_rows_fmap; [done|intros; by apply Hkeep|].
    rewrite shift_length. lia. }
  assert (at_col "next" <$> rows d2 = shift (-1) S) as HN2.
  { unfold d2. apply setcol_at_col. rewrite shift_length. lia. }
  rewrite HS2, HN2 in HD.
  pose proof (sub_length _ _ _ HD) as HlD. rewrite shift_length, Nat.min_id in HlD.
  set (d3 := setcol "dummy" D d2) in *.
  pose proof (frame_at_set_eq _ _ d3 _ Hd2) as Hd3. rewrite set_object_twice in H, Hd3.
  assert (len d3 = len d0) as Hl3 by (unfold d3; rewrite setcol_len; lia).
  step_with H (assign_run _ _ _ _ _ Hd3). rename a into M, E into HM.
  apply fmap_Ok in HM as (x & Hx & ->). apply getcol_Ok in Hx as [_ ->].
  assert (at_col "dummy" <$> rows d3 = D) as HD3 by (unfold d3; apply setcol_at_col; lia).
  rewrite HD3 in *. set (M := np.where_1_0 (eq_int 0 <$> D)) in *.
  assert (length M = len d0) as HlM by (unfold M, np.where_1_0; rewrite !length_fmap; lia).
  set (d4 := setcol "missing" M d3) in *.
  pose proof (frame_at_set_eq _ _ d4 _ Hd3) as Hd4. rewrite set_object_twice in H, Hd4.
  assert (len d4 = len d0) as Hl4 by (unfold d4; rewrite setcol_len; lia).
  step_with H (assign_run _ _ _ _ _ Hd4). rename a into M', E into HM'.
  apply fmap_Ok in HM' as (x & Hx & ->). apply getcol_Ok in Hx as [_ ->].
  assert (at_col "missing" <$> rows d4 = M) as HM4 by (unfold d4; apply setcol_at_col; lia).
  rewrite HM4 in *.
  set (d5 := setcol "missing" (shift 1 M) d4) in *.
  pose proof (frame_at_set_eq _ _ d5 _ Hd4) as Hd5. rewrite set_object_twice in H, Hd5.
  step_with H (inplace_run _ _ _ _ Hd5). rename a into d6, E into Hd6'.
  pose proof (frame_at_set_eq _ _ d6 _ Hd5) as Hd6. rewrite set_object_twice in H, Hd6.
  rewrite (inplace_run _ _ _ _ Hd6) in H. cbv beta iota in H.
  rewrite set_object_twice in H.
  injection H as <-. exists (fillna (Int 0) d6). split; [done|].
  pose proof (drop_columns_Ok _ _ _ Hd6') as Hr6.
  split; [by apply has_column_setcol in Hhas1 as [?|?]|]. split; [|split; [|split]].
  - unfold has_column. apply bool_decide_eq_true. unfold fillna. cbn [columns].
    apply (drop_columns_columns _ _ _ _ Hd6'). split.
    + unfold d5. apply setcol_columns. by right.
    + rewrite !not_elem_of_cons. split; [done|]. split; [done|]. apply not_elem_of_nil.
  - intros x. unfold fillna. cbn [columns]. rewrite (drop_columns_columns _ _ _ _ Hd6').
    unfold d5, d4, d3, d2, d1. rewrite !setcol_columns.
    rewrite !not_elem_of_cons. split; [|tauto]. intros [Hx Hn]. split; [|done]. tauto.
  - unfold fillna. cbn [rows]. rewrite Hr6, <- !list_fmap_compose.
    rewrite <- (missing_mask S D HD).
    assert ((λ r : label * row, r.2 !! "missing"%string) <$> rows d5 = Some <$> shift 1 M) as Hm5.
    { unfold d5. apply setcol_lookup_col. rewrite shift_length. lia. }
    fold M. rewrite <- (list_fmap_compose (fillna_cell (Int 0)) (eq_int 0)).
    transitivity ((λ o : option cell, eq_int 0 (default NaN (fillna_cell (Int 0) <$> o)))
                    <$> ((λ r : label * row, r.2 !! "missing"%string) <$> rows d5)).
    + rewrite <- list_fmap_compose. apply list_fmap_ext. intros i r _.
      unfold at_col. cbn [compose snd foldr]. by rewrite lookup_fmap, !lookup_delete_ne.
    + rewrite Hm5, <- list_fmap_compose. done.
  - unfold fillna. cbn [rows]. rewrite Hr6, <- !list_fmap_compose.
    change ((λ r : label * row, (r.1, delete "missing"%string r.2))
              ∘ (λ r : label * row, (r.1, fillna_cell (Int 0) <$> r.2))
              ∘ (λ r : label * row, (r.1, foldr delete r.2 ["dummy"; "next"]%string)))
      with tidy.
    unfold d5. rewrite setcol_rows_fmap;
      [|intros; apply tidy_insert; in_list|rewrite shift_length; lia].
    unfold d4. rewrite setcol_rows_fmap; [|intros; apply tidy_insert; in_list|lia].
    unfold d3. rewrite setcol_rows_fmap; [|intros; apply tidy_insert; in_list|lia].
    unfold d2. rewrite setcol_rows_fmap;
      [|intros; apply tidy_insert; in_list|rewrite shift_length; lia].
    unfold d1. rewrite setcol_rows_fmap;
      [done|intros; apply tidy_insert; in_list|apply length_replicate].
Qed.

(** What [util_screen] returns, when it returns: the rows of the sorted
    table that start a run of equal statuses, tidied. *)
Lemma util_screen_Ok st df bat feature_functions d batf ff col_name out st' :
  frame_at st df = Some d →
  frame_at st bat = Some batf →
  config_at st feature_functions = Some ff →
  column_name (screen_column_name ff) = Ok col_name →
  col_name ∉ ["missing"; "dummy"; "next"]%string →
  call util_screen [df; bat; feature_functions] st = (Ok out, st') →
  ∃ vs sorted result,
    getcol col_name d ≫= to_numeric = Ok vs ∧
    sort_values sort_key (setcol col_name vs d) = Ok sorted ∧
    frame_at st' out = Some result ∧
    fresh_for (length (objects st)) out ∧
    rows result
    = tidy <$> mask_filter (first_of_run (at_col col_name <$> rows sorted)) (rows sorted) ∧
    ∀ x, x ∈ columns result ↔ x ∈ columns d ∧ x ∉ ["missing"; "dummy"; "next"]%string.
Proof.
  intros Hdf Hbat Hff Hcol Hnot H.
  destruct (frame_at_ref _ _ _ Hdf) as (l & -> & Hl).
  rewrite call_arity in H.
  cbn [length params defaults body util_screen Nat.ltb Nat.leb Nat.sub orb drop app] in H.
  rewrite bind_run, (assert_frame_run _ _ _ _ Hdf) in H.
  rewrite bind_run, (assert_frame_run _ _ _ _ Hbat) in H.
  rewrite bind_run, (assert_config_run _ _ _ _ Hff) in H.
  rewrite bind_run, (config_run _ _ _ Hff) in H.
  rewrite bind_run in H. unfold lift at 1 in H. rewrite Hcol in H.
  step_with H (assign_run _ _ _ _ _ Hdf). rename a into vs, E into Hvs.
  set (da := setcol col_name vs d) in *.
  pose proof (frame_at_set_eq _ _ da _ Hdf) as Hda.
  assert (∃ b', frame_at (set_object st l (ODataFrame da)) bat = Some b') as (b' & Hb').
  { rewrite frame_at_set by (by eapply lookup_lt_Some). case_decide; eauto. }
  rewrite bind_run, (frame_run _ _ _ Hb') in H.
  destruct (empty b'); cbn [negb] in H.
  2:{ rewrite bind_run, bind_run, call_arity in H. discriminate H. }
  rewrite bind_run, ret_run in H.
  step_with H (inplace_run _ _ _ _ Hda). rename a into sorted, E into Hsort.
  rewrite set_object_twice in H.
  pose proof (frame_at_set_eq _ _ sorted _ Hdf) as Hsorted.
  rewrite bind_run in H.
  destruct (detect_missing (PyRef l) col_name (set_object st l (ODataFrame sorted)))
    as [[[]|e] s7] eqn:Hdm; [|discriminate H].
  apply (detect_missing_Ok _ _ _ sorted) in Hdm
      as (d7 & -> & Hhas & Hmiss & Hcols7 & Hmask & Htidy); [|done|done].
  rewrite set_object_twice in H.
  pose proof (frame_at_set_eq _ _ d7 _ Hdf) as Hd7.
  step_with H (derive_run _ _ _ _ Hd7). rename a into d8, E into Hd8.
  step_with H (inplace_run _ _ _ _ (frame_at_add_eq _ d8)). rename a into d9, E into Hd9.
  rewrite ret_run in H. injection H as <- <-.
  exists vs, sorted, d9. split; [done|]. split; [done|]. split.
  { apply frame_at_set_same. unfold add_object. cbn [objects]. rewrite length_app. simpl. lia. }
  split.
  { unfold fresh_for, set_object. cbn [objects]. rewrite length_insert. eauto. }
  apply bind_Ok in Hd8 as (m & Hm & [= <-]). apply getattr_col_Ok in Hm as [_ ->].
  split.
  - rewrite (drop_columns_Ok _ _ _ Hd9). unfold where_rows. cbn [rows foldr].
    rewrite <- mask_filter_fmap, Htidy, Hmask. apply mask_filter_fmap.
  - intros x. rewrite (drop_columns_columns _ _ _ _ Hd9). unfold where_rows. cbn [columns].
    rewrite Hcols7. apply sort_values_Ok in Hsort as (-> & _). unfold da.
    rewrite setcol_columns. apply bind_Ok in Hvs as (v0 & Hv0 & _).
    apply getcol_Ok in Hv0 as [Hc _]. unfold has_column in Hc.
    apply bool_decide_eq_true in Hc. rewrite !not_elem_of_cons.
    split; [intros [[[[?| ->]| ->] ?] ?]; tauto | intros (? & ? & ? & ? & ?); tauto].
Qed.



(** Beyond 2^53 the subtraction of line 60 rounds: the second reading is
    dropped as a repetition of the first. *)
Example util_screen_large_statuses :
  (λ d, at_col "time" <$> rows d)
    <$> returned (call util_screen caller_args) (state_of screen_large_statuses no_battery)
  = Some [Int 0].
Proof. vm_compute. reflexivity. Qed.

Lemma elem_of_mask_filter {A} (m : list bool) (l : list A) x :
  x ∈ mask_filter m l → x ∈ l.
Proof.
  revert l. induction m as [|b m IH]; intros [|y l]; simpl; try (by intros H; inversion H).
  destruct b.
  - rewrite !(elem_of_cons _ x y). intros [->|?]; [by left|right; by apply IH].
  - intros ?. apply list_elem_of_further. by apply IH.
Qed.

Lemma same_number_trans p x y :
  same_number p x = true → same_number x y = same_number p y.
Proof.
  destruct p, x; try done. simpl. intros H. apply Z.eqb_eq in H.
  destruct y; try done. simpl. by rewrite H.
Qed.

(** Rows kept after a row of status [p]. *)
Lemma run_starts_after {A} (f : A → cell) p (R : list A) :
  let K := mask_filter (zip_with (λ a b, negb (same_number a b)) (p :: (f <$> R)) (f <$> R)) R in
  (∀ h, head K = Some h → same_number p (f h) = false) ∧
  ∀ i a b, K !! i = Some a → K !! S i = Some b → same_number (f a) (f b) = false.
Proof.
  revert p. induction R as [|x R IH]; intros p; cbn zeta.
  - split; [done|]. intros i a b H. destruct i; done.
  - cbn [fmap list_fmap zip_with mask_filter]. fold (fmap f R).
    destruct (IH (f x)) as [Hh Ha]. cbn zeta in Hh, Ha.
    destruct (same_number p (f x)) eqn:Hp; cbn [negb].
    + split; [|done]. intros h Hhead. rewrite <- (same_number_trans _ _ _ Hp). by apply Hh.
    + split; [by intros h [= <-]|]. intros [|i] a b Hi HSi.
      * injection Hi as <-. apply Hh. cbn [lookup list_lookup] in HSi.
        by rewrite head_lookup.
      * by apply (Ha i).
Qed.

Lemma at_col_tidy c (r : label * row) z :
  c ∉ ["missing"; "dummy"; "next"]%string → at_col c r = Int z → at_col c (tidy r) = Int z.
Proof.
  rewrite !not_elem_of_cons. intros (? & ? & ? & _). unfold at_col, tidy. cbn [snd foldr].
  rewrite lookup_delete_ne, lookup_fmap, !lookup_delete_ne by done.
  destruct (r.2 !! c) as [v|]; [|done]. simpl. by intros ->.
Qed.

(** X2. When every status of the sorted table is an integer, no two
    consecutive rows of the table [util_screen] returns have the same
    status. *)
Theorem util_screen_no_repeated_status
    st df bat feature_functions d batf ff col_name out st' vs sorted :
  frame_at st df = Some d →
  frame_at st bat = Some batf →
  config_at st feature_functions = Some ff →
  column_name (screen_column_name ff) = Ok col_name →
  col_name ∉ ["missing"; "dummy"; "next"]%string →
  getcol col_name d ≫= to_numeric = Ok vs →
  sort_values sort_key (setcol col_name vs d) = Ok sorted →
  Forall (λ r, ∃ z, at_col col_name r = Int z) (rows sorted) →
  call util_screen [df; bat; feature_functions] st = (Ok out, st') →
  ∃ result,
    frame_at st' out = Some result ∧
    ∀ i r1 r2, rows result !! i = Some r1 → rows result !! S i = Some r2 →
               at_col col_name r1 ≠ at_col col_name r2.
Proof.
  intros Hdf Hbat Hff Hcol Hnot Hvs Hsort Hint H.
  destruct (util_screen_Ok _ _ _ _ _ _ _ _ _ _ Hdf Hbat Hff Hcol Hnot H)
    as (vs' & sorted' & result & Hvs' & Hsort' & Hres & _ & Hrows & _).
  rewrite Hvs in Hvs'. injection Hvs' as <-. rewrite Hsort in Hsort'. injection Hsort' as <-.
  exists result. split; [done|]. intros i r1 r2 H1 H2.
  rewrite Hrows, list_lookup_fmap in H1, H2.
  destruct (mask_filter _ _ !! i) as [a|] eqn:Ha; [|done].
  destruct (mask_filter _ _ !! S i) as [b|] eqn:Hb; [|done].
  injection H1 as <-. injection H2 as <-.
  assert (a ∈ rows sorted ∧ b ∈ rows sorted) as [Hina Hinb].
  { split; eapply elem_of_mask_filter, list_elem_of_lookup_2; eauto. }
  rewrite Forall_forall in Hint.
  destruct (Hint _ Hina) as [za Hza]. destruct (Hint _ Hinb) as [zb Hzb].
  rewrite (at_col_tidy _ _ _ Hnot Hza), (at_col_tidy _ _ _ Hnot Hzb).
  assert (same_number (at_col col_name a) (at_col col_name b) = false) as Hab.
  { destruct (rows sorted) as [|x R] eqn:HR; [by destruct i|].
    cbn [fmap list_fmap first_of_run mask_filter] in Ha, Hb. fold (fmap (at_col col_name) R) in *.
    destruct (run_starts_after (at_col col_name) (at_col col_name x) R) as [Hh Hadj].
    cbn zeta in Hh, Hadj. destruct i as [|i]; cbn [lookup list_lookup] in Ha, Hb.
    - injection Ha as <-. apply Hh. by rewrite head_lookup.
    - by apply (Hadj i). }
  rewrite Hza, Hzb in Hab. simpl in Hab. intros [= ->]. by rewrite Z.eqb_refl in Hab.
Qed.

Lemma util_screen_no_repeated_status_witness :
  ∃ result,
    frame_at (call util_screen caller_args (state_of screen_two_users no_battery)).2
             (PyRef 3%nat) = Some result ∧
    ∀ i r1 r2, rows result !! i = Some r1 → rows result !! S i = Some r2 →
               at_col "screen_status" r1 ≠ at_col "screen_status" r2.
Proof.
  apply (util_screen_no_repeated_status (state_of screen_two_users no_battery)
           (PyRef 0%nat) (PyRef 1%nat) (PyRef 2%nat) screen_two_users no_battery ∅
           "screen_status" (PyRef 3%nat) _
           [Int 1; Int 0; Int 0; Int 1] screen_two_users);
    [reflexivity | reflexivity | reflexivity | reflexivity | | reflexivity
     | vm_compute; reflexivity | |
     refine (run_pair (call util_screen caller_args) _ _ _); vm_compute; reflexivity].
  - rewrite !not_elem_of_cons. repeat split; try discriminate. apply not_elem_of_nil.
  - repeat constructor; eexists; reflexivity.
Defined.

(** ** The metric functions on an empty selection *)

Lemma prologue_run df bat feature_functions st d batf ff :
  frame_at st df = Some d →
  frame_at st bat = Some batf →
  config_at st feature_functions = Some ff →
  prologue df bat feature_functions st = (Ok (), st).
Proof.
  intros Hd Hb Hf. unfold prologue.
  rewrite bind_run, (assert_frame_run _ _ _ _ Hd).
  rewrite bind_run, (assert_frame_run _ _ _ _ Hb).
  rewrite bind_run, (assert_config_run _ _ _ _ Hf).
  by rewrite bind_run, (config_run _ _ _ Hf).
Qed.

Lemma duration_metric_empty resample op suffix st df bat feature_functions d batf ff
    st0 df1 st1 df2 st2 df3 st3 d3 :
  frame_at st df = Some d →
  frame_at st bat = Some batf →
  config_at st feature_functions = Some ff →
  default_resample_args feature_functions st = (Ok (), st0) →
  call util_screen [df; bat; feature_functions] st0 = (Ok df1, st1) →
  call event_classification_screen [df1; feature_functions] st1 = (Ok df2, st2) →
  call duration_util_screen [df2] st2 = (Ok df3, st3) →
  frame_at st3 df3 = Some d3 →
  len d3 = 0%nat →
  call (duration_metric resample op suffix) [df; bat; feature_functions] st
  = (Raise (UnboundLocalError "result"), st3).
Proof.
  intros Hd Hb Hf H0 H1 H2 H3 Hd3 Hlen. rewrite call_arity.
  cbn [length params defaults body duration_metric Nat.ltb Nat.leb Nat.sub orb drop app].
  rewrite bind_run, (prologue_run _ _ _ _ _ _ _ Hd Hb Hf).
  rewrite bind_run, H0. rewrite bind_run, H1. rewrite bind_run, H2. rewrite bind_run, H3.
  rewrite bind_run, (frame_run _ _ _ Hd3). by rewrite Hlen.
Qed.

(** X3. Whatever the input, when the table [event_classification_screen]
    returns is empty, [screen_count] reaches [return result] with [result]
    unassigned; when the table [duration_util_screen] returns is empty, so
    do [screen_duration] and its five variants: each raises
    UnboundLocalError, in the state the preprocessing has left. *)
Theorem unbound_result_on_empty_selection resample st df bat feature_functions d batf ff
    st0 df1 st1 df2 st2 :
  frame_at st df = Some d →
  frame_at st bat = Some batf →
  config_at st feature_functions = Some ff →
  default_resample_args feature_functions st = (Ok (), st0) →
  call util_screen [df; bat; feature_functions] st0 = (Ok df1, st1) →
  call event_classification_screen [df1; feature_functions] st1 = (Ok df2, st2) →
  (∀ d2, frame_at st2 df2 = Some d2 → len d2 = 0%nat →
         call (screen_count resample) [df; bat; feature_functions] st
         = (Raise (UnboundLocalError "result"), st2)) ∧
  (∀ df3 st3 d3,
     call duration_util_screen [df2] st2 = (Ok df3, st3) →
     frame_at st3 df3 = Some d3 → len d3 = 0%nat →
     Forall (λ f, call f [df; bat; feature_functions] st
                  = (Raise (UnboundLocalError "result"), st3))
            [screen_duration resample; screen_duration_min resample;
             screen_duration_max resample; screen_duration_mean resample;
             screen_duration_median resample; screen_duration_std resample]).
Proof.
  intros Hd Hb Hf H0 H1 H2. split.
  - intros d2 Hd2 Hlen. rewrite call_arity.
    cbn [length params defaults body screen_count Nat.ltb Nat.leb Nat.sub orb drop app].
    rewrite bind_run, (prologue_run _ _ _ _ _ _ _ Hd Hb Hf).
    rewrite bind_run, H0. rewrite bind_run, H1. rewrite bind_run, H2.
    rewrite bind_run, (frame_run _ _ _ Hd2). by rewrite Hlen.
  - intros df3 st3 d3 H3 Hd3 Hlen.
    unfold screen_duration, screen_duration_min, screen_duration_max, screen_duration_mean,
      screen_duration_median, screen_duration_std.
    repeat constructor;
      exact (duration_metric_empty _ _ _ _ _ _ _ _ _ _ _ _ _ _ _ _ _ _ Hd Hb Hf H0 H1 H2 H3 Hd3 Hlen).
Qed.

Lemma unbound_result_on_empty_selection_witness :
  (call (screen_count fixed_windows) caller_args (state_of screen_three no_battery)).1
  = Raise (UnboundLocalError "result") ∧
  Forall (λ f, (call f caller_args (state_of screen_U1 no_battery)).1
               = Raise (UnboundLocalError "result"))
         [screen_duration fixed_windows; screen_duration_min fixed_windows;
          screen_duration_max fixed_windows; screen_duration_mean fixed_windows;
          screen_duration_median fixed_windows; screen_duration_std fixed_windows].
Proof.
  split.
  - pose (st := state_of screen_three no_battery).
    pose (st0 := (default_resample_args (PyRef 2%nat) st).2).
    pose (st1 := (call util_screen caller_args st0).2).
    pose (st2 := (call event_classification_screen [PyRef 3%nat; PyRef 2%nat] st1).2).
    destruct (unbound_result_on_empty_selection fixed_windows st (PyRef 0%nat) (PyRef 1%nat) (PyRef 2%nat)
                screen_three no_battery ∅ st0 (PyRef 3%nat) st1 (PyRef 9%nat) st2) as [Hc _];
      [reflexivity | reflexivity | reflexivity
      | refine (run_pair (default_resample_args (PyRef 2%nat)) st _ _); vm_compute; reflexivity
      | refine (run_pair (call util_screen caller_args) st0 _ _); vm_compute; reflexivity
      | refine (run_pair (call event_classification_screen [PyRef 3%nat; PyRef 2%nat]) st1 _ _);
        vm_compute; reflexivity
      |].
    unfold caller_args. fold st.
    rewrite (Hc (mkDF ["user"; "device"; "time"; "datetime"; "use"; "on"; "na"; "off"]%string []
                      1%nat));
      [reflexivity | vm_compute; reflexivity | reflexivity].
  - pose (st := state_of screen_U1 no_battery).
    pose (st0 := (default_resample_args (PyRef 2%nat) st).2).
    pose (st1 := (call util_screen caller_args st0).2).
    pose (st2 := (call event_classification_screen [PyRef 3%nat; PyRef 2%nat] st1).2).
    pose (st3 := (call duration_util_screen [PyRef 9%nat] st2).2).
    destruct (unbound_result_on_empty_selection fixed_windows st (PyRef 0%nat) (PyRef 1%nat) (PyRef 2%nat)
                screen_U1 no_battery ∅ st0 (PyRef 3%nat) st1 (PyRef 9%nat) st2) as [_ Hd];
      [reflexivity | reflexivity | reflexivity
      | refine (run_pair (default_resample_args (PyRef 2%nat)) st _ _); vm_compute; reflexivity
      | refine (run_pair (call util_screen caller_args) st0 _ _); vm_compute; reflexivity
      | refine (run_pair (call event_classification_screen [PyRef 3%nat; PyRef 2%nat]) st1 _ _);
        vm_compute; reflexivity
      |].
    eapply Forall_impl;
      [apply (Hd (PyRef 13%nat) st3
                 (mkDF ["user"; "device"; "time"; "datetime"; "use"; "on"; "na"; "off";
                        "duration"]%string [] 1%nat));
         [refine (run_pair (call duration_util_screen [PyRef 9%nat]) st2 _ _);
          vm_compute; reflexivity
         | vm_compute; reflexivity | reflexivity]|].
    intros f Hf. unfold caller_args. fold st. by rewrite Hf.
Defined.

(** ** Tables sorted by user *)

Lemma sort_values_user_sorted by_ d sorted :
  sort_values ("user"%string :: by_) d = Ok sorted → StronglySorted le_user (rows sorted).
Proof.
  intros H. apply sort_values_Ok in H as (_ & -> & Hby).
  inversion Hby as [|? ? Hu _]; subst.
  destruct (sortable_kindred _ Hu) as (K & HK & Hkind).
  rewrite Forall_fmap in Hkind. by apply (sort_rows_sorted K).
Qed.

Lemma setcol_user_sorted c vs d :
  c ≠ "user"%string → StronglySorted le_user (rows d) →
  StronglySorted le_user (rows (setcol c vs d)).
Proof. intros Hc Hs. unfold setcol. cbn [rows]. by apply zip_insert_sorted. Qed.

(** A row that [groupby("user").apply(lambda x: x.iloc[:-1])] keeps is
    followed, in a table sorted by user, by a row of the same user. *)
Lemma but_last_has_next d d' :
  groupby_apply "user" iloc_but_last d = Ok d' →
  StronglySorted le_user (rows d) →
  ∀ r, r ∈ rows d' →
    ∃ g i cur nxt,
      rows d !! i = Some cur ∧ rows d !! S i = Some nxt ∧
      at_col "user" nxt = at_col "user" cur ∧
      r = (Int (Z.of_nat g) :: cur.1, cur.2).
Proof.
  intros H Hsorted r Hr.
  apply groupby_apply_Ok in H as (_ & Hsortable & Hrows).
  destruct (Hrows _ Hr) as (g & k & r0 & Hk & Hr0 & ->).
  destruct (sortable_kindred _ Hsortable) as (K & HK & Hkind).
  rewrite Forall_fmap in Hkind.
  assert (kind k = Some K) as HkK.
  { assert (k ∈ group_keys (at_col "user" <$> rows d)) as Hin
      by (apply list_elem_of_lookup; eauto).
    apply group_keys_elem in Hin as [Hin Hnn].
    apply list_elem_of_fmap in Hin as (rk & -> & Hrk).
    rewrite Forall_forall in Hkind. by destruct (Hkind _ Hrk). }
  apply elem_of_removelast_filter in Hr0 as (L1 & L2 & y & HL & Hg0 & Hy & Hgy).
  rewrite HL in Hsorted, Hkind.
  destruct (next_in_group K k L1 L2 r0 y HK HkK Hkind Hsorted Hg0 Hy Hgy)
    as (z & L2' & -> & Hgz).
  exists g, (length L1), r0, z.
  split; [rewrite HL; by apply list_lookup_middle|]. split.
  { rewrite HL, (cons_middle r0), app_assoc.
    rewrite lookup_app_r by (rewrite length_app; simpl; lia).
    rewrite length_app. simpl.
    by replace (S (length L1) - (length L1 + 1))%nat with 0%nat by lia. }
  split; [|done].
  rewrite Forall_forall in Hkind.
  apply (in_group_spec K) in Hg0;
    [|done|done|apply Hkind, elem_of_app; right; apply list_elem_of_here].
  apply (in_group_spec K) in Hgz;
    [|done|done|apply Hkind, elem_of_app; right; apply list_elem_of_further, list_elem_of_here].
  congruence.
Qed.

(** ** duration_util_screen: the durations *)

Lemma sub_lookup a b c i x y :
  sub a b = Ok c → a !! i = Some x → b !! i = Some y →
  ∃ v, sub_cell x y = Ok v ∧ c !! i = Some v.
Proof.
  revert b c i. induction a as [|x0 a IH]; intros [|y0 b] c i H Ha Hb; try done.
  simpl in H. apply bind_Ok in H as (v0 & Hv0 & H). apply bind_Ok in H as (cs & Hcs & [= <-]).
  destruct i as [|i]; simpl in *.
  - simplify_eq. eauto.
  - eauto.
Qed.

Lemma shift_down_lookup vs i x y :
  vs !! i = Some x → vs !! S i = Some y → shift 1 vs !! S i = Some x.
Proof.
  intros Hx Hy. unfold shift. simpl. apply lookup_lt_Some in Hy.
  rewrite lookup_take_lt by lia. done.
Qed.

Lemma at_col_pair_insert c c' v (l : label) (m : row) :
  at_col c (l, <[c' := v]> m) = if decide (c' = c) then v else at_col c (l, m).
Proof. unfold at_col. cbn [snd]. rewrite lookup_insert. by destruct (decide (c' = c)). Qed.

Lemma at_col_pair c (l : label) (r : label * row) : at_col c (l, r.2) = at_col c r.
Proof. done. Qed.

(** The column [duration] after lines 145 and 146: on each row, the
    datetime of the next row less its own. *)
Lemma duration_lookup vs D i x y :
  diff vs = Ok D → vs !! i = Some x → vs !! S i = Some y →
  ∃ v, sub_cell y x = Ok v ∧ shift (-1) D !! i = Some v.
Proof.
  unfold diff. intros H Hx Hy.
  destruct (sub_lookup _ _ _ _ _ _ H Hy (shift_down_lookup _ _ _ _ Hx Hy)) as (v & Hv & HD).
  exists v. split; [done|]. by apply shift_up_lookup.
Qed.

(** X4. In the table [duration_util_screen] returns, every row is a row
    [cur] of the sorted input that is followed there by a row [nxt] of the
    same user, and its duration is the datetime of [nxt] less the datetime
    of [cur], in seconds; its other columns and its label are those of
    [cur].  The last row of each user has no row in the result. *)
Theorem duration_to_next_event st df out st' d :
  frame_at st df = Some d →
  call duration_util_screen [df] st = (Ok out, st') →
  ∃ sorted result,
    sort_values sort_key d = Ok sorted ∧
    frame_at st' out = Some result ∧
    ∀ r, r ∈ rows result →
      ∃ i cur nxt dur,
        rows sorted !! i = Some cur ∧ rows sorted !! S i = Some nxt ∧
        at_col "user" nxt = at_col "user" cur ∧
        sub_cell (at_col "datetime" nxt) (at_col "datetime" cur) = Ok dur ∧
        total_seconds dur = Ok (at_col "duration" r) ∧
        (∀ t1 t2, at_col "datetime" cur = Timestamp t1 → at_col "datetime" nxt = Timestamp t2 →
                  at_col "duration" r = Seconds (t2 - t1)) ∧
        r.1 = cur.1 ∧
        ∀ c, c ≠ "duration"%string → at_col c r = at_col c cur.
Proof.
  intros Hd H. destruct (frame_at_ref _ _ _ Hd) as (l & -> & _).
  rewrite call_arity in H.
  cbn [length params defaults body duration_util_screen Nat.ltb Nat.leb Nat.sub orb drop app]
    in H.
  rewrite bind_run, (assert_frame_run _ _ _ _ Hd) in H.
  step_with H (inplace_run _ _ _ _ Hd). rename a into d1, E into Hsort.
  pose proof (frame_at_set_eq _ _ d1 _ Hd) as Hd1.
  rewrite bind_run, (assign_run _ _ _ _ _ Hd1) in H. cbv beta iota in H.
  rewrite set_object_twice in H.
  set (d2 := setcol "duration" (replicate (len d1) NaN) d1) in *.
  pose proof (frame_at_set_eq _ _ d2 _ Hd) as Hd2.
  step_with H (assign_run _ _ _ _ _ Hd2). rename a into D, E into HD.
  rewrite set_object_twice in H.
  set (d3 := setcol "duration" D d2) in *.
  pose proof (frame_at_set_eq _ _ d3 _ Hd) as Hd3.
  step_with H (assign_run _ _ _ _ _ Hd3). rename a into D', E into HD'.
  rewrite set_object_twice in H.
  set (d4 := setcol "duration" D' d3) in *.
  pose proof (frame_at_set_eq _ _ d4 _ Hd) as Hd4.
  step_with H (derive_run _ _ _ _ Hd4). rename a into d5, E into Hgroup.
  step_with H (derive_run _ _ _ _ (frame_at_add_eq _ d5)). rename a into d6, E into Hdrop.
  rewrite bind_run in H. unfold drop_artifacts in H.
  step_with H (derive_run _ _ _ _ (frame_at_add_eq _ d6)). rename a into d7, E into Hon.
  rewrite (derive_run _ _ _ _ (frame_at_add_eq _ d7)) in H.
  destruct (artifact_filter "use" d7) as [d8|] eqn:Huse; [|discriminate H].
  step_with H (assign_run _ _ _ _ _ (frame_at_add_eq _ d8)). rename a into secs, E into Hsecs.
  rewrite ret_run in H. injection H as <- <-.
  exists d1, (setcol "duration" secs d8). split; [done|]. split.
  { apply frame_at_set_same. unfold add_object. cbn [objects]. rewrite !length_app. simpl. lia. }
  intros r Hr.
  (* back through the conversion to seconds and the two filters *)
  apply list_elem_of_lookup in Hr as (j & Hj).
  apply setcol_lookup in Hj as (r8 & s & Hr8 & Hs & ->).
  apply bind_Ok in Hsecs as (du & Hdu & Hsecs). apply getcol_Ok in Hdu as [_ ->].
  assert ((at_col "duration" <$> rows d8) !! j = Some (at_col "duration" r8)) as Hdu8
    by (by rewrite list_lookup_fmap, Hr8).
  destruct (mapM_lookup _ _ _ _ _ Hsecs Hdu8) as (s' & Hs' & Hs'').
  rewrite Hs in Hs''. injection Hs'' as <-.
  apply list_elem_of_lookup_2 in Hr8.
  apply artifact_filter_rows in Huse as [_ Huse]. apply Huse in Hr8 as [Hr7 _].
  apply artifact_filter_rows in Hon as [_ Hon]. apply Hon in Hr7 as [Hr6 _].
  (* back through the grouping *)
  apply droplevel0_Ok in Hdrop as [_ Hrows6]. rewrite Hrows6 in Hr6.
  apply list_elem_of_fmap in Hr6 as (r5 & -> & Hr5).
  assert (StronglySorted le_user (rows d4)) as Hsorted.
  { do 3 (apply setcol_user_sorted; [done|]). by eapply sort_values_user_sorted. }
  destruct (but_last_has_next _ _ Hgroup Hsorted _ Hr5)
    as (g & i & r4 & z4 & Hi & HSi & Hu & ->).
  cbn [fst snd tail] in *.
  (* the two rows in the sorted table *)
  apply setcol_lookup in Hi as (r3 & v & Hi3 & Hv & ->).
  apply setcol_lookup in HSi as (z3 & vz & HSi3 & _ & ->).
  apply setcol_lookup in Hi3 as (r2 & v3 & Hi2 & _ & ->).
  apply setcol_lookup in HSi3 as (z2 & vz3 & HSi2 & _ & ->).
  apply setcol_lookup in Hi2 as (cur & v2 & Hcur & _ & ->).
  apply setcol_lookup in HSi2 as (nxt & vz2 & Hnxt & _ & ->).
  cbn [fst snd] in *.
  rewrite !at_col_pair_insert in Hu. rewrite !decide_False, !at_col_pair in Hu by done.
  (* the duration *)
  apply fmap_Ok in HD' as (D0 & HD0 & ->). apply getcol_Ok in HD0 as [_ ->].
  assert (at_col "duration" <$> rows d3 = D) as HD3.
  { unfold d3. apply setcol_at_col. apply bind_Ok in HD as (dt & Hdt & HD).
    apply getcol_Ok in Hdt as [_ ->]. unfold diff in HD. apply sub_length in HD.
    rewrite shift_length, Nat.min_id, length_fmap in HD. done. }
  rewrite HD3 in Hv.
  apply bind_Ok in HD as (dt & Hdt & HD). apply getcol_Ok in Hdt as [_ ->].
  assert (at_col "datetime" <$> rows d2 = at_col "datetime" <$> rows d1) as Hdt.
  { unfold d2. apply setcol_rows_fmap; [|apply length_replicate].
    intros r0 v0. rewrite at_col_insert. by rewrite decide_False. }
  rewrite Hdt in HD.
  assert ((at_col "datetime" <$> rows d1) !! i = Some (at_col "datetime" cur)) as Hx
    by (by rewrite list_lookup_fmap, Hcur).
  assert ((at_col "datetime" <$> rows d1) !! S i = Some (at_col "datetime" nxt)) as Hy
    by (by rewrite list_lookup_fmap, Hnxt).
  destruct (duration_lookup _ _ _ _ _ HD Hx Hy) as (dur & Hdur & Hdur').
  rewrite Hv in Hdur'. injection Hdur' as ->.
  exists i, cur, nxt, dur. split; [done|]. split; [done|]. split; [done|]. split; [done|].
  rewrite at_col_pair_insert, decide_True in Hs' by done.
  rewrite at_col_pair_insert, decide_True by done.
  split; [done|]. split.
  { intros t1 t2 Ht1 Ht2. rewrite Ht1, Ht2 in Hdur. simpl in Hdur. injection Hdur as <-.
    simpl in Hs'. by injection Hs' as <-. }
  split; [done|]. intros c Hc. rewrite !at_col_pair_insert. by rewrite !decide_False.
Qed.

Lemma duration_to_next_event_witness :
  ∃ sorted result,
    sort_values sort_key durations_sample = Ok sorted ∧
    frame_at (call duration_util_screen [PyRef 0%nat]
                (mkState [ODataFrame durations_sample] [])).2 (PyRef 4%nat) = Some result ∧
    ∀ r, r ∈ rows result →
      ∃ i cur nxt dur,
        rows sorted !! i = Some cur ∧ rows sorted !! S i = Some nxt ∧
        at_col "user" nxt = at_col "user" cur ∧
        sub_cell (at_col "datetime" nxt) (at_col "datetime" cur) = Ok dur ∧
        total_seconds dur = Ok (at_col "duration" r) ∧
        (∀ t1 t2, at_col "datetime" cur = Timestamp t1 → at_col "datetime" nxt = Timestamp t2 →
                  at_col "duration" r = Seconds (t2 - t1)) ∧
        r.1 = cur.1 ∧
        ∀ c, c ≠ "duration"%string → at_col c r = at_col c cur.
Proof.
  apply (duration_to_next_event (mkState [ODataFrame durations_sample] []) (PyRef 0%nat)
           (PyRef 4%nat) _ durations_sample);
    [reflexivity
    | refine (run_pair (call duration_util_screen [PyRef 0%nat]) _ _ _); vm_compute; reflexivity].
Defined.

(** The six rows of the sample, one nanosecond apart: five durations. *)
Example duration_sample :
  (λ d, (λ r, (at_col "time" r, at_col "duration" r)) <$> rows d)
    <$> returned (call duration_util_screen [PyRef 0%nat])
                 (mkState [ODataFrame durations_sample] [])
  = Some [(Int 1, Seconds 1); (Int 2, Seconds 1); (Int 3, Seconds 1); (Int 4, Seconds 1);
          (Int 5, Seconds 1)].
Proof. vm_compute. reflexivity. Qed.

(** ** battery.py: columns [shutdown_info] does not take *)

Lemma mapM_raise_head {A B} (f : A → outcome B) x l e :
  f x = Raise e → mapM f (x :: l) = Raise e.
Proof. intros H. simpl. by rewrite H. Qed.

Lemma str_isnumeric_digits vs :
  vs ≠ [] →
  Forall (λ c, ∃ t, c = Str t ∧ isnumeric t = true) vs →
  ∃ m, b.str_isnumeric vs = Ok m ∧ b.all_true m = true.
Proof.
  intros Hne Hdig. unfold b.str_isnumeric. destruct vs as [|c vs]; [done|].
  assert (existsb b.is_text (c :: vs) = true) as ->.
  { inversion Hdig as [|? ? (t & -> & _) _]. done. }
  eexists. split; [done|]. unfold b.all_true. apply forallb_forall. intros o Ho.
  apply list_elem_of_In, list_elem_of_fmap in Ho as (x & -> & Hx).
  rewrite Forall_forall in Hdig. by destruct (Hdig x Hx) as (t & -> & ->).
Qed.

(** X5. On a column of text whose every value is digits only (no sign, so
    no shutdown code among them) [shutdown_info] converts nothing, and the
    comparison of text with -3 and 0 raises TypeError: the absence of
    shutdowns is not reported as an empty result. *)
Theorem shutdown_info_digit_text_raises st battery_status s :
  series_at st battery_status = Some s →
  items s ≠ [] →
  Forall (λ c, ∃ t, c = Str t ∧ isnumeric t = true) (values s) →
  call b.shutdown_info [battery_status] st = (Raise TypeError, st).
Proof.
  intros Hs Hne Hdig. rewrite call_arity.
  cbn [length params defaults body b.shutdown_info Nat.ltb Nat.leb Nat.sub orb drop app].
  rewrite bind_run, series_run, Hs, bind_run. unfold lift, b.shutdown.
  assert (values s ≠ []) as Hne' by (unfold values; by destruct (items s)).
  destruct (str_isnumeric_digits _ Hne' Hdig) as (m & -> & Hall). cbn [mbind outcome_bind].
  rewrite Hall. cbn [negb mbind outcome_bind].
  unfold values in *. destruct (items s) as [|[l c] its]; [done|].
  inversion Hdig as [|? ? (t & Hc & _) _]; by simplify_eq/=.
Qed.

Lemma shutdown_info_digit_text_raises_witness :
  call b.shutdown_info [PyRef 0%nat]
       (mkState [OSeries (mkSeries (Some "battery_status"%string)
                            [([Int 0], Str "50"); ([Int 1], Str "49")])] [])
  = (Raise TypeError,
     mkState [OSeries (mkSeries (Some "battery_status"%string)
                         [([Int 0], Str "50"); ([Int 1], Str "49")])] []).
Proof.
  apply (shutdown_info_digit_text_raises _ (PyRef 0%nat)
           (mkSeries (Some "battery_status"%string) [([Int 0], Str "50"); ([Int 1], Str "49")]));
    [reflexivity | discriminate | repeat constructor; eexists; split; reflexivity].
Defined.

(** X6. On a column that holds numbers, not text, [shutdown_info] raises
    AttributeError at [.str], before any value is compared. *)
Theorem shutdown_info_numbers_raise st battery_status s :
  series_at st battery_status = Some s →
  items s ≠ [] →
  Forall (λ c, c = NaN ∨ ∃ z, c = Int z) (values s) →
  call b.shutdown_info [battery_status] st = (Raise AttributeError, st).
Proof. apply shutdown_info_numbers. Qed.

Lemma shutdown_info_numbers_raise_witness :
  call b.shutdown_info [PyRef 0%nat]
       (mkState [OSeries (mkSeries (Some "battery_status"%string)
                            [([Int 0], Int (-2)); ([Int 1], Int 50)])] [])
  = (Raise AttributeError,
     mkState [OSeries (mkSeries (Some "battery_status"%string)
                         [([Int 0], Int (-2)); ([Int 1], Int 50)])] []).
Proof.
  apply (shutdown_info_numbers_raise _ (PyRef 0%nat)
           (mkSeries (Some "battery_status"%string) [([Int 0], Int (-2)); ([Int 1], Int 50)]));
    [reflexivity | discriminate
    | repeat first [apply Forall_nil_2 | apply Forall_cons_2; [right; eexists; reflexivity|]]].
Defined.

(** ** The checks on the arguments *)

Lemma assert_not_frame_run v msg st :
  frame_at st v = None →
  py_assert (isinstance v t_DataFrame) msg st = (Raise (AssertionError msg), st).
Proof.
  unfold frame_at. intros H. rewrite py_assert_run, isinstance_run.
  by destruct (object_at st v) as [[]|].
Qed.

Lemma prologue_not_frame df bat feature_functions st :
  frame_at st df = None →
  prologue df bat feature_functions st = (Raise (AssertionError msg_frame), st).
Proof. intros H. unfold prologue. by rewrite bind_run, (assert_not_frame_run _ _ _ H). Qed.

(** X7. Every function of the pipeline checks [df] before anything else:
    when [df] is not a DataFrame the call raises AssertionError with the
    message of that check, and nothing has been written or printed. *)
Theorem df_is_checked_first resample ALL_FEATURE_FUNCTIONS st df bat feature_functions :
  frame_at st df = None →
  call util_screen [df; bat; feature_functions] st = (Raise (AssertionError msg_frame), st) ∧
  call event_classification_screen [df; feature_functions] st
  = (Raise (AssertionError msg_frame), st) ∧
  call duration_util_screen [df] st = (Raise (AssertionError msg_frame), st) ∧
  Forall (λ f, call f [df; bat; feature_functions] st = (Raise (AssertionError msg_frame), st))
         (metric_functions resample) ∧
  call (extract_features_screen resample ALL_FEATURE_FUNCTIONS) [df; bat; feature_functions] st
  = (Raise (AssertionError msg_frame), st).
Proof.
  intros H.
  split; [|split; [|split; [|split]]].
  - rewrite call_arity.
    cbn [length params defaults body util_screen Nat.ltb Nat.leb Nat.sub orb drop app].
    by rewrite bind_run, (assert_not_frame_run _ _ _ H).
  - rewrite call_arity.
    cbn [length params defaults body event_classification_screen Nat.ltb Nat.leb Nat.sub orb
         drop app].
    by rewrite bind_run, (assert_not_frame_run _ _ _ H).
  - rewrite call_arity.
    cbn [length params defaults body duration_util_screen Nat.ltb Nat.leb Nat.sub orb drop app].
    by rewrite bind_run, (assert_not_frame_run _ _ _ H).
  - unfold metric_functions, optional_config_metrics, screen_duration, screen_duration_min,
      screen_duration_max, screen_duration_mean, screen_duration_median, screen_duration_std.
    cbn [app].
    repeat (apply Forall_cons_2; [|]); [..|apply Forall_nil_2].
    all: rewrite call_arity; simpl; by rewrite bind_run, (prologue_not_frame _ _ _ _ H).
  - rewrite call_arity.
    cbn [length params defaults body extract_features_screen Nat.ltb Nat.leb Nat.sub orb drop
         app].
    by rewrite bind_run, (assert_not_frame_run _ _ _ H).
Qed.

Lemma df_is_checked_first_witness :
  call util_screen [PyNone; PyRef 1%nat; PyRef 2%nat] (state_of screen_U1 no_battery)
  = (Raise (AssertionError msg_frame), state_of screen_U1 no_battery).
Proof.
  apply (df_is_checked_first fixed_windows PyNone (state_of screen_U1 no_battery)
           PyNone (PyRef 1%nat) (PyRef 2%nat)). reflexivity.
Defined.

(** ** A table without the status column *)

(** X8. When the table has no column of the configured name, [util_screen]
    raises KeyError at line 42 and nothing has been written;
    [event_classification_screen] raises KeyError at line 105, after it has
    sorted the caller's table in place. *)
Theorem missing_status_column st df bat feature_functions d batf ff col_name :
  frame_at st df = Some d →
  frame_at st bat = Some batf →
  config_at st feature_functions = Some ff →
  column_name (screen_column_name ff) = Ok col_name →
  has_column col_name d = false →
  call util_screen [df; bat; feature_functions] st = (Raise (KeyError col_name), st) ∧
  ∀ sorted, sort_values sort_key d = Ok sorted →
    ∃ l, df = PyRef l ∧
         call event_classification_screen [df; feature_functions] st
         = (Raise (KeyError col_name), set_object st l (ODataFrame sorted)).
Proof.
  intros Hdf Hbat Hff Hcol Hno. split.
  - rewrite call_arity.
    cbn [length params defaults body util_screen Nat.ltb Nat.leb Nat.sub orb drop app].
    rewrite bind_run, (assert_frame_run _ _ _ _ Hdf).
    rewrite bind_run, (assert_frame_run _ _ _ _ Hbat).
    rewrite bind_run, (assert_config_run _ _ _ _ Hff).
    rewrite bind_run, (config_run _ _ _ Hff).
    rewrite bind_run. unfold lift at 1. rewrite Hcol.
    rewrite bind_run, (assign_run _ _ _ _ _ Hdf). unfold getcol. rewrite Hno.
    by destruct df.
  - intros sorted Hsort. destruct (frame_at_ref _ _ _ Hdf) as (l & -> & _).
    exists l. split; [done|]. rewrite call_arity.
    cbn [length params defaults body event_classification_screen Nat.ltb Nat.leb Nat.sub orb
         drop app].
    rewrite bind_run, (assert_frame_run _ _ _ _ Hdf).
    rewrite bind_run, (assert_config_run _ _ _ _ Hff).
    rewrite bind_run, (config_run _ _ _ Hff).
    rewrite bind_run. unfold lift at 1. rewrite Hcol.
    rewrite bind_run. unfold classify.
    rewrite bind_run, (inplace_run _ _ _ _ Hdf), Hsort.
    rewrite bind_run, (assign_run _ _ _ _ _ (frame_at_set_eq _ _ sorted _ Hdf)).
    unfold getcol. apply sort_values_Ok in Hsort as (Hc & _).
    unfold has_column in *. rewrite Hc, Hno. done.
Qed.

Lemma missing_status_column_witness :
  call util_screen caller_args (state_with screen_U1 no_battery config_status)
  = (Raise (KeyError "status"), state_with screen_U1 no_battery config_status).
Proof.
  apply (missing_status_column (state_with screen_U1 no_battery config_status)
           (PyRef 0%nat) (PyRef 1%nat) (PyRef 2%nat) screen_U1 no_battery config_status
           "status"); reflexivity.
Defined.

(** ** screen_off *)

(** X9. [screen_off] reads the column [screen_status] whatever column the
    configuration names: on a table whose status is in another column, and
    which has no column [screen_status], the preprocessing succeeds and the
    selection of the OFF events raises AttributeError. *)
Theorem screen_off_reads_screen_status
    st df bat feature_functions d batf ff col_name out st1 :
  frame_at st df = Some d →
  frame_at st bat = Some batf →
  config_at st feature_functions = Some ff →
  column_name (screen_column_name ff) = Ok col_name →
  col_name ∉ ["missing"; "dummy"; "next"]%string →
  "screen_status"%string ∉ columns d →
  call util_screen [df; bat; feature_functions] st = (Ok out, st1) →
  call screen_off [df; bat; feature_functions] st = (Raise AttributeError, st1).
Proof.
  intros Hdf Hbat Hff Hcol Hnot Hno H.
  destruct (util_screen_Ok _ _ _ _ _ _ _ _ _ _ Hdf Hbat Hff Hcol Hnot H)
    as (vs & sorted & result & _ & _ & Hres & _ & _ & Hcols).
  rewrite call_arity.
  cbn [length params defaults body screen_off Nat.ltb Nat.leb Nat.sub orb drop app].
  rewrite bind_run, (prologue_run _ _ _ _ _ _ _ Hdf Hbat Hff).
  rewrite bind_run, H. rewrite bind_run, (derive_run _ _ _ _ Hres).
  unfold where_eq, getattr_col, has_column.
  rewrite bool_decide_eq_false_2; [done|]. rewrite Hcols. by intros [? _].
Qed.

Lemma screen_off_reads_screen_status_witness :
  call screen_off caller_args (state_with status_U1 no_battery config_status)
  = (Raise AttributeError,
     (call util_screen caller_args (state_with status_U1 no_battery config_status)).2).
Proof.
  apply (screen_off_reads_screen_status (state_with status_U1 no_battery config_status)
           (PyRef 0%nat) (PyRef 1%nat) (PyRef 2%nat) status_U1 no_battery config_status
           "status" (PyRef 3%nat));
    [reflexivity | reflexivity | reflexivity | reflexivity | | |
     refine (run_pair (call util_screen caller_args) _ _ _); vm_compute; reflexivity].
  - rewrite !not_elem_of_cons. repeat split; try discriminate. apply not_elem_of_nil.
  - cbn [columns status_U1]. rewrite !not_elem_of_cons. repeat split; try discriminate.
    apply not_elem_of_nil.
Defined.

Lemma mask_filter_pred {A} (p : A → bool) (f : A → cell) (g : cell → bool) (l : list A) :
  (∀ x, g (f x) = p x) → mask_filter (g <$> (f <$> l)) l = List.filter p l.
Proof.
  intros Hp. induction l as [|x l IH]; simpl; [done|]. rewrite Hp.
  destruct (p x); [f_equal|]; exact IH.
Qed.

Lemma zip_with_replicate {A B C} (f : A → B → C) (l : list A) v :
  zip_with f l (replicate (length l) v) = (λ x, f x v) <$> l.
Proof. induction l as [|x l IH]; simpl; [done|]. f_equal. exact IH. Qed.

Lemma select_Ok cs d d' :
  select cs d = Ok d' →
  columns d' = cs ∧
  rows d' = (λ r : label * row, (r.1, filter (λ kv : string * cell, kv.1 ∈ cs) r.2)) <$> rows d.
Proof. unfold select. destruct (List.find _ _); [done|]. by intros [= <-]. Qed.

Lemma set_index_Ok cs d d' :
  set_index cs d = Ok d' →
  columns d' = List.filter (λ c, negb (bool_decide (c ∈ cs))) (columns d) ∧
  rows d' = (λ r : label * row, ((λ c, at_col c r) <$> cs, foldr delete r.2 cs)) <$> rows d.
Proof. unfold set_index. destruct (List.find _ _); [done|]. by intros [= <-]. Qed.

Lemma snd_imap {A B C} (lab : nat → A → B) (h : A → C) l :
  snd <$> imap (λ i x, (lab i x, h x)) l = h <$> l.
Proof.
  revert lab. induction l as [|x l IH]; intros lab; simpl; [done|]. f_equal.
  apply (IH (λ i, lab (S i))).
Qed.

Lemma set_index_has cs d d' c :
  set_index cs d = Ok d' → c ∈ cs → has_column c d = true.
Proof.
  unfold set_index. destruct (List.find _ _) eqn:E; [done|]. intros _ Hc.
  apply list_elem_of_In in Hc. apply (List.find_none _ _ E) in Hc.
  by apply negb_false_iff in Hc.
Qed.

(** Only an index of one level is named [index]. *)
Lemma level_names_index n : "index"%string ∈ level_names n → n = 1%nat.
Proof.
  destruct n as [|[|n]]; [by intros H; inversion H|done|].
  unfold level_names. intros H. apply list_elem_of_fmap in H as (i & H & _).
  simpl in H. discriminate H.
Qed.

(** [reset_index] on a table with one index level: the label goes to the
    column [index]. *)
Lemma reset_index_single d d' :
  Forall (λ r : label * row, ∃ l0, r.1 = [l0]) (rows d) →
  "index"%string ∉ columns d →
  reset_index d = Ok d' →
  has_column "index" d' = true →
  columns d' = "index"%string :: columns d ∧
  snd <$> rows d' = (λ r : label * row, <["index"%string := default NaN (head r.1)]> r.2)
                      <$> rows d.
Proof.
  intros Hlab Hno. unfold reset_index.
  set (n := match rows d with [] => nlevels d | r :: _ => length r.1 end).
  destruct (existsb _ _); [done|]. intros [= <-] Hidx.
  assert (level_names n = ["index"%string]) as Hn.
  { unfold has_column in Hidx. apply bool_decide_eq_true in Hidx. cbn [columns] in Hidx.
    apply elem_of_app in Hidx as [Hidx|Hidx]; [|done].
    by rewrite (level_names_index _ Hidx). }
  cbn [columns rows]. rewrite Hn. split; [done|].
  etransitivity;
    [exact (snd_imap (λ i _, [Int (Z.of_nat i)])
              (λ r : label * row,
                 foldr (λ (nc : string * cell) (m : row), <[nc.1 := nc.2]> m) r.2
                       (zip ["index"%string] r.1)) (rows d))|].
  apply list_fmap_ext. intros i r Hr.
  rewrite Forall_forall in Hlab. destruct (Hlab r) as [l0 Hl0]; [by eapply list_elem_of_lookup_2|].
  by rewrite Hl0.
Qed.

(** One OFF event as [screen_off] returns it. *)
Lemma off_event_row (l0 : cell) (m : row) :
  foldr delete
    (<["index"%string := l0]>
       (<["screen_off"%string := Int 1]>
          (delete "screen_status"%string
             (filter (λ kv : string * cell, kv.1 ∈ ["user"; "screen_status"]%string)
                     (<["screen_status"%string := Int 1]> m)))))
    ["user"; "index"]%string
  = {[ "screen_off"%string := Int 1 ]}.
Proof.
  apply map_eq. intros k. cbn [foldr].
  rewrite !lookup_delete, !lookup_insert, lookup_delete.
  destruct (decide ("user"%string = k)) as [<-|Hu]; [done|].
  destruct (decide ("index"%string = k)) as [<-|Hi]; [done|].
  destruct (decide ("screen_off"%string = k)) as [<-|Ho]; [done|].
  rewrite lookup_singleton_ne by done.
  destruct (decide ("screen_status"%string = k)) as [<-|Hs]; [done|].
  apply map_lookup_filter_None. right. intros x _. cbn [fst].
  rewrite !elem_of_cons, elem_of_nil. intros [?|[?|[]]]; congruence.
Qed.

Lemma off_event_user (l0 : cell) (m : row) :
  (<["index"%string := l0]>
     (<["screen_off"%string := Int 1]>
        (delete "screen_status"%string
           (filter (λ kv : string * cell, kv.1 ∈ ["user"; "screen_status"]%string)
                   (<["screen_status"%string := Int 1]> m))))) !! "user"%string
  = m !! "user"%string.
Proof.
  rewrite lookup_insert, decide_False by done.
  rewrite lookup_insert, decide_False by done.
  rewrite lookup_delete, decide_False by done.
  destruct (m !! "user"%string) as [u|] eqn:Hmu.
  - apply map_lookup_filter_Some. split.
    + rewrite lookup_insert, decide_False by done. done.
    + cbn [fst]. apply list_elem_of_here.
  - apply map_lookup_filter_None. left. rewrite lookup_insert, decide_False by done. done.
Qed.

(** X10. [screen_off] returns the OFF events themselves, not a count by
    time window: one row for each row of status 0 that [util_screen]
    returns, in that order, labelled with its user and its own label, the
    only column [screen_off] holding 1. *)
Theorem screen_off_lists_off_events st df bat feature_functions d batf ff out1 st1 res out st' :
  frame_at st df = Some d →
  frame_at st bat = Some batf →
  config_at st feature_functions = Some ff →
  call util_screen [df; bat; feature_functions] st = (Ok out1, st1) →
  frame_at st1 out1 = Some res →
  Forall (λ r : label * row, ∃ l0, r.1 = [l0]) (rows res) →
  call screen_off [df; bat; feature_functions] st = (Ok out, st') →
  ∃ result,
    frame_at st' out = Some result ∧
    columns result = ["screen_off"%string] ∧
    rows result
    = (λ r : label * row, (at_col "user" r :: r.1, {[ "screen_off"%string := Int 1 ]}))
        <$> List.filter (λ r, eq_int 0 (at_col "screen_status" r)) (rows res).
Proof.
  intros Hdf Hbat Hff Hu Hres Hlab H.
  rewrite call_arity in H.
  cbn [length params defaults body screen_off Nat.ltb Nat.leb Nat.sub orb drop app] in H.
  rewrite bind_run, (prologue_run _ _ _ _ _ _ _ Hdf Hbat Hff) in H.
  rewrite bind_run, Hu in H.
  step_with H (derive_run _ _ _ _ Hres). rename a into d1, E into Hd1.
  pose proof (frame_at_add_eq st1 d1) as Hf1.
  rewrite bind_run, (assign_run _ _ _ _ _ Hf1) in H. cbv beta iota in H.
  set (d2 := setcol "screen_status" (replicate (len d1) (Int 1)) d1) in *.
  pose proof (frame_at_set_eq _ _ d2 _ Hf1) as Hd2.
  step_with H (derive_run _ _ _ _ Hd2). rename a into d3, E into Hd3.
  pose proof (frame_at_add_eq (set_object (add_object st1 (ODataFrame d1))
                                 (length (objects st1)) (ODataFrame d2)) d3) as Hf3.
  rewrite bind_run, (inplace_run _ _ _ _ Hf3) in H. cbv beta iota in H.
  set (d4 := rename_column "screen_status" "screen_off" d3) in *.
  pose proof (frame_at_set_eq _ _ d4 _ Hf3) as Hf4.
  step_with H (inplace_run _ _ _ _ Hf4). rename a into d5, E into Hd5.
  rewrite set_object_twice in H.
  pose proof (frame_at_set_eq _ _ d5 _ Hf3) as Hf5.
  step_with H (inplace_run _ _ _ _ Hf5). rename a into d6, E into Hd6.
  rewrite set_object_twice in H. rewrite ret_run in H. injection H as <- <-.
  exists d6. split; [by eapply frame_at_set_eq|].
  (* the tables, one by one *)
  apply bind_Ok in Hd1 as (m & Hm & [= <-]). apply getattr_col_Ok in Hm as [_ ->].
  set (R := List.filter (λ r, eq_int 0 (at_col "screen_status" r)) (rows res)).
  assert (rows (where_rows (eq_int 0 <$> (at_col "screen_status" <$> rows res)) res) = R) as HR.
  { unfold where_rows. cbn [rows]. by apply mask_filter_pred. }
  assert (Forall (λ r : label * row, ∃ l0, r.1 = [l0]) R) as HlabR.
  { apply Forall_forall. intros r Hr. unfold R in Hr. apply list_elem_of_In, filter_In in Hr.
    rewrite Forall_forall in Hlab. apply Hlab. destruct Hr as [Hr _].
    by apply list_elem_of_In. }
  assert (rows d2 = (λ r : label * row, (r.1, <["screen_status"%string := Int 1]> r.2)) <$> R)
    as Hr2.
  { unfold d2, setcol, len. cbn [rows]. rewrite HR. apply zip_with_replicate. }
  clearbody d2 R.
  apply select_Ok in Hd3 as [Hc3 Hr3]. rewrite Hr2, <- list_fmap_compose in Hr3.
  assert (columns d4 = ["user"; "screen_off"]%string) as Hc4.
  { unfold d4, rename_column. cbn [columns]. by rewrite Hc3. }
  assert (rows d4 = (λ r : label * row,
                       (r.1, <["screen_off"%string := Int 1]>
                               (delete "screen_status"%string
                                  (filter (λ kv : string * cell,
                                             kv.1 ∈ ["user"; "screen_status"]%string)
                                          (<["screen_status"%string := Int 1]> r.2)))))
                    <$> R) as Hr4.
  { unfold d4, rename_column. cbn [rows]. rewrite Hr3, <- list_fmap_compose.
    apply list_fmap_ext. intros i r _. cbn [compose fst snd].
    assert (filter (λ kv : string * cell, kv.1 ∈ ["user"; "screen_status"]%string)
                   (<["screen_status"%string := Int 1]> r.2) !! "screen_status"%string
            = Some (Int 1)) as ->; [|done].
    apply map_lookup_filter_Some. split; [by rewrite lookup_insert, decide_True|].
    cbn [fst]. apply list_elem_of_further, list_elem_of_here. }
  clearbody d4.
  assert (has_column "index" d5 = true) as Hidx.
  { apply (set_index_has _ _ _ _ Hd6). apply list_elem_of_further, list_elem_of_here. }
  apply reset_index_single in Hd5 as [Hc5 Hr5]; [| |rewrite Hc4, !not_elem_of_cons; repeat split; try discriminate; apply not_elem_of_nil|done].
  2:{ rewrite Hr4, Forall_fmap. eapply Forall_impl; [exact HlabR|]. done. }
  apply set_index_Ok in Hd6 as [Hc6 Hr6].
  split; [by rewrite Hc6, Hc5, Hc4|].
  rewrite Hr6.
  transitivity ((λ m : row, ((λ c, default NaN (m !! c)) <$> ["user"; "index"]%string,
                             foldr delete m ["user"; "index"]%string)) <$> (snd <$> rows d5)).
  { by rewrite <- list_fmap_compose. }
  rewrite Hr5, Hr4, <- !list_fmap_compose. apply list_fmap_ext. intros i r Hr.
  assert (r ∈ R) as Hin by (by eapply list_elem_of_lookup_2).
  rewrite Forall_forall in HlabR. destruct (HlabR _ Hin) as [l0 Hl0].
  cbn [compose fst snd fmap list_fmap]. rewrite Hl0. cbn [head default].
  rewrite off_event_row, off_event_user. f_equal. f_equal. f_equal.
  by rewrite lookup_insert, decide_True.
Qed.

Lemma screen_off_lists_off_events_witness :
  ∃ result,
    frame_at (call screen_off caller_args (state_of screen_U1 no_battery)).2 (PyRef 5%nat)
    = Some result ∧
    columns result = ["screen_off"%string] ∧
    rows result
    = (λ r : label * row, (at_col "user" r :: r.1, {[ "screen_off"%string := Int 1 ]}))
        <$> List.filter (λ r, eq_int 0 (at_col "screen_status" r))
              [tidy (event "U1" 0 1); tidy (event "U1" 5 3); tidy (event "U1" 20 1);
               tidy (event "U1" 600 0)].
Proof.
  apply (screen_off_lists_off_events (state_of screen_U1 no_battery)
           (PyRef 0%nat) (PyRef 1%nat) (PyRef 2%nat) screen_U1 no_battery ∅ (PyRef 3%nat)
           (call util_screen caller_args (state_of screen_U1 no_battery)).2
           (mkDF screen_columns
                 [tidy (event "U1" 0 1); tidy (event "U1" 5 3); tidy (event "U1" 20 1);
                  tidy (event "U1" 600 0)] 1%nat)
           (PyRef 5%nat));
    [reflexivity | reflexivity | reflexivity
    | refine (run_pair (call util_screen caller_args) _ _ _); vm_compute; reflexivity
    | vm_compute; reflexivity
    | repeat first [apply Forall_nil_2 | apply Forall_cons_2; [eexists; reflexivity|]]
    | refine (run_pair (call screen_off caller_args) _ _ _); vm_compute; reflexivity].
Defined.

(** The OFF event of [screen_U1]. *)
Example screen_off_sample :
  (λ d, (λ r : label * row, (r.1, at_col "screen_off" r)) <$> rows d)
    <$> returned (call screen_off caller_args) (state_of screen_U1 no_battery)
  = Some [([Str "U1"; Timestamp 600], Int 1)].
Proof. vm_compute. reflexivity. Qed.

(** ** The default window *)

Lemma default_resample_args_run feature_functions st ff :
  config_at st feature_functions = Some ff →
  ∃ st0,
    default_resample_args feature_functions st = (Ok (), st0) ∧
    length (objects st0) = length (objects st) ∧
    config_at st0 feature_functions = Some (with_default_window ff).
Proof.
  intros Hff. unfold default_resample_args, with_default_window.
  rewrite bind_run, (config_run _ _ _ Hff).
  destruct (ff !! "resample_args"%string) as [v|]; [by exists st|].
  unfold config_at, object_at in Hff. destruct feature_functions as [|l]; [done|].
  eexists. split; [reflexivity|]. cbn [objects]. rewrite length_insert. split; [done|].
  unfold config_at, object_at. cbn [objects].
  destruct (objects st !! l) as [o|] eqn:Hl; [|done].
  rewrite list_lookup_insert_eq; [done|]. by eapply lookup_lt_Some.
Qed.

(** A computation that may write only through [L] leaves a configuration
    that is not in [L] as it is. *)
Lemma confined_config_kept {A} L (m : M A) post st v ff :
  confined (length (objects st)) L m post →
  config_at st v = Some ff → v ∉ L →
  config_at (m st).2 v = Some ff.
Proof.
  intros Hm Hv HL. destruct (m st) as [r st'] eqn:E.
  destruct (Hm st r st' ltac:(lia) E) as (_ & Hsame & _). cbn [snd].
  unfold config_at, object_at in *. destruct v as [|l]; [done|].
  rewrite Hsame; [done| |done].
  destruct (objects st !! l) eqn:Hl; [|done]. by eapply lookup_lt_Some.
Qed.

Lemma run_snd {A B} (m : M A) (k : A → M B) st a st1 :
  m st = (Ok a, st1) → ((m ≫= k) st).2 = (k a st1).2.
Proof. intros H. by rewrite bind_run, H. Qed.

(** The statements of a metric function that follow the defaulting. *)
Ltac confine_metric_tail :=
  eapply confined_bind; [by apply confined_util_screen|]; intros;
  eapply confined_bind; [apply confined_event_classification_screen; eauto with confine|];
  intros;
  try (eapply confined_bind; [apply confined_duration_util_screen; eauto with confine|]);
  confine;
  repeat (eapply confined_bind; [apply confined_resampled|]; confine).

(** X11. Each of the eight metric functions that set a default window
    leaves it in the caller's configuration: after the call, whether it
    returned or raised after the checks, the mapping holds
    [resample_args = {"rule": "30T"}] if it had no [resample_args], and is
    as it was otherwise. *)
Theorem default_window_is_written resample st df bat feature_functions d batf ff :
  frame_at st df = Some d →
  frame_at st bat = Some batf →
  config_at st feature_functions = Some ff →
  Forall (λ f, config_at (call f [df; bat; feature_functions] st).2 feature_functions
               = Some (with_default_window ff))
         (windowed_metrics resample).
Proof.
  intros Hdf Hbat Hff.
  destruct (default_resample_args_run _ _ _ Hff) as (st0 & H0 & Hlen & Hff0).
  assert (feature_functions ∉ [df]) as Hne.
  { rewrite list_elem_of_singleton. intros ->. unfold frame_at, config_at in *.
    by destruct (object_at st df) as [[]|]. }
  assert (writable (length (objects st0)) [df] df) as Hw by (left; apply list_elem_of_here).
  unfold windowed_metrics, screen_duration, screen_duration_min, screen_duration_max,
    screen_duration_mean, screen_duration_median, screen_duration_std.
  repeat (apply Forall_cons_2; [|]); [..|apply Forall_nil_2].
  all: rewrite call_arity; cbn [length params defaults body screen_count duration_metric
         screen_first_unlock Nat.ltb Nat.leb Nat.sub orb drop app].
  all: rewrite (run_snd _ _ _ _ _ (prologue_run _ _ _ _ _ _ _ Hdf Hbat Hff)).
  all: rewrite (run_snd _ _ _ _ _ H0).
  all: eapply confined_config_kept; [|exact Hff0|exact Hne].
  all: confine_metric_tail.
  Unshelve. all: exact (λ _, True).
Qed.

Lemma default_window_is_written_witness :
  config_at (call (screen_count fixed_windows) caller_args (state_of screen_U1 no_battery)).2
            (PyRef 2%nat)
  = Some {[ "resample_args"%string := DKwargs {["rule"%string := "30T"%string]} ]}.
Proof.
  pose proof (default_window_is_written fixed_windows (state_of screen_U1 no_battery)
                (PyRef 0%nat) (PyRef 1%nat) (PyRef 2%nat) screen_U1 no_battery ∅
                eq_refl eq_refl eq_refl) as H.
  apply Forall_cons_1 in H as [H _]. exact H.
Defined.

(** ** What the dispatcher writes *)

Lemma confined_feature_function resample n L f df bat arg :
  writable n L df → writable n L arg →
  confined n L (call (feature_function resample f) [df; bat; arg]) (fresh_for n).
Proof.
  intros Hdf Harg. destruct f; cbn [feature_function];
    unfold screen_duration, screen_duration_min, screen_duration_max, screen_duration_mean,
      screen_duration_median, screen_duration_std.
  - by apply confined_screen_off.
  - by apply confined_screen_count.
  - by apply confined_duration_metric.
  - by apply confined_duration_metric.
  - by apply confined_duration_metric.
  - by apply confined_duration_metric.
  - by apply confined_duration_metric.
  - by apply confined_duration_metric.
  - by apply confined_screen_first_unlock.
Qed.

Lemma confined_compute_features resample n L df bat fs acc :
  writable n L df → Forall (λ fa : feature * pyval, writable n L fa.2) fs →
  confined n L (compute_features resample df bat fs acc) (λ _, True).
Proof.
  intros Hdf Hfs. revert acc. induction Hfs as [|[f arg] fs Harg Hfs IH]; intros acc.
  - cbn [compute_features]. by apply confined_ret.
  - cbn [compute_features]. eapply confined_bind; [apply confined_print|]. intros _ _.
    eapply confined_bind; [by apply confined_feature_function|]. intros v _. apply IH.
Qed.

Lemma confined_mapM_frame n L vs : confined n L (mapM frame vs) (λ _, True).
Proof.
  induction vs as [|v vs IH]; cbn [mapM].
  - by apply confined_ret.
  - eapply confined_bind; [apply confined_frame|]. intros d _.
    eapply confined_bind; [apply IH|]. intros ds _. by apply confined_ret.
Qed.

(** The dispatcher after it has read the mapping [fs]. *)
Lemma confined_dispatch resample n L df bat fs :
  writable n L df → Forall (λ fa : feature * pyval, writable n L fa.2) fs →
  confined n L
    (computed_features ← compute_features resample df bat fs [];
     frames ← mapM frame computed_features;
     computed_features ← lift (concat_axis1 frames);
     new_frame computed_features)
    (fresh_for n).
Proof.
  intros Hdf Hfs.
  eapply confined_bind; [by apply confined_compute_features|]. intros cf _.
  eapply confined_bind; [apply confined_mapM_frame|]. intros frames _.
  eapply confined_bind; [apply confined_lift|]. intros d _. apply confined_new.
Qed.

(** X12. [extract_features_screen], given a mapping from metric functions
    to their arguments (or None, and then the module-level mapping), writes
    to no object of its caller other than the screen table [df] and the
    arguments of the selected metrics: the battery table, the mapping
    itself and every other object are left as they were, and the table it
    returns is a new object. *)
Theorem dispatcher_writes resample ALL_FEATURE_FUNCTIONS st df bat features fs :
  object_at st (match features with PyNone => ALL_FEATURE_FUNCTIONS | _ => features end)
  = Some (OFeatures fs) →
  leaves_alone (df :: (snd <$> fs))
               (extract_features_screen resample ALL_FEATURE_FUNCTIONS) [df; bat; features] st.
Proof.
  intros Hfs. set (L := df :: (snd <$> fs)). set (n := length (objects st)).
  assert (writable n L df) as Hdf by (left; apply list_elem_of_here).
  assert (Forall (λ fa : feature * pyval, writable n L fa.2) fs) as Hargs.
  { apply Forall_forall. intros fa Hfa. left. apply list_elem_of_further.
    apply list_elem_of_fmap. eauto. }
  pose proof (confined_dispatch resample n L df bat fs Hdf Hargs) as Hconf.
  unfold leaves_alone, unchanged_except. rewrite call_arity.
  cbn [length params defaults body extract_features_screen Nat.ltb Nat.leb Nat.sub orb drop app].
  rewrite bind_run, py_assert_run, isinstance_run.
  destruct (object_at st df) as [[]|]; cbv beta iota;
    try (cbn [fst snd]; split; [split; [lia|done]|done]).
  rewrite bind_run.
  assert (∃ v, (match features with
                | PyNone => mret ALL_FEATURE_FUNCTIONS
                | PyRef _ => py_assert (isinstance features t_dict) msg_features;; mret features
                end) st = (Ok v, st) ∧ object_at st v = Some (OFeatures fs)) as (v & -> & Hv).
  { destruct features as [|l].
    - exists ALL_FEATURE_FUNCTIONS. by rewrite ret_run.
    - exists (PyRef l). rewrite bind_run, py_assert_run, isinstance_run, Hfs. by rewrite ret_run. }
  rewrite bind_run, deref_run, Hv.
  match goal with |- context [?m st] => destruct (m st) as [r st'] eqn:E end.
  destruct (Hconf st r st' (le_n _) E) as (Hlen & Hsame & Hpost). done.
Qed.

Lemma dispatcher_writes_witness :
  leaves_alone [PyRef 0%nat; PyRef 2%nat]
    (extract_features_screen fixed_windows PyNone)
    [PyRef 0%nat; PyRef 1%nat; PyRef 3%nat]
    (mkState [ODataFrame screen_U1; ODataFrame no_battery; ODict ∅;
              OFeatures [(f_screen_off, PyRef 2%nat)]] []).
Proof.
  apply (dispatcher_writes fixed_windows PyNone
           (mkState [ODataFrame screen_U1; ODataFrame no_battery; ODict ∅;
                     OFeatures [(f_screen_off, PyRef 2%nat)]] [])
           (PyRef 0%nat) (PyRef 1%nat) (PyRef 3%nat) [(f_screen_off, PyRef 2%nat)]).
  reflexivity.
Defined.

(** ** event_classification_screen: how many rows of a user are kept *)

Lemma filter_length_fmap {A B} (p : A → bool) (q : B → bool) l l' :
  p <$> l = q <$> l' → length (List.filter p l) = length (List.filter q l').
Proof.
  revert l'. induction l as [|x l IH]; intros [|y l'] H; try done.
  injection H as Hxy H. simpl. rewrite Hxy. destruct (q y); simpl; by rewrite (IH l').
Qed.

Lemma filter_length_perm {A} (p : A → bool) l l' :
  l ≡ₚ l' → length (List.filter p l) = length (List.filter p l').
Proof.
  induction 1 as [|x l l' _ IH|x y l|l l' l'' _ IH1 _ IH2]; simpl; try done.
  - destruct (p x); simpl; by rewrite IH.
  - by destruct (p x), (p y).
  - by rewrite IH1.
Qed.

Lemma insert_row_perm by_ x l : insert_row by_ x l ≡ₚ x :: l.
Proof.
  induction l as [|y l IH]; simpl; [done|].
  destruct (row_leb by_ x y); [done|]. rewrite IH. apply Permutation_swap.
Qed.

Lemma sort_rows_perm by_ l : sort_rows by_ l ≡ₚ l.
Proof.
  unfold sort_rows. induction l as [|x l IH]; simpl; [done|].
  by rewrite insert_row_perm, IH.
Qed.

Lemma events_of_user k d d' :
  at_col "user" <$> rows d' = at_col "user" <$> rows d → events_of k d' = events_of k d.
Proof.
  intros H. unfold events_of. apply filter_length_fmap.
  revert H. generalize (rows d). induction (rows d') as [|x l IH]; intros [|y l'] H; try done.
  injection H as Hxy H. rewrite !fmap_cons. f_equal; [|by apply IH].
  unfold in_group. by rewrite Hxy.
Qed.

(** *** The keys of the groups *)

Lemma compare_cell_refl K a : K ≠ 5%nat → kind a = Some K → compare_cell a a = Eq.
Proof.
  intros HK Ha. destruct a; simpl in *; simplify_eq; rewrite ?Z.compare_refl; try done.
  apply string_compare_refl.
Qed.

Lemma compare_cell_lt_trans K a b c :
  K ≠ 5%nat → kind a = Some K → kind b = Some K → kind c = Some K →
  compare_cell a b = Lt → compare_cell b c = Lt → compare_cell a c = Lt.
Proof.
  intros HK Ha Hb Hc Hab Hbc.
  assert (le_cell a c) as Hle.
  { apply (le_cell_trans K a b c); try done; try (by right); unfold le_cell; congruence. }
  unfold le_cell in Hle. destruct (compare_cell a c) eqn:Hac; try done.
  apply (compare_cell_eq K) in Hac; try done. subst c.
  rewrite (compare_cell_antisym K a b), Hab in Hbc by (done || by right). done.
Qed.

Lemma insert_key_spec K k ks :
  K ≠ 5%nat → kind k = Some K → Forall (λ x, kind x = Some K) ks →
  StronglySorted (λ a b, compare_cell a b = Lt) ks →
  StronglySorted (λ a b, compare_cell a b = Lt) (insert_key k ks) ∧
  ∀ x, x ∈ insert_key k ks ↔ x = k ∨ x ∈ ks.
Proof.
  intros HK Hk Hks Hs. induction Hs as [|k' ks Hs IH Hk']; simpl.
  - split; [repeat constructor|]. intros x. by rewrite elem_of_cons.
  - inversion Hks as [|? ? Hkk' Hks']; subst.
    destruct (compare_cell k k') eqn:Hc.
    + apply (compare_cell_eq K) in Hc; try done. subst k'.
      split; [by constructor|]. intros x. rewrite elem_of_cons. tauto.
    + split.
      * constructor; [by constructor|]. constructor; [done|].
        rewrite Forall_forall in Hk', Hks'. apply Forall_forall. intros z Hz.
        apply (compare_cell_lt_trans K k k' z); try done; [by apply Hks'|by apply Hk'].
      * intros x. by rewrite !elem_of_cons.
    + destruct (IH Hks') as [IHs IHe]. split.
      * constructor; [done|]. apply Forall_forall. intros z Hz.
        apply IHe in Hz as [->|Hz].
        -- rewrite (compare_cell_antisym K k k'), Hc by (done || by right). done.
        -- rewrite Forall_forall in Hk'. by apply Hk'.
      * intros x. rewrite !elem_of_cons, IHe. tauto.
Qed.

Lemma insert_key_kind K k ks :
  kind k = Some K → Forall (λ x, kind x = Some K) ks →
  Forall (λ x, kind x = Some K) (insert_key k ks).
Proof.
  intros Hk Hks. apply Forall_forall. intros x Hx.
  apply insert_key_elem in Hx as [->|Hx]; [done|].
  rewrite Forall_forall in Hks. by apply Hks.
Qed.

(** The keys are the values of the column that are not NaN, each once. *)
Lemma group_keys_spec K vs :
  K ≠ 5%nat → Forall (kindred K) vs →
  NoDup (group_keys vs) ∧ ∀ k, k ∈ group_keys vs ↔ k ∈ vs ∧ kind k = Some K.
Proof.
  intros HK Hvs.
  assert (StronglySorted (λ a b, compare_cell a b = Lt) (group_keys vs) ∧
          Forall (λ x, kind x = Some K) (group_keys vs) ∧
          ∀ k, k ∈ group_keys vs ↔ k ∈ vs ∧ kind k = Some K) as (Hs & Hk & He).
  { unfold group_keys. induction Hvs as [|v vs Hv Hvs (IHs & IHk & IHe)]; simpl.
    - split; [constructor|]. split; [constructor|]. intros k. split; [by intros H; inversion H|].
      intros [H _]. inversion H.
    - assert (∀ k, k ∈ v :: vs ∧ kind k = Some K ↔
                   (k = v ∧ kind v = Some K) ∨ (k ∈ vs ∧ kind k = Some K)) as Hcons.
      { intros k. rewrite elem_of_cons. split.
        - intros [[->|H] Hk]; [by left|by right].
        - intros [[-> H]|[H Hk]]; [split; [by left|done]|split; [by right|done]]. }
      destruct Hv as [Hv|Hv].
      + assert (v = NaN) as -> by (by destruct v). simpl. split; [done|]. split; [done|].
        intros k. rewrite Hcons, IHe. split; [by right|]. by intros [[_ ?]|?].
      + assert ((match v with NaN => false | _ => true end) = true) as -> by (by destruct v).
        simpl. destruct (insert_key_spec K v _ HK Hv IHk IHs) as [Hs He].
        split; [done|]. split; [by apply insert_key_kind|].
        intros k. rewrite He, Hcons, IHe. split.
        * intros [->|H]; [by left|by right].
        * intros [[-> _]|H]; [by left|by right]. }
  split; [|done].
  clear He. induction Hs as [|k ks Hs IH Hlt]; constructor.
  - intros Hin. rewrite Forall_forall in Hlt. specialize (Hlt _ Hin).
    inversion Hk as [|? ? Hkk _]; subst.
    by rewrite (compare_cell_refl K) in Hlt.
  - inversion Hk; subst. by apply IH.
Qed.

(** *** One pass of [groupby("user", as_index=False).apply(f)] *)

Lemma filter_all {A} (p : A → bool) l : Forall (λ x, p x = true) l → List.filter p l = l.
Proof. induction 1 as [|x l Hx _ IH]; simpl; [done|]. by rewrite Hx, IH. Qed.

Lemma filter_none {A} (p : A → bool) l : Forall (λ x, p x = false) l → List.filter p l = [].
Proof. induction 1 as [|x l Hx _ IH]; simpl; [done|]. by rewrite Hx. Qed.

Lemma filter_fmap_length {A B} (p : B → bool) (h : A → B) l :
  length (List.filter p (h <$> l)) = length (List.filter (p ∘ h) l).
Proof. apply filter_length_fmap. by rewrite list_fmap_compose. Qed.

Lemma in_group_relabel k (l : label) (r : label * row) :
  in_group "user" k (l, r.2) = in_group "user" k r.
Proof. done. Qed.

(** The rows of group [k] among the groups put one after the other. *)
Lemma groups_filter k (keys : list cell) (G : cell → list (label * row)) (lab : nat → cell) :
  NoDup keys →
  (∀ k' r, k' ∈ keys → r ∈ G k' → in_group "user" k r = true ↔ k' = k) →
  (k ∈ keys →
   length (List.filter (in_group "user" k)
             (mjoin (imap (λ i k', (λ r : label * row, (lab i :: r.1, r.2)) <$> G k') keys)))
   = length (G k)) ∧
  (k ∉ keys →
   length (List.filter (in_group "user" k)
             (mjoin (imap (λ i k', (λ r : label * row, (lab i :: r.1, r.2)) <$> G k') keys)))
   = 0%nat).
Proof.
  intros Hnd. revert lab. induction Hnd as [|k0 keys Hk0 Hnd IH]; intros lab HG.
  - split; [by intros H; inversion H|done].
  - cbn [imap mjoin list_join]. rewrite List.filter_app, length_app, filter_fmap_length.
    assert (∀ k' r, k' ∈ keys → r ∈ G k' → in_group "user" k r = true ↔ k' = k) as HG'.
    { intros k' r Hk' Hr. apply HG; [by right|done]. }
    destruct (IH (lab ∘ S) HG') as [IHin IHout].
    unfold compose in *. cbv beta in *.
    split.
    + intros Hin. apply elem_of_cons in Hin as [->|Hin].
      * rewrite filter_all.
        2:{ apply Forall_forall. intros r Hr. apply (HG k0 r); [by left|done|done]. }
        transitivity (length (G k0) + 0)%nat; [f_equal; exact (IHout Hk0)|lia].
      * rewrite filter_none.
        2:{ apply Forall_forall. intros r Hr. apply not_true_is_false. intros Ht.
            apply (HG k0 r) in Ht; [|by left|done]. by subst. }
        exact (IHin Hin).
    + intros Hout. apply not_elem_of_cons in Hout as [Hne Hout].
      rewrite filter_none.
      2:{ apply Forall_forall. intros r Hr. apply not_true_is_false. intros Ht.
          apply (HG k0 r) in Ht; [|by left|done]. by subst. }
      exact (IHout Hout).
Qed.

(** After one pass with an [f] that only drops rows, the group of [k] is
    what [f] has left of it. *)
Lemma groupby_apply_events K f d d' k :
  (∀ l x, x ∈ f l → x ∈ l) → f [] = [] →
  K ≠ 5%nat → kind k = Some K →
  Forall (λ r, kindred K (at_col "user" r)) (rows d) →
  groupby_apply "user" f d = Ok d' →
  events_of k d' = length (f (List.filter (in_group "user" k) (rows d))) ∧
  Forall (λ r, kindred K (at_col "user" r)) (rows d').
Proof.
  intros Hf Hnil HK Hk Hkind H. pose proof H as H'.
  apply groupby_apply_Ok in H' as (_ & _ & Hrows).
  split.
  2:{ apply Forall_forall. intros r Hr. destruct (Hrows r Hr) as (i & k' & r0 & _ & Hr0 & ->).
      apply Hf in Hr0. apply list_elem_of_In, filter_In in Hr0 as [Hr0 _].
      apply list_elem_of_In in Hr0. rewrite Forall_forall in Hkind. exact (Hkind _ Hr0). }
  unfold groupby_apply in H. apply bind_Ok in H as (vs & Hvs & H).
  apply getcol_Ok in Hvs as [_ ->]. destruct (sortable _); [|done]. injection H as <-.
  unfold events_of. cbn [rows].
  assert (Forall (kindred K) (at_col "user" <$> rows d)) as Hkind' by (by rewrite Forall_fmap).
  destruct (group_keys_spec K _ HK Hkind') as [Hnd Hkeys].
  assert (∀ r, r ∈ rows d → in_group "user" k r = true ↔ at_col "user" r = k) as Hspec.
  { intros r Hr. apply (in_group_spec K); try done. rewrite Forall_forall in Hkind.
    by apply Hkind. }
  destruct (groups_filter k (group_keys (at_col "user" <$> rows d))
              (λ k', f (List.filter (in_group "user" k') (rows d)))
              (λ i, Int (Z.of_nat i)) Hnd) as [Hin Hout].
  { intros k' r Hk' Hr. apply Hf in Hr. apply list_elem_of_In, filter_In in Hr as [Hr Hg].
    apply list_elem_of_In in Hr. apply Hkeys in Hk' as [_ Hk'].
    rewrite (Hspec r Hr). apply (in_group_spec K) in Hg; try done.
    - rewrite Hg. done.
    - rewrite Forall_forall in Hkind. by apply Hkind. }
  assert (List.filter (in_group "user" k) (rows d) = [] ∨
          ∃ r0, In r0 (List.filter (in_group "user" k) (rows d))) as [HG|(r0 & Hin')].
  { destruct (List.filter (in_group "user" k) (rows d)) as [|r0 G]; [by left|].
    right. exists r0. by left. }
  - rewrite HG, Hnil. apply Hout. intros Hkin. apply Hkeys in Hkin as [Hkin _].
    apply list_elem_of_fmap in Hkin as (r & -> & Hr).
    assert (In r (List.filter (in_group "user" (at_col "user" r)) (rows d))) as Hin'.
    { apply filter_In. split; [by apply list_elem_of_In|]. by apply Hspec. }
    by rewrite HG in Hin'.
  - apply Hin. apply Hkeys. split; [|done].
    apply filter_In in Hin' as [Hr0 Hg]. apply list_elem_of_In in Hr0.
    apply list_elem_of_fmap. exists r0. split; [|done]. symmetry. by apply Hspec.
Qed.

(** *** The passes of the classifier *)

Lemma removelast_length {A} (l : list A) : length (removelast l) = (length l - 1)%nat.
Proof.
  induction l as [|x l IH]; [done|]. destruct l as [|y l]; [done|].
  change (removelast (x :: y :: l)) with (x :: removelast (y :: l)).
  cbn [length] in *. rewrite IH. lia.
Qed.

Lemma tail_length {A} (l : list A) : length (tail l) = (length l - 1)%nat.
Proof. destruct l; simpl; lia. Qed.

Lemma add_str_length a b c :
  add_str a b = Ok c → length c = (length a `min` length b)%nat.
Proof.
  revert b c. induction a as [|x a IH]; intros b c H; [by destruct b; injection H as <-|].
  destruct b as [|y b]; [by destruct x; injection H as <-|].
  simpl in H. destruct x; try done. destruct y; try done.
  apply bind_Ok in H as (cs & Hcs & [= <-]). simpl. by rewrite (IH _ _ Hcs).
Qed.

Lemma pair_codes_length vs codes : pair_codes vs = Ok codes → length codes = length vs.
Proof.
  unfold pair_codes. intros H.
  apply bind_Ok in H as (cur & Hcur & H). apply bind_Ok in H as (nxt & Hnxt & H).
  apply bind_Ok in Hcur as (ci & Hci & Hcur). apply bind_Ok in Hnxt as (ni & Hni & Hnxt).
  apply add_str_length in H. apply mapM_length in Hci, Hcur, Hni, Hnxt.
  rewrite length_fmap, shift_length in Hni. lia.
Qed.

Lemma user_fmap (h : label * row → label * row) (l : list (label * row)) :
  (∀ r, at_col "user" (h r) = at_col "user" r) →
  at_col "user" <$> (h <$> l) = at_col "user" <$> l.
Proof. intros Hh. rewrite <- list_fmap_compose. apply list_fmap_ext. intros _ r _. apply Hh. Qed.

Lemma at_col_user_flagged r : at_col "user" (flagged r) = at_col "user" r.
Proof.
  unfold flagged, mark_flag, clear_flag, at_col. cbn [fst snd].
  by rewrite !lookup_insert_ne.
Qed.

(** What the classification proper leaves in the column of the users: the
    users of the rows of the sorted table that are not the last of their
    group. *)
Lemma classify_users st df col_name out st' d :
  frame_at st df = Some d →
  classify df col_name st = (Ok out, st') →
  ∃ d1 d3 d4 classified,
    sort_values sort_key d = Ok d1 ∧
    at_col "user" <$> rows d3 = at_col "user" <$> rows d1 ∧
    groupby_apply "user" iloc_but_last d3 = Ok d4 ∧
    at_col "user" <$> rows classified = at_col "user" <$> rows d4 ∧
    frame_at st' out = Some classified.
Proof.
  intros Hd H. destruct (frame_at_ref _ _ _ Hd) as (l & -> & _). unfold classify in H.
  step_with H (inplace_run _ _ _ _ Hd). rename a into d1, E into Hsort.
  pose proof (frame_at_set_eq _ _ d1 _ Hd) as Hd1.
  step_with H (assign_run _ _ _ _ _ Hd1). rename a into sh, E into Hsh.
  pose proof (frame_at_set_eq _ _ (setcol "next" sh d1) _ Hd1) as Hd2.
  step_with H (assign_run _ _ _ _ _ Hd2). rename a into codes, E into Hcodes.
  pose proof (frame_at_set_eq _ _ (setcol "next" codes (setcol "next" sh d1)) _ Hd2) as Hd3.
  rewrite !set_object_twice in H, Hd3.
  apply fmap_Ok in Hsh as (vs & Hvs & ->). apply getcol_Ok in Hvs as [_ ->].
  assert (length (shift (-1) (at_col col_name <$> rows d1)) = len d1) as Hlen2
    by (by rewrite shift_length, length_fmap).
  set (d2 := setcol "next" (shift (-1) (at_col col_name <$> rows d1)) d1) in *.
  assert (length codes = len d2) as Hlen3.
  { apply bind_Ok in Hcodes as (vs & Hvs & Hcodes). apply getcol_Ok in Hvs as [_ ->].
    apply pair_codes_length in Hcodes. by rewrite length_fmap in Hcodes. }
  set (d3 := setcol "next" codes d2) in *.
  set (s3 := set_object st l (ODataFrame d3)) in *.
  step_with H (derive_run _ _ _ _ Hd3). rename a into d4, E into Hgroup.
  step_with H (derive_run _ _ _ _ (frame_at_add_eq _ d4)). rename a into d5, E into Hdrop.
  assert (has_column "next" d5 = true) as Hnext.
  { apply groupby_apply_Ok in Hgroup as (Hc4 & _). apply droplevel0_Ok in Hdrop as (Hc5 & _).
    unfold has_column. rewrite Hc5, Hc4. apply has_column_setcol. by left. }
  pose proof (frame_at_add_eq (add_object s3 (ODataFrame d4)) d5) as Hf.
  destruct (assign_flags_run _ _ _ Hf Hnext) as (cs & Hrun).
  rewrite bind_run, Hrun in H. injection H as <- <-.
  exists d1, d3, d4, (mkDF cs (flagged <$> rows d5) (nlevels d5)).
  split; [done|]. split; [|split; [done|split]].
  - unfold d3. rewrite (setcol_rows_fmap (at_col "user")); [|intros r v|done].
    2:{ rewrite at_col_insert. by rewrite decide_False. }
    unfold d2. rewrite (setcol_rows_fmap (at_col "user")); [done|intros r v|done].
    rewrite at_col_insert. by rewrite decide_False.
  - cbn [rows]. rewrite (user_fmap flagged) by apply at_col_user_flagged.
    apply droplevel0_Ok in Hdrop as [_ ->]. by apply user_fmap.
  - apply frame_at_set_same. unfold add_object. cbn [objects]. rewrite !length_app. simpl. lia.
Qed.

Lemma kinds_of_users K (l l' : list (label * row)) :
  at_col "user" <$> l' = at_col "user" <$> l →
  Forall (λ r, kindred K (at_col "user" r)) l →
  Forall (λ r, kindred K (at_col "user" r)) l'.
Proof.
  intros H Hl.
  assert (Forall (kindred K) (at_col "user" <$> l')) as H' by (by rewrite H, Forall_fmap).
  by rewrite Forall_fmap in H'.
Qed.

(** X13. Of the events of each user, [event_classification_screen] returns
    three fewer: the last row of the user is dropped with the transitions
    between subjects, then the first and the last of the rows that remain,
    so that a user with at most three events has no row in the result. *)
Theorem classification_trims_three st df feature_functions out st' d ff col_name :
  frame_at st df = Some d →
  config_at st feature_functions = Some ff →
  column_name (screen_column_name ff) = Ok col_name →
  call event_classification_screen [df; feature_functions] st = (Ok out, st') →
  ∃ result,
    frame_at st' out = Some result ∧
    ∀ k, k ∈ at_col "user" <$> rows d → k ≠ NaN →
         events_of k result = (events_of k d - 3)%nat.
Proof.
  intros Hd Hcfg Hcol H.
  rewrite call_arity in H.
  cbn [length params defaults body event_classification_screen Nat.ltb Nat.leb
       Nat.sub orb drop app] in H.
  rewrite bind_run, (assert_frame_run _ _ _ _ Hd) in H.
  rewrite bind_run, (assert_config_run _ _ _ _ Hcfg) in H.
  rewrite bind_run, (config_run _ _ _ Hcfg) in H.
  rewrite bind_run in H. unfold lift at 1 in H. rewrite Hcol in H.
  rewrite bind_run in H.
  destruct (classify df col_name st) as [[o1|e] s1] eqn:Hc; [|discriminate H].
  destruct (classify_users _ _ _ _ _ _ Hd Hc)
    as (d1 & d3 & d4 & d5 & Hsort & Hu3 & Hgroup & Hu5 & Hf5).
  destruct (frame_at_ref _ _ _ Hf5) as (l1 & -> & _).
  step_with H (inplace_run _ _ _ _ Hf5). rename a into d6, E into Hdrop.
  pose proof (frame_at_set_eq _ _ d6 _ Hf5) as Hf6.
  step_with H (derive_run _ _ _ _ Hf6). rename a into d7, E into Hfirst.
  step_with H (derive_run _ _ _ _ (frame_at_add_eq _ d7)). rename a into d8, E into Hlast.
  step_with H (derive_run _ _ _ _ (frame_at_add_eq _ d8)). rename a into d9, E into Hlev1.
  step_with H (derive_run _ _ _ _ (frame_at_add_eq _ d9)). rename a into d10, E into Hlev2.
  rewrite ret_run in H. injection H as <- <-.
  exists d10. split; [apply frame_at_add_eq|]. intros k Hk Hnan.
  (* the kind of the users *)
  apply sort_values_Ok in Hsort as (_ & Hrows1 & Hby).
  inversion Hby as [|? ? Hsortable _]; subst.
  destruct (sortable_kindred _ Hsortable) as (K & HK & Hkind).
  assert (kind k = Some K) as HkK.
  { rewrite Forall_forall in Hkind. destruct (Hkind _ Hk) as [Hn|]; [|done]. by destruct k. }
  rewrite Forall_fmap in Hkind.
  (* the sorted table, with the pair codes *)
  assert (events_of k d1 = events_of k d) as C1.
  { unfold events_of. rewrite Hrows1. apply filter_length_perm, sort_rows_perm. }
  assert (Forall (λ r, kindred K (at_col "user" r)) (rows d1)) as K1.
  { rewrite Hrows1. apply Forall_forall. intros r Hr. apply sort_rows_elem in Hr.
    rewrite Forall_forall in Hkind. by apply Hkind. }
  pose proof (events_of_user k _ _ Hu3) as C3.
  pose proof (kinds_of_users K _ _ Hu3 K1) as K3.
  (* the transitions between subjects *)
  destruct (groupby_apply_events K _ _ _ k (λ l x, elem_of_removelast l x) eq_refl
              HK HkK K3 Hgroup) as [C4 K4].
  unfold iloc_but_last in C4. rewrite removelast_length in C4. fold (events_of k d3) in C4.
  pose proof (events_of_user k _ _ Hu5) as C5.
  pose proof (kinds_of_users K _ _ Hu5 K4) as K5.
  (* the columns dropped *)
  assert ("user"%string ∉ ["next"%string; col_name]) as Hnot.
  { pose proof Hfirst as Hg. unfold groupby_apply in Hg.
    apply bind_Ok in Hg as (vs & Hvs & _). apply getcol_Ok in Hvs as [Hhas _].
    unfold has_column in Hhas. apply bool_decide_eq_true in Hhas.
    by apply (drop_columns_columns _ _ _ _ Hdrop) in Hhas as [_ ?]. }
  assert (at_col "user" <$> rows d6 = at_col "user" <$> rows d5) as Hu6.
  { apply drop_columns_Ok in Hdrop as ->. apply user_fmap. intros r. by apply at_col_dropped. }
  pose proof (events_of_user k _ _ Hu6) as C6.
  pose proof (kinds_of_users K _ _ Hu6 K5) as K6.
  (* the first and the last row *)
  destruct (groupby_apply_events K _ _ _ k (λ l x, elem_of_tail l x) eq_refl
              HK HkK K6 Hfirst) as [C7 K7].
  unfold iloc_from_1 in C7. rewrite tail_length in C7. fold (events_of k d6) in C7.
  destruct (groupby_apply_events K _ _ _ k (λ l x, elem_of_removelast l x) eq_refl
              HK HkK K7 Hlast) as [C8 _].
  unfold iloc_but_last in C8. rewrite removelast_length in C8. fold (events_of k d7) in C8.
  assert (events_of k d9 = events_of k d8) as C9.
  { apply events_of_user. apply droplevel0_Ok in Hlev1 as [_ ->]. by apply user_fmap. }
  assert (events_of k d10 = events_of k d9) as C10.
  { apply events_of_user. apply droplevel0_Ok in Hlev2 as [_ ->]. by apply user_fmap. }
  lia.
Qed.

Lemma classification_trims_three_witness :
  ∃ result,
    frame_at (call event_classification_screen [PyRef 0%nat; PyRef 2%nat]
                (state_of screen_U1 no_battery)).2
             (PyRef 8%nat) = Some result ∧
    ∀ k, k ∈ at_col "user" <$> rows screen_U1 → k ≠ NaN →
         events_of k result = (events_of k screen_U1 - 3)%nat.
Proof.
  apply (classification_trims_three (state_of screen_U1 no_battery) (PyRef 0%nat)
           (PyRef 2%nat) (PyRef 8%nat) _ screen_U1 ∅ "screen_status");
    [reflexivity | reflexivity | reflexivity
    | refine (run_pair (call event_classification_screen [PyRef 0%nat; PyRef 2%nat]) _ _ _);
      vm_compute; reflexivity].
Defined.

(** Four events of U1: one is returned; three events: none. *)
Example trimming_sample :
  (events_of (Str "U1") <$>
     returned (call event_classification_screen [PyRef 0%nat; PyRef 2%nat])
              (state_of screen_U1 no_battery),
   events_of (Str "U1") <$>
     returned (call event_classification_screen [PyRef 0%nat; PyRef 2%nat])
              (state_of screen_three no_battery))
  = (Some 1%nat, Some 0%nat).
Proof. vm_compute. reflexivity. Qed.

(** One event: the second grouping finds no group and leaves a plain
    index, which [droplevel] cannot drop. *)
Example classification_of_one_event :
  (call event_classification_screen [PyRef 0%nat; PyRef 2%nat]
     (state_of screen_one no_battery)).1
  = Raise ValueError.
Proof. vm_compute. reflexivity. Qed.

(** No event at all: [duration_util_screen] raises likewise, at line 150. *)
Example durations_of_no_event :
  (call duration_util_screen [PyRef 0%nat] (mkState [ODataFrame classified_none] [])).1
  = Raise ValueError.
Proof. vm_compute. reflexivity. Qed.

(** ** duration_util_screen: the rows the artifact filter drops *)

Lemma lookup_pair_split {A} (l : list A) i x y :
  l !! i = Some x → l !! S i = Some y → ∃ l1 l2, l = l1 ++ x :: y :: l2.
Proof.
  intros Hx Hy. exists (take i l), (drop (S (S i)) l).
  rewrite <- (take_drop i l) at 1. f_equal.
  rewrite (drop_S _ _ _ Hx). f_equal. by rewrite (drop_S _ _ _ Hy).
Qed.

Lemma elem_of_removelast_middle {A} (l1 l2 : list A) x y :
  x ∈ removelast (l1 ++ x :: y :: l2).
Proof.
  induction l1 as [|a l1 IH].
  - change (removelast ([] ++ x :: y :: l2)) with (x :: removelast (y :: l2)).
    apply list_elem_of_here.
  - destruct (l1 ++ x :: y :: l2) as [|b l] eqn:E; [by destruct l1|].
    change (removelast ((a :: l1) ++ x :: y :: l2))
      with (removelast (a :: (l1 ++ x :: y :: l2))).
    rewrite E. change (removelast (a :: b :: l)) with (a :: removelast (b :: l)).
    by apply list_elem_of_further.
Qed.

(** A row followed by a row of its own user survives
    [groupby("user").apply(lambda x: x.iloc[:-1])]. *)
Lemma but_last_keeps d d' i cur nxt :
  groupby_apply "user" iloc_but_last d = Ok d' →
  rows d !! i = Some cur → rows d !! S i = Some nxt →
  at_col "user" nxt = at_col "user" cur → at_col "user" cur ≠ NaN →
  ∃ g, (Int (Z.of_nat g) :: cur.1, cur.2) ∈ rows d'.
Proof.
  intros H Hi HSi Hu Hnan. unfold groupby_apply in H.
  apply bind_Ok in H as (vs & Hvs & H). apply getcol_Ok in Hvs as [_ ->].
  destruct (sortable _) eqn:Hs; [|done]. injection H as <-. cbn [rows].
  destruct (sortable_kindred _ Hs) as (K & HK & Hkind).
  assert (cur ∈ rows d) as Hcur by (by eapply list_elem_of_lookup_2).
  assert (nxt ∈ rows d) as Hnxt by (by eapply list_elem_of_lookup_2).
  assert (∀ r, r ∈ rows d → kindred K (at_col "user" r)) as Hkind'.
  { intros r Hr. rewrite Forall_fmap, Forall_forall in Hkind. by apply Hkind. }
  assert (kind (at_col "user" cur) = Some K) as Hk.
  { destruct (Hkind' _ Hcur) as [Hn|]; [|done]. by destruct (at_col "user" cur). }
  destruct (group_keys_spec K _ HK Hkind) as [_ Hkeys].
  assert (at_col "user" cur ∈ group_keys (at_col "user" <$> rows d)) as Hin.
  { apply Hkeys. split; [|done]. apply list_elem_of_fmap. by exists cur. }
  apply list_elem_of_lookup in Hin as (g & Hg). exists g.
  apply list_elem_of_join.
  exists ((λ r : label * row, (Int (Z.of_nat g) :: r.1, r.2))
            <$> iloc_but_last (List.filter (in_group "user" (at_col "user" cur)) (rows d))).
  split.
  - apply list_elem_of_fmap. exists cur. split; [done|].
    assert (in_group "user" (at_col "user" cur) cur = true) as Hgc
      by (apply (in_group_spec K); auto).
    assert (in_group "user" (at_col "user" cur) nxt = true) as Hgn
      by (apply (in_group_spec K); auto).
    destruct (lookup_pair_split _ _ _ _ Hi HSi) as (l1 & l2 & ->).
    rewrite List.filter_app. cbn [List.filter]. rewrite Hgc, Hgn.
    apply elem_of_removelast_middle.
  - apply elem_of_lookup_imap. by exists g, (at_col "user" cur).
Qed.

Lemma total_seconds_Seconds c ns : total_seconds c = Ok (Seconds ns) → c = Timedelta ns.
Proof. destruct c; simpl; try done. by intros [= ->]. Qed.

Lemma too_long_iff c (r : label * row) ns :
  at_col "duration" r = Timedelta ns → too_long c r ↔ at_col c r = Int 1 ∧ thr < ns.
Proof.
  intros Hd. unfold too_long. rewrite Hd. split.
  - intros (? & ns' & [= <-] & ?). done.
  - intros [? ?]. eauto.
Qed.

(** C5. In the table [duration_util_screen] returns, a row of the sorted
    input that is followed by a row of its own user, [t2 - t1] nanoseconds
    later, is present (with that duration, in seconds) unless the duration
    exceeds ten hours and its [on] flag or its [use] flag is set: the two
    filters drop these rows and no other.  An on-transition of eleven hours
    is dropped, one of nine hours is kept, and a row with neither flag set
    (an off or irrelevant transition) is kept whatever its duration. *)
Theorem artifact_filter_threshold st df st' out d :
  frame_at st df = Some d →
  call duration_util_screen [df] st = (Ok out, st') →
  ∃ sorted result,
    sort_values sort_key d = Ok sorted ∧
    frame_at st' out = Some result ∧
    ∀ i cur nxt t1 t2,
      rows sorted !! i = Some cur → rows sorted !! S i = Some nxt →
      at_col "user" nxt = at_col "user" cur → at_col "user" cur ≠ NaN →
      at_col "datetime" cur = Timestamp t1 → at_col "datetime" nxt = Timestamp t2 →
      let kept := (cur.1, <["duration"%string := Seconds (t2 - t1)]> cur.2) ∈ rows result in
      (kept ↔ ¬ (thr < t2 - t1 ∧ (at_col "on" cur = Int 1 ∨ at_col "use" cur = Int 1))) ∧
      (at_col "on" cur = Int 1 → t2 - t1 = hours 11 → ¬ kept) ∧
      (at_col "on" cur = Int 1 → at_col "use" cur ≠ Int 1 → t2 - t1 = hours 9 → kept) ∧
      (at_col "on" cur ≠ Int 1 → at_col "use" cur ≠ Int 1 → kept).
Proof.
  intros Hd H. destruct (frame_at_ref _ _ _ Hd) as (l & -> & _).
  rewrite call_arity in H.
  cbn [length params defaults body duration_util_screen Nat.ltb Nat.leb Nat.sub orb drop app]
    in H.
  rewrite bind_run, (assert_frame_run _ _ _ _ Hd) in H.
  step_with H (inplace_run _ _ _ _ Hd). rename a into d1, E into Hsort.
  pose proof (frame_at_set_eq _ _ d1 _ Hd) as Hd1.
  rewrite bind_run, (assign_run _ _ _ _ _ Hd1) in H. cbv beta iota in H.
  rewrite set_object_twice in H.
  set (d2 := setcol "duration" (replicate (len d1) NaN) d1) in *.
  pose proof (frame_at_set_eq _ _ d2 _ Hd) as Hd2.
  step_with H (assign_run _ _ _ _ _ Hd2). rename a into D, E into HD.
  rewrite set_object_twice in H.
  set (d3 := setcol "duration" D d2) in *.
  pose proof (frame_at_set_eq _ _ d3 _ Hd) as Hd3.
  step_with H (assign_run _ _ _ _ _ Hd3). rename a into D', E into HD'.
  rewrite set_object_twice in H.
  set (d4 := setcol "duration" D' d3) in *.
  pose proof (frame_at_set_eq _ _ d4 _ Hd) as Hd4.
  step_with H (derive_run _ _ _ _ Hd4). rename a into d5, E into Hgroup.
  step_with H (derive_run _ _ _ _ (frame_at_add_eq _ d5)). rename a into d6, E into Hdrop.
  rewrite bind_run in H. unfold drop_artifacts in H.
  step_with H (derive_run _ _ _ _ (frame_at_add_eq _ d6)). rename a into d7, E into Hon.
  rewrite (derive_run _ _ _ _ (frame_at_add_eq _ d7)) in H.
  destruct (artifact_filter "use" d7) as [d8|] eqn:Huse; [|discriminate H].
  step_with H (assign_run _ _ _ _ _ (frame_at_add_eq _ d8)). rename a into secs, E into Hsecs.
  rewrite ret_run in H. injection H as <- <-.
  exists d1, (setcol "duration" secs d8). split; [done|]. split.
  { apply frame_at_set_same. unfold add_object. cbn [objects]. rewrite !length_app. simpl. lia. }
  intros i cur nxt t1 t2 Hcur Hnxt Hu Hnan Ht1 Ht2.
  set (dt := t2 - t1).
  (* the rows of the table the filters receive *)
  apply artifact_filter_rows in Hon as [_ Hon]. apply artifact_filter_rows in Huse as [_ Huse].
  assert (∀ r, r ∈ rows d8 ↔ r ∈ rows d6 ∧ ¬ too_long "on" r ∧ ¬ too_long "use" r) as Hfilter.
  { intros r. rewrite Huse, Hon. tauto. }
  apply bind_Ok in Hsecs as (du & Hdu & Hsecs). apply getcol_Ok in Hdu as [_ ->].
  (* the returned rows are rows of that table, with the duration in seconds *)
  assert (∀ r', r' ∈ rows (setcol "duration" secs d8) ↔
                ∃ r s, r ∈ rows d8 ∧ total_seconds (at_col "duration" r) = Ok s ∧
                       r' = (r.1, <["duration"%string := s]> r.2)) as Hres.
  { intros r'. split.
    - intros Hr'. apply list_elem_of_lookup in Hr' as (j & Hj).
      apply setcol_lookup in Hj as (r & s & Hr & Hs & ->). exists r, s.
      split; [by eapply list_elem_of_lookup_2|]. split; [|done].
      assert ((at_col "duration" <$> rows d8) !! j = Some (at_col "duration" r)) as Hdj
        by (by rewrite list_lookup_fmap, Hr).
      destruct (mapM_lookup _ _ _ _ _ Hsecs Hdj) as (s' & Hs' & Hs'').
      rewrite Hs in Hs''. by injection Hs'' as <-.
    - intros (r & s & Hr & Hs & ->). apply list_elem_of_lookup in Hr as (j & Hj).
      apply (list_elem_of_lookup_2 _ j). apply setcol_lookup. exists r, s.
      split; [done|]. split; [|done].
      assert ((at_col "duration" <$> rows d8) !! j = Some (at_col "duration" r)) as Hdj
        by (by rewrite list_lookup_fmap, Hj).
      destruct (mapM_lookup _ _ _ _ _ Hsecs Hdj) as (s' & Hs' & Hs'').
      rewrite Hs in Hs'. by injection Hs' as <-. }
  (* the row of [cur] in the table the filters receive *)
  assert (∃ m, (cur.1, m) ∈ rows d6 ∧ m !! "duration"%string = Some (Timedelta dt) ∧
               ∀ c, c ≠ "duration"%string → m !! c = cur.2 !! c) as (m & Hm6 & Hmd & Hmc).
  { apply sort_values_Ok in Hsort as (_ & Hrows1 & _).
    assert (i < len d1 ∧ S i < len d1)%nat as [Hi1 Hi2].
    { unfold len. apply lookup_lt_Some in Hcur, Hnxt. lia. }
    assert (rows d2 !! i = Some (cur.1, <["duration"%string := NaN]> cur.2)) as Hc2.
    { apply setcol_lookup. exists cur, NaN. split; [done|]. split; [|done].
      by apply lookup_replicate_2. }
    assert (rows d2 !! S i = Some (nxt.1, <["duration"%string := NaN]> nxt.2)) as Hn2.
    { apply setcol_lookup. exists nxt, NaN. split; [done|]. split; [|done].
      by apply lookup_replicate_2. }
    apply bind_Ok in HD as (dts & Hdts & HD). apply getcol_Ok in Hdts as [_ ->].
    assert (length D = len d2) as HlenD.
    { unfold diff in HD. apply sub_length in HD.
      rewrite shift_length, Nat.min_id, length_fmap in HD. done. }
    assert (len d2 = len d1) as Hlen2 by (apply setcol_len, length_replicate).
    assert ((at_col "datetime" <$> rows d2) !! i = Some (Timestamp t1)) as Hx.
    { rewrite list_lookup_fmap, Hc2. cbn [fmap option_fmap option_map].
      rewrite at_col_pair_insert, decide_False, at_col_pair, Ht1 by done. done. }
    assert ((at_col "datetime" <$> rows d2) !! S i = Some (Timestamp t2)) as Hy.
    { rewrite list_lookup_fmap, Hn2. cbn [fmap option_fmap option_map].
      rewrite at_col_pair_insert, decide_False, at_col_pair, Ht2 by done. done. }
    destruct (duration_lookup _ _ _ _ _ HD Hx Hy) as (v & Hv & HDi).
    simpl in Hv. injection Hv as <-. fold dt in HDi.
    destruct (lookup_lt_is_Some_2 D i) as [vi Hvi]; [lia|].
    destruct (lookup_lt_is_Some_2 D (S i)) as [vn Hvn]; [lia|].
    assert (rows d3 !! i = Some (cur.1, <["duration"%string := vi]>
                                          (<["duration"%string := NaN]> cur.2))) as Hc3.
    { apply setcol_lookup. eexists _, vi. split; [exact Hc2|]. by split. }
    assert (rows d3 !! S i = Some (nxt.1, <["duration"%string := vn]>
                                            (<["duration"%string := NaN]> nxt.2))) as Hn3.
    { apply setcol_lookup. eexists _, vn. split; [exact Hn2|]. by split. }
    apply fmap_Ok in HD' as (D0 & HD0 & ->). apply getcol_Ok in HD0 as [_ ->].
    assert (at_col "duration" <$> rows d3 = D) as HD3 by (by apply setcol_at_col).
    destruct (lookup_lt_is_Some_2 (shift (-1) D) (S i)) as [wn Hwn];
      [rewrite shift_length; lia|].
    assert (rows d4 !! i
            = Some (cur.1, <["duration"%string := Timedelta dt]>
                             (<["duration"%string := vi]>
                                (<["duration"%string := NaN]> cur.2)))) as Hc4.
    { apply setcol_lookup. eexists _, _. split; [exact Hc3|]. rewrite HD3. by split. }
    assert (rows d4 !! S i
            = Some (nxt.1, <["duration"%string := wn]>
                             (<["duration"%string := vn]>
                                (<["duration"%string := NaN]> nxt.2)))) as Hn4.
    { apply setcol_lookup. eexists _, _. split; [exact Hn3|]. rewrite HD3. by split. }
    destruct (but_last_keeps _ _ _ _ _ Hgroup Hc4 Hn4) as (g & Hg).
    { rewrite !at_col_pair_insert, !decide_False, !at_col_pair by done. done. }
    { rewrite !at_col_pair_insert, !decide_False, !at_col_pair by done. done. }
    cbn [fst snd] in Hg.
    exists (<["duration"%string := Timedelta dt]>
              (<["duration"%string := vi]> (<["duration"%string := NaN]> cur.2))).
    split; [|split].
    - apply droplevel0_Ok in Hdrop as [_ ->]. apply list_elem_of_fmap.
      eexists. split; [|exact Hg]. done.
    - by rewrite lookup_insert, decide_True.
    - intros c Hc. by rewrite !lookup_insert_ne. }
  assert (∀ c, c ≠ "duration"%string → at_col c (cur.1, m) = at_col c cur) as Hcols.
  { intros c Hc. unfold at_col. cbn [snd]. by rewrite Hmc. }
  assert (at_col "duration" (cur.1, m) = Timedelta dt) as Hdur.
  { unfold at_col. cbn [snd]. by rewrite Hmd. }
  assert (<["duration"%string := Seconds dt]> m = <["duration"%string := Seconds dt]> cur.2)
    as Hins.
  { apply map_eq. intros c. destruct (decide (c = "duration"%string)) as [->|Hc].
    - by rewrite !lookup_insert, !decide_True.
    - rewrite !lookup_insert_ne by done. by apply Hmc. }
  (* kept exactly when neither filter drops it *)
  assert ((cur.1, <["duration"%string := Seconds dt]> cur.2)
            ∈ rows (setcol "duration" secs d8)
          ↔ ¬ (thr < dt ∧ (at_col "on" cur = Int 1 ∨ at_col "use" cur = Int 1))) as Hiff.
  { rewrite Hres. split.
    - intros (r & s & Hr & Hs & Heq) [Hlong Hflag].
      injection Heq as Hl Hmap.
      assert (s = Seconds dt) as ->.
      { apply (f_equal (λ x : row, x !! "duration"%string)) in Hmap.
        rewrite !lookup_insert, !decide_True in Hmap by done. by injection Hmap. }
      apply total_seconds_Seconds in Hs.
      assert (∀ c, c ≠ "duration"%string → at_col c r = at_col c cur) as Hrc.
      { intros c Hc. apply (f_equal (λ x : row, x !! c)) in Hmap.
        rewrite !lookup_insert_ne in Hmap by done. unfold at_col. by rewrite Hmap. }
      apply Hfilter in Hr as (_ & Hno & Hnu).
      rewrite (too_long_iff "on" _ _ Hs), Hrc in Hno by done.
      rewrite (too_long_iff "use" _ _ Hs), Hrc in Hnu by done.
      destruct Hflag; tauto.
    - intros Hnot. exists (cur.1, m), (Seconds dt). split; [|split].
      + apply Hfilter. split; [done|].
        rewrite (too_long_iff "on" _ _ Hdur), (too_long_iff "use" _ _ Hdur), !Hcols by done.
        tauto.
      + by rewrite Hdur.
      + cbn [fst snd]. by rewrite Hins. }
  cbn zeta. fold dt. split; [exact Hiff|]. split; [|split].
  - intros Hon1 Hdt Hk. apply Hiff in Hk. apply Hk. split; [|by left].
    rewrite Hdt. by vm_compute.
  - intros Hon1 Huse1 Hdt. apply Hiff. intros [Hlong _]. rewrite Hdt in Hlong.
    by vm_compute in Hlong.
  - intros Hno Hnu. apply Hiff. intros [_ [?|?]]; done.
Qed.

Lemma artifact_filter_threshold_witness :
  ∃ sorted result,
    sort_values sort_key transitions_sample = Ok sorted ∧
    frame_at (call duration_util_screen [PyRef 0%nat]
                (mkState [ODataFrame transitions_sample] [])).2 (PyRef 4%nat) = Some result ∧
    ∀ i cur nxt t1 t2,
      rows sorted !! i = Some cur → rows sorted !! S i = Some nxt →
      at_col "user" nxt = at_col "user" cur → at_col "user" cur ≠ NaN →
      at_col "datetime" cur = Timestamp t1 → at_col "datetime" nxt = Timestamp t2 →
      let kept := (cur.1, <["duration"%string := Seconds (t2 - t1)]> cur.2) ∈ rows result in
      (kept ↔ ¬ (thr < t2 - t1 ∧ (at_col "on" cur = Int 1 ∨ at_col "use" cur = Int 1))) ∧
      (at_col "on" cur = Int 1 → t2 - t1 = hours 11 → ¬ kept) ∧
      (at_col "on" cur = Int 1 → at_col "use" cur ≠ Int 1 → t2 - t1 = hours 9 → kept) ∧
      (at_col "on" cur ≠ Int 1 → at_col "use" cur ≠ Int 1 → kept).
Proof.
  apply (artifact_filter_threshold (mkState [ODataFrame transitions_sample] [])
           (PyRef 0%nat) _ (PyRef 4%nat) transitions_sample);
    [reflexivity
    | refine (run_pair (call duration_util_screen [PyRef 0%nat]) _ _ _); vm_compute; reflexivity].
Defined.

(** The sample: the on-transition of eleven hours (at hour 0) and the
    use-transition of eleven hours (at hour 32) are dropped; the
    on-transition of nine hours, the off-transition of twelve hours, the
    irrelevant one of twenty hours and the use-transition of ten hours are
    kept; the last event has no duration. *)
Example artifact_filter_end_to_end :
  (λ d, (λ r, (at_col "time" r, at_col "duration" r)) <$> rows d)
    <$> returned (call duration_util_screen [PyRef 0%nat])
                 (mkState [ODataFrame transitions_sample] [])
  = Some [(Int 11, Seconds (hours 9)); (Int 20, Seconds (hours 12));
          (Int 43, Seconds (hours 20)); (Int 63, Seconds (hours 10))].
Proof. vm_compute. reflexivity. Qed.

(** ** battery.py: the records a text column gives *)

Lemma shutdown_filter_items (its : list (label * cell)) vs mask :
  mapM to_numeric_cell (its.*2) = Ok vs →
  mapM (between (-3) 0 false)
       (zip_with (λ (it : label * cell) v, (it.1, v)) its vs).*2 = Ok mask →
  ∀ l c, (l, c) ∈ mask_filter mask (zip_with (λ (it : label * cell) v, (it.1, v)) its vs) ↔
         ∃ c0 v, (l, c0) ∈ its ∧ to_numeric_cell c0 = Ok (Int v) ∧ c = Int v ∧ -3 < v < 0.
Proof.
  revert vs mask. induction its as [|[l0 c0] its IH]; intros vs mask Hn Hm l c.
  - simpl. rewrite mask_filter_nil.
    split; [intros H; inversion H | intros (?&?&H&_); inversion H].
  - rewrite fmap_cons in Hn. apply mapM_cons_Ok in Hn as (y & k & Hy & Hk & ->).
    cbn [zip_with] in Hm. rewrite fmap_cons in Hm. cbn [fst snd] in Hy, Hm.
    apply mapM_cons_Ok in Hm as (m0 & mask' & Hb & Hm & ->).
    specialize (IH k mask' Hk Hm l c).
    cbn [zip_with mask_filter fst snd].
    assert ((∃ c1 v, (l, c1) ∈ (l0, c0) :: its ∧ to_numeric_cell c1 = Ok (Int v) ∧
                     c = Int v ∧ -3 < v < 0)
            ↔ (l = l0 ∧ ∃ v, y = Int v ∧ c = Int v ∧ -3 < v < 0) ∨
              (∃ c1 v, (l, c1) ∈ its ∧ to_numeric_cell c1 = Ok (Int v) ∧
                       c = Int v ∧ -3 < v < 0)) as ->.
    { split.
      - intros (c1 & v & Hin & Hv & -> & Hr). apply elem_of_cons in Hin as [[= -> ->]|Hin].
        + left. split; [done|]. exists v. rewrite Hv in Hy. by injection Hy as <-.
        + right. eauto 10.
      - intros [(-> & v & -> & -> & Hr)|(c1 & v & Hin & Hv & -> & Hr)].
        + exists c0, v. split; [apply list_elem_of_here|done].
        + exists c1, v. split; [by apply list_elem_of_further|done]. }
    destruct y as [|z| | | | |]; simpl in Hb; try done; injection Hb as <-.
    + rewrite IH. split; [by right|]. by intros [(_ & v & ? & _)|?].
    + destruct ((-3 <? z) && (z <? 0)) eqn:Hin.
      * rewrite elem_of_cons, IH. split.
        -- intros [[= -> ->]|?]; [|by right]. left. split; [done|]. exists z.
           split; [done|]. split; [done|]. lia.
        -- intros [(-> & v & [= <-] & -> & _)|?]; [by left|by right].
      * rewrite IH. split; [by right|]. intros [(_ & v & [= <-] & _ & Hr)|?]; [lia|done].
Qed.

(** A column that [.str] accepts holds text, which does not compare with
    -3 and 0. *)
Lemma between_text_raises vs numeric mask :
  b.str_isnumeric vs = Ok numeric → mapM (between (-3) 0 false) vs = Ok mask → False.
Proof.
  unfold b.str_isnumeric. destruct vs as [|c vs]; [done|].
  destruct (existsb _ _) eqn:E; [|done]. intros _ H.
  apply existsb_exists in E as (x & Hx & Ht). apply list_elem_of_In in Hx.
  apply list_elem_of_lookup in Hx as (i & Hi).
  destruct (mapM_lookup _ _ _ _ _ H Hi) as (y & Hy & _). by destruct x.
Qed.

Lemma shutdown_records (s out : Series) :
  b.shutdown s = Ok out →
  ∀ l c, (l, c) ∈ items out ↔
         ∃ c0 v, (l, c0) ∈ items s ∧ to_numeric_cell c0 = Ok (Int v) ∧ c = Int v ∧ -3 < v < 0.
Proof.
  unfold b.shutdown. intros H.
  apply bind_Ok in H as (numeric & Hnum & H).
  apply bind_Ok in H as (s' & Hs' & H).
  apply bind_Ok in H as (mask & Hmask & [= <-]). cbn [items].
  destruct (negb _) eqn:Hall.
  - apply fmap_Ok in Hs' as (vs & Hvs & ->). unfold values, with_values in *. cbn [items] in *.
    by apply shutdown_filter_items.
  - injection Hs' as <-. by destruct (between_text_raises _ _ _ Hnum Hmask).
Qed.

(** X14. Whenever [shutdown_info] returns, the records it returns are
    exactly the records of its argument whose value, read as a number, is a
    [v] with [-3 < v < 0], both bounds excluded: -2 and -1 are kept; 0, -3
    and 1 are not.  (It returns on a column of text that is not digits
    only, the column it converts.) *)
Theorem shutdown_info_strict_bounds st battery_status result st' :
  call b.shutdown_info [battery_status] st = (Ok result, st') →
  ∃ s out,
    series_at st battery_status = Some s ∧
    series_at st' result = Some out ∧
    ∀ l c, (l, c) ∈ items out ↔
           ∃ c0 v, (l, c0) ∈ items s ∧ to_numeric_cell c0 = Ok (Int v) ∧
                   c = Int v ∧ -3 < v < 0.
Proof.
  rewrite call_arity. cbn [length params defaults body b.shutdown_info Nat.ltb Nat.leb
                           Nat.sub orb drop app].
  intros H. rewrite bind_run, series_run in H.
  destruct (series_at st battery_status) as [s|]; [|discriminate H].
  rewrite bind_run in H. unfold lift in H.
  destruct (b.shutdown s) as [out|] eqn:Hout; [|discriminate H].
  unfold new in H. injection H as <- <-.
  exists s, out. split; [done|]. split.
  - unfold series_at, object_at. simpl. by rewrite lookup_app_r, Nat.sub_diag.
  - by apply shutdown_records.
Qed.

Lemma shutdown_info_strict_bounds_witness :
  call b.shutdown_info [PyRef 0%nat] (mkState [OSeries battery_sample] [])
  = (Ok (PyRef 1%nat), mkState [OSeries battery_sample; OSeries battery_sample_shutdown] []) ∧
  ∃ s out,
    series_at (mkState [OSeries battery_sample] []) (PyRef 0%nat) = Some s ∧
    series_at (mkState [OSeries battery_sample; OSeries battery_sample_shutdown] [])
              (PyRef 1%nat) = Some out ∧
    ∀ l c, (l, c) ∈ items out ↔
           ∃ c0 v, (l, c0) ∈ items s ∧ to_numeric_cell c0 = Ok (Int v) ∧
                   c = Int v ∧ -3 < v < 0.
Proof.
  split; [reflexivity|].
  apply (shutdown_info_strict_bounds (mkState [OSeries battery_sample] []) (PyRef 0%nat)).
  reflexivity.
Defined.

(** Text with a missing value among it: the column is converted, the
    missing value is no shutdown. *)
Example shutdown_info_text_with_missing :
  (call b.shutdown_info [PyRef 0%nat]
     (mkState [OSeries (mkSeries (Some "battery_status"%string)
                          [([Int 0], Str "-2"); ([Int 1], NaN); ([Int 2], Str "50")])] [])).2
  = mkState [OSeries (mkSeries (Some "battery_status"%string)
                        [([Int 0], Str "-2"); ([Int 1], NaN); ([Int 2], Str "50")]);
             OSeries (mkSeries (Some "battery_status"%string) [([Int 0], Int (-2))])] [].
Proof. reflexivity. Qed.
